(** * vwap_bot: a shallow embedding of the alert registry, the store,
      the poller and the command handlers of [src/vwap_bot.py].

    Python floats are IEEE-754 binary64 values ([spec_float] with
    [prec = 53], [emax = 1024]); [datetime] objects are records of their
    civil fields; the module-level dictionary [price_alerts] is an
    insertion-ordered association list; handlers run in a state monad
    over the process state whose results are either a value or a raised
    exception, the state reached so far being kept in both cases. *)

From Stdlib Require Import ZArith List String Ascii Bool Lia.
From Stdlib Require Import Sorted Permutation.
From Stdlib Require Import Floats.SpecFloat.
Import ListNotations.

Local Open Scope Z_scope.

(* ===================================================================== *)
(** ** Python floats *)
(* ===================================================================== *)

Module Float.

Definition prec : Z := 53.
Definition emax : Z := 1024.

Definition float := spec_float.

Definition mul : float -> float -> float := SFmul prec emax.
Definition sub : float -> float -> float := SFsub prec emax.
Definition leb : float -> float -> bool := SFleb.
Definition ltb : float -> float -> bool := SFltb.

Definition is_zero (x : float) : bool :=
  match x with S754_zero _ => true | _ => false end.

(** [x / y] on Python floats: [ZeroDivisionError] when the divisor is a
    zero of either sign, the IEEE quotient otherwise. *)
Definition truediv (x y : float) : option float :=
  if is_zero y then None else Some (SFdiv prec emax x y).

(** The binary64 value nearest to [m / 10^k] (ties to even), which is how
    a decimal literal such as [0.9] or [89.99] is read. *)
Definition of_decimal (neg : bool) (m : positive) (k : nat) : float :=
  let '(q, e, l) :=
    SFdiv_core_binary prec emax (Zpos m) 0 (10 ^ Z.of_nat k) 0 in
  binary_round_aux prec emax neg q e l.

(** The literals of the source. *)
Definition c0_9 : float := S754_finite false 8106479329266893 (-53).
Definition c1_1 : float := S754_finite false 4953959590107546 (-52).
Definition c100 : float := S754_finite false 7036874417766400 (-46).

End Float.


(* ===================================================================== *)
(** ** Strings: decimal fields and [str.lower] *)
(* ===================================================================== *)

Module Text.

Local Open Scope string_scope.
Local Open Scope Z_scope.

Definition digit (n : Z) : ascii := ascii_of_nat (48 + Z.to_nat n).

Definition digit_value (c : ascii) : option Z :=
  let n := Z.of_nat (nat_of_ascii c) in
  if (48 <=? n) && (n <=? 57) then Some (n - 48) else None.

(** ["%0<width>d" % n] for [0 <= n < 10^width]. *)
Fixpoint zfill (width : nat) (n : Z) : string :=
  match width with
  | O => ""
  | S w => String (digit ((n / 10 ^ Z.of_nat w) mod 10)) (zfill w n)
  end.

(** Reads exactly [width] decimal digits. *)
Fixpoint read_digits (width : nat) (acc : Z) (s : string)
  : option (Z * string) :=
  match width with
  | O => Some (acc, s)
  | S w =>
      match s with
      | String c s' =>
          match digit_value c with
          | Some d => read_digits w (10 * acc + d) s'
          | None => None
          end
      | EmptyString => None
      end
  end.

Definition expect (c : ascii) (s : string) : option string :=
  match s with
  | String c' s' => if Ascii.eqb c c' then Some s' else None
  | EmptyString => None
  end.

(** [str.lower] on the ASCII letters (contract addresses are ASCII). *)
Definition lower_ascii (c : ascii) : ascii :=
  let n := nat_of_ascii c in
  if (Nat.leb 65 n && Nat.leb n 90)%bool then ascii_of_nat (n + 32) else c.

Fixpoint lower (s : string) : string :=
  match s with
  | EmptyString => EmptyString
  | String c s' => String (lower_ascii c) (lower s')
  end.

End Text.

(* ===================================================================== *)
(** ** [datetime] and [timedelta] *)
(* ===================================================================== *)

Module Datetime.

Import Text.
Local Open Scope string_scope.
Local Open Scope Z_scope.

(** A [datetime] object. [tzinfo] is [None] for a naive value and
    [Some off] for a fixed offset of [off] minutes east of UTC;
    [timezone.utc] is [Some 0]. *)
Record datetime := mkDatetime {
  year : Z; month : Z; day : Z;
  hour : Z; minute : Z; second : Z; microsecond : Z;
  tzinfo : option Z
}.

Definition utc : option Z := Some 0.

Definition is_leap (y : Z) : bool :=
  (y mod 4 =? 0) && (negb (y mod 100 =? 0) || (y mod 400 =? 0)).

Definition days_in_month (y m : Z) : Z :=
  if (m =? 2) && is_leap y then 29
  else nth (Z.to_nat m) [0; 31; 28; 31; 30; 31; 30; 31; 31; 30; 31; 30; 31] 0.

Definition days_before_month (y m : Z) : Z :=
  nth (Z.to_nat m) [0; 0; 31; 59; 90; 120; 151; 181; 212; 243; 273; 304; 334] 0
  + (if (2 <? m) && is_leap y then 1 else 0).

Definition days_before_year (y : Z) : Z :=
  let y := y - 1 in y * 365 + y / 4 - y / 100 + y / 400.

(** The range checks of the [datetime] and [timezone] constructors. *)
Definition valid_tz (tz : option Z) : bool :=
  match tz with
  | None => true
  | Some off => (-1440 <? off) && (off <? 1440)
  end.

Definition valid (d : datetime) : bool :=
  (1 <=? year d) && (year d <=? 9999) &&
  (1 <=? month d) && (month d <=? 12) &&
  (1 <=? day d) && (day d <=? days_in_month (year d) (month d)) &&
  (0 <=? hour d) && (hour d <=? 23) &&
  (0 <=? minute d) && (minute d <=? 59) &&
  (0 <=? second d) && (second d <=? 59) &&
  (0 <=? microsecond d) && (microsecond d <=? 999999) &&
  valid_tz (tzinfo d).

Definition toordinal (d : datetime) : Z :=
  days_before_year (year d) + days_before_month (year d) (month d) + day d.

(** A [timedelta], as its total number of microseconds (the normalised
    [(days, seconds, microseconds)] triple of Python orders the same way). *)
Definition timedelta := Z.

Definition timedelta_days (n : Z) : timedelta := n * 86400 * 1000000.

(** [a - b]. [None] is the [TypeError] raised when exactly one of the two
    is naive. *)
Definition sub (a b : datetime) : option timedelta :=
  let secs (d : datetime) := second d + minute d * 60 + hour d * 3600 in
  let base :=
    ((toordinal a - toordinal b) * 86400 + (secs a - secs b)) * 1000000
    + (microsecond a - microsecond b) in
  match tzinfo a, tzinfo b with
  | None, None => Some base
  | Some myoff, Some otoff => Some (base + (otoff - myoff) * 60 * 1000000)
  | _, _ => None
  end.

(** [str(d)], that is [d.isoformat(sep=' ')]. *)
Definition format_offset (off : Z) : string :=
  (if off <? 0 then "-" else "+")
    ++ zfill 2 (Z.abs off / 60) ++ ":" ++ zfill 2 (Z.abs off mod 60).

Definition str (d : datetime) : string :=
  zfill 4 (year d) ++ "-" ++ zfill 2 (month d) ++ "-" ++ zfill 2 (day d)
    ++ " " ++ zfill 2 (hour d) ++ ":" ++ zfill 2 (minute d)
    ++ ":" ++ zfill 2 (second d)
    ++ (if microsecond d =? 0 then "" else "." ++ zfill 6 (microsecond d))
    ++ match tzinfo d with None => "" | Some off => format_offset off end.

(** [datetime.fromisoformat] on the strings that [str] produces:
    [YYYY-MM-DD], one separator character, [HH:MM:SS], an optional
    six-digit fraction and an optional [+HH:MM] / [-HH:MM] offset.
    [None] is [ValueError]. *)
Definition parse_offset (s : string) : option (option Z) :=
  match s with
  | EmptyString => Some None
  | String c s' =>
      if Ascii.eqb c "+" || Ascii.eqb c "-" then
        match read_digits 2 0 s' with
        | Some (hh, s1) =>
            match expect ":" s1 with
            | Some s2 =>
                match read_digits 2 0 s2 with
                | Some (mm, EmptyString) =>
                    let off := hh * 60 + mm in
                    Some (Some (if Ascii.eqb c "-" then - off else off))
                | _ => None
                end
            | None => None
            end
        | None => None
        end
      else None
  end.

Definition parse_fraction (s : string) : option (Z * string) :=
  match s with
  | String c s' => if Ascii.eqb c "." then read_digits 6 0 s' else Some (0, s)
  | EmptyString => Some (0, s)
  end.

Definition fromisoformat (s : string) : option datetime :=
  match read_digits 4 0 s with
  | Some (y, s) =>
  match expect "-" s with
  | Some s =>
  match read_digits 2 0 s with
  | Some (mo, s) =>
  match expect "-" s with
  | Some s =>
  match read_digits 2 0 s with
  | Some (dd, String _sep s) =>
  match read_digits 2 0 s with
  | Some (hh, s) =>
  match expect ":" s with
  | Some s =>
  match read_digits 2 0 s with
  | Some (mi, s) =>
  match expect ":" s with
  | Some s =>
  match read_digits 2 0 s with
  | Some (ss, s) =>
  match parse_fraction s with
  | Some (us, s) =>
  match parse_offset s with
  | Some tz =>
      let d := mkDatetime y mo dd hh mi ss us tz in
      if valid d then Some d else None
  | None => None end
  | None => None end
  | None => None end
  | None => None end
  | None => None end
  | None => None end
  | None => None end
  | _ => None end
  | None => None end
  | None => None end
  | None => None end
  | None => None end.

End Datetime.


(* ===================================================================== *)
(** ** Insertion-ordered dictionaries with string keys *)
(* ===================================================================== *)

Module Dict.
Section Ops.
Context {V : Type}.

Definition dict := list (string * V).

Definition keys (d : dict) : list string := map fst d.

Fixpoint get (k : string) (d : dict) : option V :=
  match d with
  | [] => None
  | (k', v) :: d' => if String.eqb k k' then Some v else get k d'
  end.

Definition contains (k : string) (d : dict) : bool :=
  match get k d with Some _ => true | None => false end.

(** [d[k] = v]: an existing key keeps its position. *)
Fixpoint set (k : string) (v : V) (d : dict) : dict :=
  match d with
  | [] => [(k, v)]
  | (k', v') :: d' =>
      if String.eqb k k' then (k, v) :: d' else (k', v') :: set k v d'
  end.

(** [del d[k]]. *)
Fixpoint del (k : string) (d : dict) : dict :=
  match d with
  | [] => []
  | (k', v') :: d' =>
      if String.eqb k k' then d' else (k', v') :: del k d'
  end.

(** In-place mutation of the value object held in slot [i]: what an
    assignment to a field of the object yielded by [items()] does. *)
Fixpoint update_at (i : nat) (f : V -> V) (d : dict) {struct d} : dict :=
  match d, i with
  | [], _ => []
  | (k, v) :: d', O => (k, f v) :: d'
  | kv :: d', S j => kv :: update_at j f d'
  end.
End Ops.
Arguments dict V : clear implicits.
End Dict.

(* ===================================================================== *)
(** ** Data model *)
(* ===================================================================== *)

(** The value under ['last_alert_time']: [None], a [datetime], or a string
    (as [json.load] leaves it: the conversion loop of [load_alerts] skips
    the empty string and stops at a string it cannot read). *)
Inductive last_alert :=
| LNone
| LTime (t : Datetime.datetime)
| LStr (s : string).

(** One entry of [price_alerts]. *)
Record alert := mkAlert {
  vwap_level : Float.float;
  ticker : string;
  current_price : Float.float;
  user : string;
  profile_pic : string;
  last_alert_time : last_alert
}.

Definition set_current_price (p : Float.float) (a : alert) : alert :=
  mkAlert (vwap_level a) (ticker a) p (user a) (profile_pic a)
          (last_alert_time a).

Definition set_last_alert_time (l : last_alert) (a : alert) : alert :=
  mkAlert (vwap_level a) (ticker a) (current_price a) (user a)
          (profile_pic a) l.

(** A record object of the persisted document. *)
Record jalert := mkJAlert {
  j_vwap_level : Float.float;
  j_ticker : string;
  j_current_price : Float.float;
  j_user : string;
  j_profile_pic : string;
  j_last_alert_time : option string
}.

(** What [ALERTS_FILE] holds: text that [json.load] rejects, or a document
    mapping addresses to record objects (members in file order, duplicate
    keys possible in a hand-written file). *)
Inductive content :=
| Unparseable
| Document (members : list (string * jalert)).

(** A trading pair of the upstream document, with every member that the
    program reads. Each may be left out by upstream and is an option: for
    a nested member such as [liquidity.usd], [None] stands for the lack of
    either key. *)
Record pair := mkPair {
  baseToken_symbol : option string;
  quoteToken_symbol : option string;
  priceUsd : option string;
  liquidity_usd : option Float.float;
  marketCap : option Float.float;
  fdv : option Float.float;
  pairCreatedAt : option Z;
  info_imageUrl : option string;
  chainId : option string;
  dexId : option string;
  url : option string;
  volume_h24 : option Float.float;
  priceChange_h1 : option Float.float;
  volume_h1 : option Float.float;
  txns_h1_buys : option Z;
  txns_h1_sells : option Z
}.

(** The ['pairs'] member of the upstream document. *)
Inductive pairs_member :=
| PairsAbsent
| PairsNull
| PairsArray (l : list pair).

Inductive body :=
| NotJson
| JsonObject (pairs : pairs_member).

(** The outcome of [requests.get(url)]. *)
Inductive http_result :=
| ConnectionFailed
| Response (status_code : Z) (b : body).

(** What [discord.utils.get(..., name="price-alerts")] and [channel.send]
    do. *)
Inductive channel_state :=
| NoChannel
| ChannelOk
| ChannelFails.

(** The surroundings of one handler call or of one record's step. *)
Record env := mkEnv {
  response : http_result;
  now_check : Datetime.datetime;  (* [datetime.now] of the 24 h test *)
  now_fire : Datetime.datetime;   (* [datetime.now] stored on firing *)
  channel : channel_state;
  writable : bool;                (* [open(ALERTS_FILE, 'w')] succeeds *)
  reply_ok : bool                 (* [ctx.send] succeeds *)
}.

Inductive exn :=
| ConnectionError
| JSONDecodeError
| TypeError
| IndexError
| KeyError (k : string)
| ValueError
| OverflowError
| ZeroDivisionError
| OSError
| HTTPException.

Inductive log_line :=
| LogChecking (ticker : string) (price : Float.float)
| LogNotFound (contract_address : string)
| LogStatus (contract_address : string) (status_code : Z)
| LogPairsFailed (contract_address : string)
| LogNoChannel
| LogOnline
| LogStarted.

Inductive reply :=
| ReplyAlertSet (contract_address ticker : string)
                (price level : Float.float)
| ReplyNoPairs (contract_address : string)
| ReplyList (lines : list (string * Float.float * last_alert))
| ReplyNoAlerts
| ReplyRemoved (contract_address : string)
| ReplyNoAlert (contract_address : string).

(** Observable effects, oldest first. *)
Inductive event :=
| Printed (l : log_line)
| Wrote (members : list (string * jalert))
| Alerted (ticker : string) (price pct : Float.float) (user pic : string)
| Replied (r : reply).

(** The process state and the file it owns. *)
Record world := mkWorld {
  price_alerts : Dict.dict alert;
  alerts_file : option content;
  monitor_running : bool;
  trace : list event
}.

Definition initial (file : option content) : world :=
  mkWorld [] file false [].

(* ===================================================================== *)
(** ** State and exceptions *)
(* ===================================================================== *)

Inductive result (A : Type) :=
| Ok (a : A)
| Raise (e : exn).
Arguments Ok {A} a.
Arguments Raise {A} e.

Definition M (A : Type) : Type := world -> world * result A.

Definition ret {A} (a : A) : M A := fun w => (w, Ok a).

Definition raise {A} (e : exn) : M A := fun w => (w, Raise e).

Definition bind {A B} (c : M A) (k : A -> M B) : M B :=
  fun w =>
    match c w with
    | (w', Ok a) => k a w'
    | (w', Raise e) => (w', Raise e)
    end.

Notation "x <- c ;; k" := (bind c (fun x => k))
  (at level 61, c at next level, right associativity).
Notation "c ;; k" := (bind c (fun _ => k))
  (at level 61, right associativity).

Definition get : M world := fun w => (w, Ok w).

Definition emit (ev : event) : M unit :=
  fun w =>
    (mkWorld (price_alerts w) (alerts_file w) (monitor_running w)
             (trace w ++ [ev]), Ok tt).

Definition print (l : log_line) : M unit := emit (Printed l).

Definition put_alerts (d : Dict.dict alert) : M unit :=
  fun w =>
    (mkWorld d (alerts_file w) (monitor_running w) (trace w), Ok tt).

Definition put_file (c : content) : M unit :=
  fun w =>
    (mkWorld (price_alerts w) (Some c) (monitor_running w) (trace w), Ok tt).

Definition start_monitor : M unit :=
  fun w => (mkWorld (price_alerts w) (alerts_file w) true (trace w), Ok tt).

Definition stop_monitor : M unit :=
  fun w => (mkWorld (price_alerts w) (alerts_file w) false (trace w), Ok tt).

(** A dictionary or list access that raises when the member is missing. *)
Definition require {A} (o : option A) (e : exn) : M A :=
  match o with
  | Some a => ret a
  | None => raise e
  end.

(* ===================================================================== *)
(** ** The alert store: [save_alerts] and [load_alerts] *)
(* ===================================================================== *)

(** [json.dump(price_alerts, f, default=str)]: a [datetime] is written as
    [str] of it, [None] as [null]; floats and strings are written so that
    [json.load] reads the same value back. *)
Definition encode_last (l : last_alert) : option string :=
  match l with
  | LNone => None
  | LTime t => Some (Datetime.str t)
  | LStr s => Some s
  end.

Definition encode_alert (a : alert) : jalert :=
  mkJAlert (vwap_level a) (ticker a) (current_price a) (user a)
           (profile_pic a) (encode_last (last_alert_time a)).

Definition json_dump (d : Dict.dict alert) : list (string * jalert) :=
  map (fun kv => (fst kv, encode_alert (snd kv))) d.

(** [json.load(f)]: a dictionary of dictionaries whose timestamps are still
    strings; of two members with one key the later wins. *)
Definition decode_alert (j : jalert) : alert :=
  mkAlert (j_vwap_level j) (j_ticker j) (j_current_price j) (j_user j)
          (j_profile_pic j)
          (match j_last_alert_time j with
           | None => LNone
           | Some s => LStr s
           end).

Definition json_load (members : list (string * jalert)) : Dict.dict alert :=
  fold_left (fun d kv => Dict.set (fst kv) (decode_alert (snd kv)) d)
            members [].

Definition save_alerts (e : env) : M unit :=
  w <- get ;;
  if writable e then
    put_file (Document (json_dump (price_alerts w))) ;;
    emit (Wrote (json_dump (price_alerts w)))
  else raise OSError.

(** The loop of [load_alerts] over [price_alerts.values()]: each truthy
    ['last_alert_time'] is replaced by [fromisoformat] of it. The loop stops
    at the first value that raises, the earlier ones staying converted. *)
Fixpoint convert_timestamps (d : Dict.dict alert)
  : Dict.dict alert * result unit :=
  match d with
  | [] => ([], Ok tt)
  | (k, a) :: rest =>
      let continue (a' : alert) :=
        let '(rest', r) := convert_timestamps rest in ((k, a') :: rest', r) in
      match last_alert_time a with
      | LNone => continue a
      | LStr EmptyString => continue a
      | LStr s =>
          match Datetime.fromisoformat s with
          | Some t => continue (set_last_alert_time (LTime t) a)
          | None => ((k, a) :: rest, Raise ValueError)
          end
      | LTime _ => ((k, a) :: rest, Raise TypeError)
      end
  end.

Definition load_alerts : M unit :=
  w <- get ;;
  match alerts_file w with
  | None => put_alerts []
  | Some Unparseable => raise JSONDecodeError
  | Some (Document members) =>
      let '(d, r) := convert_timestamps (json_load members) in
      put_alerts d ;;
      match r with
      | Ok _ => ret tt
      | Raise x => raise x
      end
  end.

(* ===================================================================== *)
(** ** The price source client *)
(* ===================================================================== *)

Definition has_liquidity (p : pair) : bool :=
  match liquidity_usd p with Some _ => true | None => false end.

Definition liquidity_key (p : pair) : Float.float :=
  match liquidity_usd p with Some x => x | None => S754_zero false end.

(** [sorted(..., key=..., reverse=True)]: descending, pairs of equal
    liquidity staying in input order. *)
Fixpoint insert_desc (x : pair) (l : list pair) : list pair :=
  match l with
  | [] => [x]
  | y :: l' =>
      if Float.ltb (liquidity_key x) (liquidity_key y)
      then y :: insert_desc x l'
      else x :: y :: l'
  end.

Definition sorted_desc (l : list pair) : list pair :=
  fold_right insert_desc [] l.

Definition fetch_top_pairs (e : env) (contract_address : string)
           (top_n : nat) : M (option (list pair)) :=
  match response e with
  | ConnectionFailed => raise ConnectionError
  | Response status_code b =>
      if status_code =? 200 then
        match b with
        | NotJson => raise JSONDecodeError
        | JsonObject PairsNull => raise TypeError
        | JsonObject PairsAbsent => ret (Some [])
        | JsonObject (PairsArray pairs) =>
            let pairs_with_liquidity := filter has_liquidity pairs in
            let sorted_pairs := sorted_desc pairs_with_liquidity in
            ret (Some (firstn top_n sorted_pairs))
        end
      else
        print (LogPairsFailed contract_address) ;;
        ret None
  end.

Definition fetch_token_pairs (e : env) (contract_address : string)
  : M (option pairs_member) :=
  match response e with
  | ConnectionFailed => raise ConnectionError
  | Response status_code b =>
      if status_code =? 200 then
        match b with
        | NotJson => raise JSONDecodeError
        | JsonObject pm => ret (Some pm)
        end
      else
        print (LogStatus contract_address status_code) ;;
        ret None
  end.

(* ===================================================================== *)
(** ** The notifier *)
(* ===================================================================== *)

Definition send_alert_message (e : env) (ticker : string)
           (price pct : Float.float) (user profile_pic : string) : M unit :=
  match channel e with
  | ChannelOk => emit (Alerted ticker price pct user profile_pic)
  | ChannelFails => raise HTTPException
  | NoChannel => print LogNoChannel
  end.

(* ===================================================================== *)
(** ** Command handlers and the poller *)
(* ===================================================================== *)

(** [int(x)] on a float raises on infinities and NaN. *)
Definition py_int_check (x : Float.float) : M unit :=
  match x with
  | S754_infinity _ => raise OverflowError
  | S754_nan => raise ValueError
  | _ => ret tt
  end.

Definition in_band (vwap_level current_price : Float.float) : bool :=
  let lower_bound := Float.mul vwap_level Float.c0_9 in
  let upper_bound := Float.mul vwap_level Float.c1_1 in
  Float.leb lower_bound current_price && Float.leb current_price upper_bound.

(** [last_alert_time is None or (now - last_alert_time) >= timedelta(days=1)];
    [None] is the [TypeError] of subtracting a naive value or a string from
    the aware [now]. *)
Definition eligible (now : Datetime.datetime) (l : last_alert)
  : option bool :=
  match l with
  | LNone => Some true
  | LTime t =>
      match Datetime.sub now t with
      | Some td => Some (Datetime.timedelta_days 1 <=? td)
      | None => None
      end
  | LStr _ => None
  end.

(** [timestamp / 1000] on an [int]: the binary64 value nearest to the
    quotient. [None] is the [OverflowError] of a quotient too large for a
    float. *)
Definition int_truediv_1000 (timestamp : Z) : option Float.float :=
  let finite (x : Float.float) :=
    match x with
    | S754_infinity _ | S754_nan => None
    | _ => Some x
    end in
  match timestamp with
  | Z0 => Some (S754_zero false)
  | Zpos m => finite (Float.of_decimal false m 3)
  | Zneg m => finite (Float.of_decimal true m 3)
  end.

(** The whole seconds of a POSIX timestamp given as a float: the largest
    integer not above it. (The microseconds that [fromtimestamp] rounds the
    rest to never carry into the seconds for a quotient of an [int] by
    1000.) *)
Definition whole_seconds (x : Float.float) : option Z :=
  match x with
  | S754_zero _ => Some 0
  | S754_finite s m e =>
      let n := if s then Zneg m else Zpos m in
      Some (if 0 <=? e then n * 2 ^ e else n / 2 ^ (- e))
  | _ => None
  end.

(** The POSIX timestamp of the first second of the year [y]. *)
Definition year_start (y : Z) : Z :=
  (Datetime.days_before_year y - Datetime.days_before_year 1970) * 86400.

(** [datetime.fromtimestamp(seconds, tz=timezone.utc)] accepts the years 1
    to 9999. Outside them it raises [ValueError] as long as the C library
    can break the time down (the year less 1900 fits a C [int]), [OSError]
    as long as the seconds pass the range test of [time_t] (64 bits; the
    test is made on the float, and lets [2 ^ 63] through), and
    [OverflowError] beyond. [None] is success. This is CPython on Linux
    with a 64-bit [time_t]. *)
Definition fromtimestamp_error (sec : Z) : option exn :=
  if (year_start 1 <=? sec) && (sec <? year_start 10000) then None
  else if (year_start (1900 - 2 ^ 31) <=? sec)
          && (sec <? year_start (1900 + 2 ^ 31)) then Some ValueError
  else if (- 2 ^ 63 <=? sec) && (sec <=? 2 ^ 63) then Some OSError
  else Some OverflowError.

(** [calculate_age(timestamp)], as far as its caller depends on it: the
    exception it raises, if any. The number of days goes into the summary
    only. *)
Definition calculate_age (timestamp : Z) : M unit :=
  match int_truediv_1000 timestamp with
  | None => raise OverflowError
  | Some seconds =>
      match whole_seconds seconds with
      | None => raise OverflowError
      | Some sec =>
          match fromtimestamp_error sec with
          | Some x => raise x
          | None => ret tt
          end
      end
  end.

(** The exceptions that [tasks.loop] takes for transient and answers by
    running the body again later: [OSError] and its subclasses. The
    [ConnectionError] of [requests.get] and the [JSONDecodeError] of
    [response.json()] are two of them ([requests]' exceptions derive
    from [IOError]). Any other exception ends the loop. *)
Definition retried (x : exn) : bool :=
  match x with
  | ConnectionError | JSONDecodeError | OSError => true
  | _ => false
  end.

Section Bot.

(** [float(s)] on a string; [None] is [ValueError]. *)
Variable float_of_str : string -> option Float.float.

Definition vwap (e : env) (display_name avatar_url : string)
           (contract_address : string) (vwap_level : Float.float)
  : M unit :=
  let contract_address := Text.lower contract_address in
  top_pairs <- fetch_top_pairs e contract_address 5 ;;
  match top_pairs with
  | Some (top_pair :: _) =>
      ticker <- require (baseToken_symbol top_pair) (KeyError "baseToken") ;;
      price_s <- require (priceUsd top_pair) (KeyError "priceUsd") ;;
      current_price <- require (float_of_str price_s) ValueError ;;
      liquidity <- require (liquidity_usd top_pair) (KeyError "liquidity") ;;
      _ <- require (chainId top_pair) (KeyError "chainId") ;;
      _ <- require (dexId top_pair) (KeyError "dexId") ;;
      created <- require (pairCreatedAt top_pair)
                         (KeyError "pairCreatedAt") ;;
      calculate_age created ;;
      _ <- require (quoteToken_symbol top_pair) (KeyError "quoteToken") ;;
      _ <- require (url top_pair) (KeyError "url") ;;
      match fdv top_pair with
      | Some x => py_int_check x
      | None => ret tt
      end ;;
      py_int_check liquidity ;;
      _ <- require (volume_h24 top_pair) (KeyError "volume") ;;
      _ <- require (marketCap top_pair) (KeyError "marketCap") ;;
      _ <- require (priceChange_h1 top_pair) (KeyError "priceChange") ;;
      _ <- require (volume_h1 top_pair) (KeyError "volume") ;;
      _ <- require (txns_h1_buys top_pair) (KeyError "txns") ;;
      _ <- require (txns_h1_sells top_pair) (KeyError "txns") ;;
      w <- get ;;
      put_alerts
        (Dict.set contract_address
           (mkAlert vwap_level ticker current_price display_name
                    avatar_url LNone)
           (price_alerts w)) ;;
      save_alerts e ;;
      _ <- require (info_imageUrl top_pair) (KeyError "info") ;;
      if reply_ok e then
        emit (Replied (ReplyAlertSet contract_address ticker
                                     current_price vwap_level))
      else raise HTTPException
  | _ =>
      if reply_ok e then emit (Replied (ReplyNoPairs contract_address))
      else raise HTTPException
  end.

Definition list_alerts (e : env) : M unit :=
  w <- get ;;
  if reply_ok e then
    match price_alerts w with
    | [] => emit (Replied ReplyNoAlerts)
    | d =>
        emit (Replied (ReplyList
          (map (fun kv => (ticker (snd kv), vwap_level (snd kv),
                           last_alert_time (snd kv))) d)))
    end
  else raise HTTPException.

Definition remove_token (e : env) (contract_address : string) : M unit :=
  let contract_address := Text.lower contract_address in
  w <- get ;;
  if Dict.contains contract_address (price_alerts w) then
    put_alerts (Dict.del contract_address (price_alerts w)) ;;
    save_alerts e ;;
    if reply_ok e then emit (Replied (ReplyRemoved contract_address))
    else raise HTTPException
  else
    if reply_ok e then emit (Replied (ReplyNoAlert contract_address))
    else raise HTTPException.

(** The body of the [for] loop of [monitor_prices] for the item in slot
    [i] of [price_alerts.items()]. *)
Definition monitor_step (envs : string -> env) (i : nat) : M unit :=
  w <- get ;;
  match nth_error (price_alerts w) i with
  | None => ret tt
  | Some (contract_address, alert_data) =>
      let e := envs contract_address in
      token_data <- fetch_token_pairs e contract_address ;;
      match token_data with
      | Some PairsAbsent | None =>
          print (LogNotFound contract_address)
      | Some pm =>
          first <- match pm with
                   | PairsArray (p :: _) => ret p
                   | PairsArray [] => raise IndexError
                   | _ => raise TypeError
                   end ;;
          price_s <- require (priceUsd first) (KeyError "priceUsd") ;;
          current_price <- require (float_of_str price_s) ValueError ;;
          let ticker := ticker alert_data in
          w1 <- get ;;
          put_alerts (Dict.update_at i (set_current_price current_price)
                                     (price_alerts w1)) ;;
          print (LogChecking ticker current_price) ;;
          let vwap_level := vwap_level alert_data in
          let difference := Float.sub current_price vwap_level in
          ratio <- require (Float.truediv difference vwap_level)
                           ZeroDivisionError ;;
          let percentage_difference := Float.mul ratio Float.c100 in
          if in_band vwap_level current_price then
            let last_alert_time := last_alert_time alert_data in
            go <- require (eligible (now_check e) last_alert_time)
                          TypeError ;;
            if (go : bool) then
              w2 <- get ;;
              put_alerts
                (Dict.update_at i
                   (set_last_alert_time (LTime (now_fire e)))
                   (price_alerts w2)) ;;
              save_alerts e ;;
              send_alert_message e ticker current_price
                                 percentage_difference
                                 (user alert_data) (profile_pic alert_data)
            else ret tt
          else ret tt
      end
  end.

Fixpoint monitor_from (envs : string -> env) (i count : nat) : M unit :=
  match count with
  | O => ret tt
  | S c => monitor_step envs i ;; monitor_from envs (S i) c
  end.

(** The function that [monitor_prices] wraps: the [for] loop over the
    items of [price_alerts]. *)
Definition monitor_prices_coro (envs : string -> env) : M unit :=
  w <- get ;;
  monitor_from envs 0 (List.length (price_alerts w)).

(** One iteration of [monitor_prices] as [@tasks.loop] runs it: an
    exception that is not [retried] ends the loop, so that [is_running()]
    is false from then on. *)
Definition monitor_prices (envs : string -> env) : M unit :=
  fun w =>
    match monitor_prices_coro envs w with
    | (w', Raise x) =>
        if retried x then (w', Raise x) else (fst (stop_monitor w'), Raise x)
    | (w', Ok a) => (w', Ok a)
    end.

Definition on_ready : M unit :=
  print LogOnline ;;
  load_alerts ;;
  w <- get ;;
  if monitor_running w then ret tt
  else start_monitor ;; print LogStarted.

End Bot.

(* ===================================================================== *)
(** ** [float] on plain decimal strings *)
(* ===================================================================== *)

(** An instance of [float_of_str] for concrete runs: an optional [-], digits
    with at most one [.], read as the nearest binary64 value. Python's
    [float] agrees with it on these strings (and accepts further forms,
    which this instance rejects). *)
Fixpoint scan_decimal (s : string) (dot : bool) (m : Z) (k : nat)
         (any : bool) : option (Z * nat) :=
  match s with
  | EmptyString => if any then Some (m, k) else None
  | String c s' =>
      if Ascii.eqb c "." then
        if dot then None else scan_decimal s' true m k any
      else
        match Text.digit_value c with
        | Some d =>
            scan_decimal s' dot (10 * m + d) (if dot then S k else k) true
        | None => None
        end
  end.

Definition float_of_decimal_str (s : string) : option Float.float :=
  let '(neg, digits) :=
    match s with
    | String c s' => if Ascii.eqb c "-" then (true, s') else (false, s)
    | EmptyString => (false, s)
    end in
  match scan_decimal digits false 0 O false with
  | Some (Zpos m, k) => Some (Float.of_decimal neg m k)
  | Some (Z0, _) => Some (S754_zero neg)
  | _ => None
  end.

(* ===================================================================== *)
(** ** Notions used in the statements *)
(* ===================================================================== *)

Definition run {A} (c : M A) (w : world) : world := fst (c w).
Definition outcome {A} (c : M A) (w : world) : result A := snd (c w).

(** [c] performed [n] times in a row. *)
Fixpoint repeat_m (n : nat) (c : M unit) : M unit :=
  match n with
  | O => ret tt
  | S k => c ;; repeat_m k c
  end.

(** Timestamps the program itself produces: [None], or a [datetime] in
    range carrying [timezone.utc]. *)
Definition utc_stamped (l : last_alert) : bool :=
  match l with
  | LNone => true
  | LTime t =>
      Datetime.valid t
      && match Datetime.tzinfo t with Some 0 => true | _ => false end
  | LStr _ => false
  end.

(** Timestamps that [save_alerts] can write and [load_alerts] read back. *)
Definition storable (l : last_alert) : bool :=
  match l with
  | LNone => true
  | LTime t => Datetime.valid t
  | LStr _ => false
  end.

(** A registry as the handlers build it: a dictionary (no key twice) whose
    timestamps are UTC. *)
Definition well_formed (d : Dict.dict alert) : Prop :=
  NoDup (Dict.keys d)
  /\ Forall (fun kv => utc_stamped (last_alert_time (snd kv)) = true) d.

(** Equality of records up to the sub-second part of the timestamp. *)
Definition to_second (l : last_alert) : last_alert :=
  match l with
  | LTime t =>
      LTime (Datetime.mkDatetime
               (Datetime.year t) (Datetime.month t) (Datetime.day t)
               (Datetime.hour t) (Datetime.minute t) (Datetime.second t)
               0 (Datetime.tzinfo t))
  | _ => l
  end.

Definition same_to_second (a b : alert) : Prop :=
  vwap_level a = vwap_level b /\ ticker a = ticker b
  /\ current_price a = current_price b /\ user a = user b
  /\ profile_pic a = profile_pic b
  /\ to_second (last_alert_time a) = to_second (last_alert_time b).

Definition same_records (d d' : Dict.dict alert) : Prop :=
  Forall2 (fun x y => fst x = fst y /\ same_to_second (snd x) (snd y)) d d'.

(** The record set the file stands for; a missing file is the empty
    mapping, unparseable content stands for nothing. *)
Definition snapshot (w : world) : option (list (string * jalert)) :=
  match alerts_file w with
  | None => Some []
  | Some (Document members) => Some members
  | Some Unparseable => None
  end.

(** Memory and file hold the same record set. *)
Definition synced (w : world) : Prop :=
  snapshot w = Some (json_dump (price_alerts w)).



(** The alerts that reached the channel. *)
Definition is_alert (ev : event) : bool :=
  match ev with Alerted _ _ _ _ _ => true | _ => false end.

Definition is_write (ev : event) : bool :=
  match ev with Wrote _ => true | _ => false end.

Definition alerts_sent (w : world) : list event := filter is_alert (trace w).

Definition writes_done (w : world) : list event := filter is_write (trace w).

(** The ranking rule in the words of the specification: pairs without
    liquidity data do not take part; of the others the top one is the most
    liquid, the earlier of two equally liquid pairs coming first. *)
Fixpoint spec_top_ranked (pairs : list pair) : option pair :=
  match pairs with
  | [] => None
  | p :: rest =>
      if has_liquidity p then
        match spec_top_ranked rest with
        | Some best =>
            if Float.ltb (liquidity_key p) (liquidity_key best)
            then Some best else Some p
        | None => Some p
        end
      else spec_top_ranked rest
  end.

(** [int(x)] succeeds. *)
Definition convertible_to_int (x : Float.float) : bool :=
  match x with
  | S754_infinity _ | S754_nan => false
  | _ => true
  end.

(** The price of a pair as [vwap] and [monitor_prices] read it. *)
Definition price_of (float_of_str : string -> option Float.float)
           (p : pair) : option Float.float :=
  match priceUsd p with
  | Some s => float_of_str s
  | None => None
  end.

(** [calculate_age] accepts the creation time. *)
Definition created_in_range (timestamp : Z) : bool :=
  match int_truediv_1000 timestamp with
  | Some seconds =>
      match whole_seconds seconds with
      | Some sec =>
          match fromtimestamp_error sec with
          | None => true
          | Some _ => false
          end
      | None => false
      end
  | None => false
  end.

(** A member is there. *)
Definition present {A} (o : option A) : bool :=
  match o with Some _ => true | None => false end.

(** What the upstream document must provide for [vwap] to reach the
    storing of the alert: everything the summary reads before it. *)
Definition summary_ready (float_of_str : string -> option Float.float)
           (p : pair) : bool :=
  present (baseToken_symbol p)
  && present (price_of float_of_str p)
  && match liquidity_usd p with Some x => convertible_to_int x | None => false end
  && present (chainId p)
  && present (dexId p)
  && match pairCreatedAt p with Some t => created_in_range t | None => false end
  && present (quoteToken_symbol p)
  && present (url p)
  && match fdv p with Some x => convertible_to_int x | None => true end
  && present (volume_h24 p)
  && present (marketCap p)
  && present (priceChange_h1 p)
  && present (volume_h1 p)
  && present (txns_h1_buys p)
  && present (txns_h1_sells p).

(** What the upstream document must provide for the summary that [vwap]
    renders around the storing of the alert. *)
Definition renderable (float_of_str : string -> option Float.float)
           (p : pair) : bool :=
  summary_ready float_of_str p && present (info_imageUrl p).

(** An upstream answer that [monitor_prices] treats as no data. *)
Definition no_data (r : http_result) : bool :=
  match r with
  | Response status_code b =>
      if status_code =? 200 then
        match b with JsonObject PairsAbsent => true | _ => false end
      else true
  | ConnectionFailed => false
  end.

(** The worlds a step of the poller goes through. *)
Definition logged (l : log_line) (w : world) : world :=
  mkWorld (price_alerts w) (alerts_file w) (monitor_running w)
          (trace w ++ [Printed l]).

Definition observed (i : nat) (price : Float.float) (a : alert) (w : world)
  : world :=
  mkWorld (Dict.update_at i (set_current_price price) (price_alerts w))
          (alerts_file w) (monitor_running w)
          (trace w ++ [Printed (LogChecking (ticker a) price)]).

Definition marked (i : nat) (t : Datetime.datetime) (w : world) : world :=
  mkWorld (Dict.update_at i (set_last_alert_time (LTime t)) (price_alerts w))
          (alerts_file w) (monitor_running w) (trace w).

Definition saved (w : world) : world :=
  mkWorld (price_alerts w) (Some (Document (json_dump (price_alerts w))))
          (monitor_running w)
          (trace w ++ [Wrote (json_dump (price_alerts w))]).

(** The world after a step whose upstream answer is no data. *)
Definition skipped (contract_address : string) (r : http_result) (w : world)
  : world :=
  match r with
  | Response status_code _ =>
      if status_code =? 200 then logged (LogNotFound contract_address) w
      else logged (LogNotFound contract_address)
                  (logged (LogStatus contract_address status_code) w)
  | ConnectionFailed => w
  end.

(** What reading a record back from the file makes of it before the
    timestamps are converted. *)
Definition reread (kv : string * alert) : string * alert :=
  (fst kv, decode_alert (encode_alert (snd kv))).

(** What a step can have done to the registry and to the file. *)
Inductive step_effect (i : nat) (w w' : world) : result unit -> Prop :=
| Untouched r :
    price_alerts w' = price_alerts w ->
    alerts_file w' = alerts_file w ->
    writes_done w' = writes_done w ->
    step_effect i w w' r
| Observed p r :
    price_alerts w'
    = Dict.update_at i (set_current_price p) (price_alerts w) ->
    alerts_file w' = alerts_file w ->
    writes_done w' = writes_done w ->
    step_effect i w w' r
| MarkedUnsaved p t :
    price_alerts w'
    = Dict.update_at i (set_last_alert_time (LTime t))
        (Dict.update_at i (set_current_price p) (price_alerts w)) ->
    alerts_file w' = alerts_file w ->
    step_effect i w w' (Raise OSError)
| Fired p t r :
    price_alerts w'
    = Dict.update_at i (set_last_alert_time (LTime t))
        (Dict.update_at i (set_current_price p) (price_alerts w)) ->
    alerts_file w' = Some (Document (json_dump (price_alerts w'))) ->
    step_effect i w w' r.

(** The worlds a command handler goes through. *)
Definition registered (contract_address : string) (a : alert) (w : world)
  : world :=
  mkWorld (Dict.set contract_address a (price_alerts w))
          (alerts_file w) (monitor_running w) (trace w).

Definition removed (contract_address : string) (w : world) : world :=
  mkWorld (Dict.del contract_address (price_alerts w))
          (alerts_file w) (monitor_running w) (trace w).

Definition replied (r : reply) (w : world) : world :=
  mkWorld (price_alerts w) (alerts_file w) (monitor_running w)
          (trace w ++ [Replied r]).

(* ===================================================================== *)
(** ** Concrete runs *)
(* ===================================================================== *)

Module Scenario.

Local Open Scope string_scope.

Definition T0 : Datetime.datetime :=
  Datetime.mkDatetime 2024 5 1 12 0 0 0 Datetime.utc.
Definition T0_plus_1min : Datetime.datetime :=
  Datetime.mkDatetime 2024 5 1 12 1 0 0 Datetime.utc.
Definition T0_plus_23h59 : Datetime.datetime :=
  Datetime.mkDatetime 2024 5 2 11 59 0 0 Datetime.utc.
Definition T0_plus_24h : Datetime.datetime :=
  Datetime.mkDatetime 2024 5 2 12 0 0 0 Datetime.utc.

(** The float that the decimal literal [m / 10^k] denotes. *)
Definition dec (m : positive) (k : nat) : Float.float :=
  Float.of_decimal false m k.

(** A pair quoted at [price] with the given liquidity. *)
Definition quote (price : string) (liquidity : option Float.float) : pair :=
  mkPair (Some "TKN") (Some "USDC") (Some price) liquidity
         (Some (dec 1000000 0)) None
         (Some 1700000000000) (Some "https://cdn.example/tkn.png")
         (Some "ethereum") (Some "uniswap") (Some "https://dex.example/tkn")
         (Some (dec 5000 0))
         (Some (dec 12 1)) (Some (dec 300 0)) (Some 7) (Some 5).

Definition answer (pairs : list pair) : http_result :=
  Response 200 (JsonObject (PairsArray pairs)).

(** Surroundings with a writable disk and working replies. *)
Definition at_time (r : http_result) (now : Datetime.datetime)
           (c : channel_state) : env :=
  mkEnv r now now c true true.

(** Alice's alert on [0xabc] at target 100. *)
Definition alice (last : last_alert) : alert :=
  mkAlert (dec 100 0) "TKN" (dec 100 0) "alice" "https://cdn.example/a.png"
          last.

Definition bob (last : last_alert) : alert :=
  mkAlert (dec 100 0) "TKN" (dec 100 0) "bob" "https://cdn.example/b.png"
          last.

(** A running process whose registry is [d], saved as it is. *)
Definition running (d : Dict.dict alert) : world :=
  mkWorld d (Some (Document (json_dump d))) true [].

Definition one_alert (last : last_alert) : world :=
  running [("0xabc", alice last)].

Definition two_alerts : world :=
  running [("0xaaa", alice LNone); ("0xbbb", bob LNone)].

(** Upstream quotes 100 with ample liquidity. *)
Definition quoted_100 : http_result :=
  answer [quote "100" (Some (dec 50000 0))].

(** Upstream lists a thinly traded pair at 1.0 before the liquid pair
    at 2.0. *)
Definition thin_pair : pair := quote "1.0" (Some (dec 10 0)).
Definition liquid_pair : pair := quote "2.0" (Some (dec 50000 0)).
Definition thin_first : http_result := answer [thin_pair; liquid_pair].

(** Surroundings of a tick over [two_alerts]: [first] is what upstream
    answers for [0xaaa]; [0xbbb] is quoted at 100. *)
Definition tick_with (first : http_result) (addr : string) : env :=
  if String.eqb addr "0xaaa" then at_time first T0 ChannelOk
  else at_time quoted_100 T0 ChannelOk.

(** A timestamp with a sub-second part. *)
Definition T0_and_a_bit : Datetime.datetime :=
  Datetime.mkDatetime 2024 5 1 12 0 0 123456 Datetime.utc.

End Scenario.

(* ===================================================================== *)
(** ** Further notions used in the statements *)
(* ===================================================================== *)

(** The pairs of an upstream answer. *)
Definition listed (r : http_result) : list pair :=
  match r with
  | Response _ (JsonObject (PairsArray l)) => l
  | _ => []
  end.

(** [a] may stand before [b] in a list sorted by liquidity, descending:
    [a] is not less liquid than [b]. *)
Definition descending (a b : pair) : Prop :=
  Float.ltb (liquidity_key a) (liquidity_key b) = false.

Definition is_nan (x : Float.float) : bool :=
  match x with S754_nan => true | _ => false end.

(** The place of a float in the order that [<] tests, as a triple compared
    component by component. *)
Definition order_key (x : Float.float) : Z * Z * Z :=
  match x with
  | S754_infinity true => (-2, 0, 0)
  | S754_finite true m e => (-1, - e, - Zpos m)
  | S754_zero _ => (0, 0, 0)
  | S754_nan => (0, 0, 0)
  | S754_finite false m e => (1, e, Zpos m)
  | S754_infinity false => (2, 0, 0)
  end.

Definition key_lt (a b : Z * Z * Z) : Prop :=
  let '(a1, a2, a3) := a in
  let '(b1, b2, b3) := b in
  a1 < b1 \/ (a1 = b1 /\ (a2 < b2 \/ (a2 = b2 /\ a3 < b3))).

(** Two entries with the same key and the same members that only
    registration sets. *)
Definition same_standing (x y : string * alert) : Prop :=
  fst x = fst y
  /\ vwap_level (snd x) = vwap_level (snd y)
  /\ ticker (snd x) = ticker (snd y)
  /\ user (snd x) = user (snd y)
  /\ profile_pic (snd x) = profile_pic (snd y).

(** The lines that [list_alerts] shows for a registry. *)
Definition alert_lines (d : Dict.dict alert)
  : list (string * Float.float * last_alert) :=
  map (fun kv => (ticker (snd kv), vwap_level (snd kv),
                  last_alert_time (snd kv))) d.

(** The replies that reached the caller. *)
Definition replies (w : world) : list reply :=
  flat_map (fun ev => match ev with Replied r => [r] | _ => [] end) (trace w).

(** Every key of the registry is in lower case. *)
Definition lower_keyed (d : Dict.dict alert) : Prop :=
  Forall (fun k => Text.lower k = k) (Dict.keys d).


(* ===================================================================== *)
(** ** Further concrete runs *)
(* ===================================================================== *)

Module Cases.

Import Scenario.
Local Open Scope string_scope.

(** A pair as [quote] gives it, with the members that upstream may leave
    out chosen freely. *)
Definition entry (price : string) (liquidity cap : option Float.float)
           (image : option string) (created : option Z)
           (change : option Float.float) : pair :=
  mkPair (Some "TKN") (Some "USDC") (Some price) liquidity cap None
         created image
         (Some "ethereum") (Some "uniswap") (Some "https://dex.example/tkn")
         (Some (dec 5000 0))
         change (Some (dec 300 0)) (Some 7) (Some 5).

Definition listing (price : string) (liquidity cap : option Float.float)
           (image : option string) : pair :=
  entry price liquidity cap image (Some 1700000000000) (Some (dec 12 1)).

(** Upstream lists one liquid pair whose creation time is far beyond the
    year 9999. *)
Definition far_future : pair :=
  entry "100" (Some (dec 50000 0)) (Some (dec 1000000 0))
        (Some "https://cdn.example/tkn.png") (Some (10 ^ 18))
        (Some (dec 12 1)).

(** Upstream lists one liquid pair without the one-hour price change. *)
Definition no_change : pair :=
  entry "100" (Some (dec 50000 0)) (Some (dec 1000000 0))
        (Some "https://cdn.example/tkn.png") (Some 1700000000000) None.

(** Upstream lists one liquid pair without an image. *)
Definition no_image : pair :=
  listing "100" (Some (dec 50000 0)) (Some (dec 1000000 0)) None.

(** Upstream lists one liquid pair without a market capitalisation. *)
Definition no_cap : pair :=
  listing "100" (Some (dec 50000 0)) None (Some "https://cdn.example/tkn.png").

(** Surroundings whose disk cannot be written. *)
Definition read_only (r : http_result) : env :=
  mkEnv r T0 T0 ChannelOk false true.

(** Surroundings whose reply cannot be sent. *)
Definition muted (r : http_result) : env :=
  mkEnv r T0 T0 ChannelOk true false.

(** Every token is quoted at 100 at the time [now]. *)
Definition all_quoted (now : Datetime.datetime) (addr : string) : env :=
  at_time quoted_100 now ChannelOk.

(** Upstream is down for every token. *)
Definition outage (addr : string) : env :=
  at_time (Response 503 NotJson) T0 ChannelOk.

(** A timestamp without an offset, as a hand-edited file may hold it. *)
Definition T0_naive : Datetime.datetime :=
  Datetime.mkDatetime 2024 5 1 12 0 0 0 None.

(** Alice's alert with another target. *)
Definition alice_at (level : Float.float) (last : last_alert) : alert :=
  mkAlert level "TKN" (dec 100 0) "alice" "https://cdn.example/a.png" last.

(** Surroundings of a command: upstream quotes 100, everything works. *)
Definition calm : env := at_time quoted_100 T0 ChannelOk.

(** A registry whose only record has the given target. *)
Definition only (level : Float.float) (last : last_alert) : world :=
  running [("0xabc", alice_at level last)].

(** A record object as a hand-written file may hold it. *)
Definition written (name : string) (last : option string) : jalert :=
  mkJAlert (dec 100 0) "TKN" (dec 100 0) name "https://cdn.example/a.png"
           last.

End Cases.

(* ===================================================================== *)
(** * Properties *)
(* ===================================================================== *)

(* ===================================================================== *)
(** ** Sequencing *)
(* ===================================================================== *)

Section MonadFacts.
Context {A B : Type}.

Lemma bind_ok (c : M A) (k : A -> M B) w w' a :
  c w = (w', Ok a) -> bind c k w = k a w'.
Proof. intros H. unfold bind. now rewrite H. Qed.

Lemma bind_raise (c : M A) (k : A -> M B) w w' x :
  c w = (w', Raise x) -> bind c k w = (w', Raise x).
Proof. intros H. unfold bind. now rewrite H. Qed.

Lemma bind_outcome_ok (c : M A) (k : A -> M B) w b :
  outcome (bind c k) w = Ok b ->
  exists a, c w = (run c w, Ok a) /\ outcome (k a) (run c w) = Ok b.
Proof.
  unfold outcome, run, bind. destruct (c w) as [w' [a | x]]; cbn.
  - intros H. eauto.
  - discriminate.
Qed.
End MonadFacts.

(* ===================================================================== *)
(** ** Timestamps as text *)
(* ===================================================================== *)

Module DatetimeFacts.
Import Text Datetime.
Local Open Scope string_scope.
Local Open Scope Z_scope.

Lemma digit_value_digit n : 0 <= n <= 9 -> digit_value (digit n) = Some n.
Proof.
  intros H. rewrite <- (Z2Nat.id n) by lia.
  assert (Hn : (Z.to_nat n <= 9)%nat) by lia.
  destruct (Z.to_nat n) as [|[|[|[|[|[|[|[|[|[|k]]]]]]]]]];
    try reflexivity; lia.
Qed.

Lemma expect_cons c s : expect c (String c s) = Some s.
Proof. simpl. now rewrite Ascii.eqb_refl. Qed.

Lemma append_assoc (a b c : string) : (a ++ b) ++ c = a ++ (b ++ c).
Proof. induction a as [|x a IH]; simpl; [reflexivity | now rewrite IH]. Qed.

Lemma append_nil_r (a : string) : a ++ "" = a.
Proof. induction a as [|x a IH]; simpl; [reflexivity | now rewrite IH]. Qed.

Lemma read_digits_zfill w : forall n acc rest,
  0 <= n ->
  read_digits w acc (zfill w n ++ rest)
  = Some (acc * 10 ^ Z.of_nat w + n mod 10 ^ Z.of_nat w, rest).
Proof.
  induction w as [|w IH]; intros n acc rest Hn.
  - simpl. rewrite Z.mod_1_r. f_equal. f_equal. lia.
  - cbn [zfill read_digits append].
    rewrite digit_value_digit
      by (pose proof (Z.mod_pos_bound (n / 10 ^ Z.of_nat w) 10); lia).
    rewrite IH by assumption.
    f_equal. f_equal.
    replace (Z.of_nat (S w)) with (Z.of_nat w + 1) by lia.
    rewrite Z.pow_add_r by lia. change (10 ^ 1) with 10.
    assert (P : 0 < 10 ^ Z.of_nat w) by (apply Z.pow_pos_nonneg; lia).
    rewrite (Z.rem_mul_r n (10 ^ Z.of_nat w) 10) by lia.
    ring.
Qed.

Lemma read_digits_zfill_exact w n rest :
  0 <= n < 10 ^ Z.of_nat w ->
  read_digits w 0 (zfill w n ++ rest) = Some (n, rest).
Proof.
  intros H. rewrite read_digits_zfill by lia.
  rewrite Z.mod_small by lia. reflexivity.
Qed.

Lemma parse_offset_format off :
  valid_tz (Some off) = true ->
  parse_offset (format_offset off) = Some (Some off).
Proof.
  unfold valid_tz, format_offset, parse_offset. intros H.
  apply andb_true_iff in H. destruct H as [Hlo Hhi].
  apply Z.ltb_lt in Hlo. apply Z.ltb_lt in Hhi.
  assert (Hq : 0 <= Z.abs off / 60 < 10 ^ Z.of_nat 2).
  { change (10 ^ Z.of_nat 2) with 100. split.
    - apply Z.div_pos; lia.
    - apply Z.div_lt_upper_bound; lia. }
  assert (Hr : 0 <= Z.abs off mod 60 < 10 ^ Z.of_nat 2).
  { change (10 ^ Z.of_nat 2) with 100.
    pose proof (Z.mod_pos_bound (Z.abs off) 60). lia. }
  assert (E : Z.abs off / 60 * 60 + Z.abs off mod 60 = Z.abs off).
  { pose proof (Z.div_mod (Z.abs off) 60). lia. }
  destruct (off <? 0) eqn:Hs; cbn [append].
  - change (Ascii.eqb "-" "+" || Ascii.eqb "-" "-") with true. cbv iota.
    rewrite read_digits_zfill_exact by assumption.
    cbn [append]. rewrite expect_cons.
    rewrite <- (append_nil_r (zfill 2 (Z.abs off mod 60))).
    rewrite read_digits_zfill_exact by assumption.
    change (Ascii.eqb "-" "-") with true. cbv iota.
    rewrite E. apply Z.ltb_lt in Hs. do 2 f_equal. lia.
  - change (Ascii.eqb "+" "+" || Ascii.eqb "+" "-") with true. cbv iota.
    rewrite read_digits_zfill_exact by assumption.
    cbn [append]. rewrite expect_cons.
    rewrite <- (append_nil_r (zfill 2 (Z.abs off mod 60))).
    rewrite read_digits_zfill_exact by assumption.
    change (Ascii.eqb "+" "-") with false. cbv iota.
    rewrite E. apply Z.ltb_ge in Hs. do 2 f_equal. lia.
Qed.

Lemma format_offset_head off :
  exists c s, format_offset off = String c s /\ Ascii.eqb c "." = false.
Proof.
  unfold format_offset. destruct (off <? 0); cbn [append]; eauto.
Qed.

Lemma parse_tail us tz :
  0 <= us <= 999999 -> valid_tz tz = true ->
  exists s,
    (if us =? 0 then "" else "." ++ zfill 6 us)
      ++ match tz with None => "" | Some off => format_offset off end = s
    /\ parse_fraction s
       = Some (us, match tz with None => "" | Some off => format_offset off end)
    /\ parse_offset
         match tz with None => "" | Some off => format_offset off end
       = Some tz.
Proof.
  intros Hus Htz. eexists. split; [reflexivity |]. split.
  - destruct (us =? 0) eqn:E.
    + apply Z.eqb_eq in E. subst us. cbn [append].
      destruct tz as [off|]; [| reflexivity].
      destruct (format_offset_head off) as (c & s & -> & Hc).
      unfold parse_fraction. now rewrite Hc.
    + cbn [append]. unfold parse_fraction.
      change (Ascii.eqb "." ".") with true. cbv iota.
      apply read_digits_zfill_exact. change (10 ^ Z.of_nat 6) with 1000000. lia.
  - destruct tz as [off|]; [| reflexivity].
    now apply parse_offset_format.
Qed.

Lemma days_in_month_le y m : days_in_month y m <= 31.
Proof.
  unfold days_in_month.
  destruct ((m =? 2) && is_leap y); [lia |].
  destruct (Z.to_nat m) as [|[|[|[|[|[|[|[|[|[|[|[|[|k]]]]]]]]]]]]]; simpl; try lia.
  destruct k; lia.
Qed.

(** [fromisoformat] reads back what [str] writes. *)
Lemma fromisoformat_str d : valid d = true -> fromisoformat (str d) = Some d.
Proof.
  intros V. pose proof V as V0.
  unfold valid in V. repeat rewrite andb_true_iff in V.
  repeat rewrite Z.leb_le in V.
  destruct d as [y mo dd hh mi ss us tz]. cbn [year month day hour minute second microsecond tzinfo] in *.
  pose proof (days_in_month_le y mo) as Hdm.
  destruct V as [[[[[[[[[[[[[[Hy1 Hy2] Hm1] Hm2] Hd1] Hd2] Hh1] Hh2] Hi1] Hi2] Hs1] Hs2] Hu1] Hu2] Htz].
  destruct (parse_tail us tz) as (tail & Etail & Hfrac & Hoff); [lia | assumption |].
  unfold str, fromisoformat.
  cbn [year month day hour minute second microsecond tzinfo].
  rewrite Etail.
  rewrite read_digits_zfill_exact by (change (10 ^ Z.of_nat 4) with 10000; lia).
  cbn [append]. rewrite expect_cons.
  rewrite read_digits_zfill_exact by (change (10 ^ Z.of_nat 2) with 100; lia).
  cbn [append]. rewrite expect_cons.
  rewrite read_digits_zfill_exact by (change (10 ^ Z.of_nat 2) with 100; lia).
  cbn [append].
  rewrite read_digits_zfill_exact by (change (10 ^ Z.of_nat 2) with 100; lia).
  cbn [append]. rewrite expect_cons.
  rewrite read_digits_zfill_exact by (change (10 ^ Z.of_nat 2) with 100; lia).
  cbn [append]. rewrite expect_cons.
  rewrite read_digits_zfill_exact by (change (10 ^ Z.of_nat 2) with 100; lia).
  rewrite Hfrac, Hoff. rewrite V0. reflexivity.
Qed.
End DatetimeFacts.

(* ===================================================================== *)
(** ** The alert store *)
(* ===================================================================== *)

Section StoreFacts.

Lemma set_fresh {V} (k : string) (v : V) (d : Dict.dict V) :
  ~ In k (Dict.keys d) -> Dict.set k v d = d ++ [(k, v)].
Proof.
  induction d as [|[k' v'] d IH]; intros Hk; [reflexivity |].
  simpl in *. destruct (String.eqb_spec k k') as [-> | Hne].
  - exfalso. apply Hk. now left.
  - rewrite IH; [reflexivity |]. intros Hin. apply Hk. now right.
Qed.

Lemma json_load_from (R : Dict.dict alert) : forall acc,
  NoDup (Dict.keys acc ++ Dict.keys R) ->
  fold_left (fun d kv => Dict.set (fst kv) (decode_alert (snd kv)) d)
            (json_dump R) acc
  = acc ++ map reread R.
Proof.
  induction R as [|[k a] R IH]; intros acc Hnd; simpl.
  - now rewrite app_nil_r.
  - simpl in Hnd. rewrite set_fresh.
    + rewrite IH.
      * rewrite <- app_assoc. reflexivity.
      * unfold Dict.keys in *. rewrite map_app. simpl.
        rewrite <- app_assoc. exact Hnd.
    + apply NoDup_remove_2 in Hnd. intros Hin. apply Hnd.
      apply in_or_app. now left.
Qed.

Lemma json_load_dump (R : Dict.dict alert) :
  NoDup (Dict.keys R) -> json_load (json_dump R) = map reread R.
Proof. intros H. unfold json_load. now rewrite json_load_from. Qed.

Lemma str_nonempty t : exists c s, Datetime.str t = String c s.
Proof. unfold Datetime.str. cbn [Text.zfill String.append]. eauto. Qed.

Lemma convert_reread (R : Dict.dict alert) :
  Forall (fun kv => storable (last_alert_time (snd kv)) = true) R ->
  convert_timestamps (map reread R) = (R, Ok tt).
Proof.
  induction 1 as [|[k a] R Ha _ IH]; [reflexivity |].
  cbn [map reread fst snd convert_timestamps].
  rewrite IH. destruct a as [lvl tk cp us pic last].
  cbn [snd last_alert_time] in Ha.
  destruct last as [|t|s]; cbn in Ha; try discriminate.
  - reflexivity.
  - cbn [encode_alert decode_alert last_alert_time encode_last
         j_last_alert_time vwap_level ticker current_price user profile_pic
         j_vwap_level j_ticker j_current_price j_user j_profile_pic].
    destruct (str_nonempty t) as (c & s & E).
    rewrite (DatetimeFacts.fromisoformat_str t Ha).
    rewrite E. reflexivity.
Qed.

Lemma utc_stamped_storable l : utc_stamped l = true -> storable l = true.
Proof.
  destruct l as [|t|s]; simpl; auto. intros H.
  now apply andb_true_iff in H.
Qed.

Lemma same_records_refl d : same_records d d.
Proof.
  induction d as [|kv d IH]; constructor; auto.
  repeat split; reflexivity.
Qed.

(** Saving, then loading with whatever registry is in memory by then,
    gives back the registry that was saved. *)
Lemma save_forget_load e memory w :
  writable e = true ->
  NoDup (Dict.keys (price_alerts w)) ->
  Forall (fun kv => storable (last_alert_time (snd kv)) = true)
         (price_alerts w) ->
  (save_alerts e ;; put_alerts memory ;; load_alerts) w
  = (mkWorld (price_alerts w)
             (Some (Document (json_dump (price_alerts w))))
             (monitor_running w)
             (trace w ++ [Wrote (json_dump (price_alerts w))]),
     Ok tt).
Proof.
  intros Hw Hnd Hst.
  unfold save_alerts, load_alerts, bind, get, put_file, emit, put_alerts, ret.
  rewrite Hw. cbn.
  rewrite (json_load_dump _ Hnd), (convert_reread _ Hst). reflexivity.
Qed.

End StoreFacts.

Section StoreClaims.

Lemma repeat_save_load e memory n : forall w,
  writable e = true ->
  NoDup (Dict.keys (price_alerts w)) ->
  Forall (fun kv => storable (last_alert_time (snd kv)) = true)
         (price_alerts w) ->
  let round := save_alerts e ;; put_alerts memory ;; load_alerts in
  outcome (repeat_m n round) w = Ok tt
  /\ price_alerts (run (repeat_m n round) w) = price_alerts w
  /\ (n <> O ->
      alerts_file (run (repeat_m n round) w)
      = Some (Document (json_dump (price_alerts w)))).
Proof.
  induction n as [|n IH]; intros w Hw Hnd Hst round.
  - repeat split; try reflexivity. intros H; now elim H.
  - unfold outcome, run in *. cbn [repeat_m].
    rewrite (bind_ok _ _ _ _ _ (save_forget_load e memory w Hw Hnd Hst)).
    set (w1 := mkWorld _ _ _ _).
    destruct (IH w1 Hw Hnd Hst) as (Ho & Hp & Hf).
    repeat split; [exact Ho | exact Hp |].
    intros _. destruct n as [|n'].
    + reflexivity.
    + apply Hf. discriminate.
Qed.

(** C8. Saving a registry and loading it again gives the same registry,
    whatever registry is in memory when the file is loaded: every record
    is read back from the file, hence in particular reproduced up to the
    sub-second part of its timestamp, and the timestamps are still UTC;
    any number of such rounds leaves the registry as it was. *)
Theorem save_load_round_trip (e : env) (w : world) (n : nat)
        (memory : Dict.dict alert) :
  writable e = true ->
  well_formed (price_alerts w) ->
  let round := save_alerts e ;; put_alerts memory ;; load_alerts in
  outcome round w = Ok tt
  /\ price_alerts (run round w) = price_alerts w
  /\ same_records (price_alerts w) (price_alerts (run round w))
  /\ well_formed (price_alerts (run round w))
  /\ outcome (repeat_m n round) w = Ok tt
  /\ price_alerts (run (repeat_m n round) w) = price_alerts w
  /\ (n <> O ->
      alerts_file (run (repeat_m n round) w)
      = Some (Document (json_dump (price_alerts w)))).
Proof.
  intros Hw [Hnd Hutc] round.
  assert (Hst : Forall (fun kv => storable (last_alert_time (snd kv)) = true)
                       (price_alerts w)).
  { eapply Forall_impl; [| exact Hutc].
    intros kv H. now apply utc_stamped_storable. }
  unfold outcome, run, round.
  rewrite (save_forget_load e memory w Hw Hnd Hst). cbn [fst snd price_alerts].
  split; [reflexivity |]. split; [reflexivity |].
  split; [apply same_records_refl |].
  split; [split; assumption |].
  exact (repeat_save_load e memory n w Hw Hnd Hst).
Qed.

(** C9. With no snapshot file, loading gives the empty registry and raises
    nothing. With a file that cannot be parsed, loading raises, [on_ready]
    raises with it before it reaches the start of the poller, and neither
    the file nor the registry in memory is replaced. *)
Theorem load_missing_or_corrupt (w : world) :
  (alerts_file w = None ->
     outcome load_alerts w = Ok tt
     /\ price_alerts (run load_alerts w) = []
     /\ alerts_file (run load_alerts w) = None)
  /\ (alerts_file w = Some Unparseable ->
        load_alerts w = (w, Raise JSONDecodeError)
        /\ outcome on_ready w = Raise JSONDecodeError
        /\ monitor_running (run on_ready w) = monitor_running w
        /\ alerts_file (run on_ready w) = Some Unparseable
        /\ price_alerts (run on_ready w) = price_alerts w
        /\ writes_done (run on_ready w) = writes_done w).
Proof.
  split; intros Hf.
  - unfold outcome, run, load_alerts, bind, get, put_alerts.
    cbn. rewrite Hf. cbn. auto.
  - assert (L : forall v, alerts_file v = Some Unparseable ->
                          load_alerts v = (v, Raise JSONDecodeError)).
    { intros v Hv. unfold load_alerts, bind, get, raise. cbn.
      now rewrite Hv. }
    split; [now apply L |].
    unfold outcome, run, on_ready.
    rewrite (bind_ok (print LogOnline) _ w _ tt eq_refl). cbv beta.
    erewrite bind_raise by (apply L; exact Hf).
    cbn [fst snd monitor_running alerts_file price_alerts].
    repeat split; try assumption.
    unfold writes_done. cbn [trace]. rewrite filter_app. cbn.
    now rewrite app_nil_r.
Qed.

(** A document with a timestamp that cannot be read also stops [on_ready]
    before the poller starts, and leaves the file as it is. *)
Lemma on_ready_bad_timestamp w members x :
  alerts_file w = Some (Document members) ->
  snd (convert_timestamps (json_load members)) = Raise x ->
  outcome on_ready w = Raise x
  /\ monitor_running (run on_ready w) = monitor_running w
  /\ alerts_file (run on_ready w) = alerts_file w.
Proof.
  intros Hf Hx. unfold outcome, run, on_ready.
  rewrite (bind_ok (print LogOnline) _ w _ tt eq_refl). cbv beta.
  unfold load_alerts, bind, get, put_alerts, raise, ret.
  cbn [fst snd alerts_file price_alerts monitor_running trace].
  rewrite Hf.
  destruct (convert_timestamps (json_load members)) as [d r].
  cbn [snd] in Hx. subst r. cbn. auto.
Qed.

End StoreClaims.

(* ===================================================================== *)
(** ** Slots of the registry *)
(* ===================================================================== *)

Section SlotFacts.
Context {V : Type}.

Lemma update_at_other (f : V -> V) : forall (d : Dict.dict V) i j,
  i <> j -> nth_error (Dict.update_at i f d) j = nth_error d j.
Proof.
  induction d as [|[k v] d IH]; intros i j Hij; [reflexivity |].
  destruct i as [|i], j as [|j]; cbn; try reflexivity.
  - congruence.
  - apply IH. congruence.
Qed.

Lemma update_at_same (f : V -> V) : forall (d : Dict.dict V) i k v,
  nth_error d i = Some (k, v) ->
  nth_error (Dict.update_at i f d) i = Some (k, f v).
Proof.
  induction d as [|[k' v'] d IH]; intros i k v H.
  - destruct i; discriminate.
  - destruct i as [|i]; cbn in *.
    + now inversion H.
    + now apply IH.
Qed.

Lemma update_at_length (f : V -> V) : forall (d : Dict.dict V) i,
  List.length (Dict.update_at i f d) = List.length d.
Proof.
  induction d as [|[k v] d IH]; intros i; [reflexivity |].
  destruct i; cbn; [reflexivity | now rewrite IH].
Qed.
End SlotFacts.


(* ===================================================================== *)
(** ** One step of the poller *)
(* ===================================================================== *)

(** Case analysis on a scrutinee of the goal that contains no other
    [match]. *)
Ltac is_innermost scrutinee :=
  lazymatch scrutinee with
  | context [match _ with _ => _ end] => fail
  | _ => idtac
  end.

Ltac split_match :=
  match goal with
  | |- context [match ?scrutinee with _ => _ end] =>
      is_innermost scrutinee; destruct scrutinee eqn:?
  end.

Section StepFacts.
Variable float_of_str : string -> option Float.float.
Variable envs : string -> env.

Lemma monitor_step_effect i w :
  step_effect i w (run (monitor_step float_of_str envs i) w)
              (outcome (monitor_step float_of_str envs i) w).
Proof.
  unfold run, outcome, monitor_step, fetch_token_pairs, save_alerts,
    send_alert_message, require, print, emit, put_alerts, put_file,
    bind, get, ret, raise.
  cbn [fst snd].
  repeat (split_match; cbn [fst snd price_alerts alerts_file trace
                            monitor_running];
          try discriminate);
    repeat match goal with
           | H : (_, _) = (_, _) |- _ => inversion H; subst; clear H
           end;
    cbn [fst snd price_alerts alerts_file trace monitor_running].
  all: try (apply Untouched; unfold writes_done; cbn [trace price_alerts alerts_file];
            rewrite ?filter_app; cbn [filter is_write app];
            rewrite ?app_nil_r; reflexivity).
  all: try (eapply Observed; unfold writes_done; cbn [trace price_alerts alerts_file];
            rewrite ?filter_app; cbn [filter is_write app];
            rewrite ?app_nil_r; reflexivity).
  all: try (eapply Fired; cbn [trace price_alerts alerts_file]; reflexivity).
  all: try (eapply MarkedUnsaved; cbn [trace price_alerts alerts_file]; reflexivity).
Qed.
End StepFacts.

Section StepPaths.
Variable float_of_str : string -> option Float.float.
Variable envs : string -> env.

(** A step whose upstream answer is no data only logs. *)
Lemma monitor_step_no_data i w addr a :
  nth_error (price_alerts w) i = Some (addr, a) ->
  no_data (response (envs addr)) = true ->
  monitor_step float_of_str envs i w
  = (skipped addr (response (envs addr)) w, Ok tt).
Proof.
  intros Hi Hn.
  unfold monitor_step, fetch_token_pairs, bind, get, ret, raise, print,
    emit, skipped, logged. cbn [fst snd]. rewrite Hi.
  unfold no_data in Hn.
  destruct (response (envs addr)) as [|sc b]; [discriminate |].
  destruct (sc =? 200); [| reflexivity].
  destruct b as [|[| |l]]; try discriminate. reflexivity.
Qed.

(** A step that obtained a price, spelled out. *)
Lemma monitor_step_priced i w addr a sc p ps price :
  nth_error (price_alerts w) i = Some (addr, a) ->
  response (envs addr) = Response sc (JsonObject (PairsArray (p :: ps))) ->
  sc = 200 ->
  price_of float_of_str p = Some price ->
  monitor_step float_of_str envs i w
  = match Float.truediv (Float.sub price (vwap_level a)) (vwap_level a) with
    | None => (observed i price a w, Raise ZeroDivisionError)
    | Some ratio =>
        if in_band (vwap_level a) price then
          match eligible (now_check (envs addr)) (last_alert_time a) with
          | None => (observed i price a w, Raise TypeError)
          | Some false => (observed i price a w, Ok tt)
          | Some true =>
              (save_alerts (envs addr) ;;
               send_alert_message (envs addr) (ticker a) price
                 (Float.mul ratio Float.c100) (user a) (profile_pic a))
                (marked i (now_fire (envs addr)) (observed i price a w))
          end
        else (observed i price a w, Ok tt)
    end.
Proof.
  intros Hi Hr -> Hp.
  unfold price_of in Hp. destruct (priceUsd p) as [s|] eqn:Hs; [| discriminate].
  unfold monitor_step, fetch_token_pairs, require, print, emit, put_alerts,
    bind, get, ret, raise.
  cbn iota beta. rewrite Hi. cbn iota beta.
  rewrite Hr. cbn [Z.eqb Pos.eqb]. cbn iota beta.
  rewrite Hs. cbn iota beta. rewrite Hp. cbn iota beta.
  cbn [fst snd price_alerts alerts_file trace monitor_running].
  destruct (Float.truediv _ _) as [ratio|]; [| reflexivity].
  destruct (in_band _ _); [| reflexivity].
  destruct (eligible _ _) as [[|]|]; reflexivity.
Qed.

(** The loop goes on to the next slot after a step that raised nothing. *)
Lemma monitor_from_next i c w w' :
  monitor_step float_of_str envs i w = (w', Ok tt) ->
  monitor_from float_of_str envs i (S c) w
  = monitor_from float_of_str envs (S i) c w'.
Proof. intros H. cbn [monitor_from]. now rewrite (bind_ok _ _ _ _ _ H). Qed.

(** The loop stops at the first step that raises. *)
Lemma monitor_from_abort i c w w' x :
  monitor_step float_of_str envs i w = (w', Raise x) ->
  monitor_from float_of_str envs i (S c) w = (w', Raise x).
Proof. intros H. cbn [monitor_from]. now rewrite (bind_raise _ _ _ _ _ H). Qed.

(** A property that every step keeps is kept by the loop, however it
    ends. *)
Lemma monitor_from_keeps (P : world -> Prop) :
  (forall i w, P w -> P (run (monitor_step float_of_str envs i) w)) ->
  forall c i w, P w -> P (run (monitor_from float_of_str envs i c) w).
Proof.
  intros Hstep. induction c as [|c IH]; intros i w Hw; [exact Hw |].
  unfold run. cbn [monitor_from]. unfold bind.
  pose proof (Hstep i w Hw) as H1. unfold run in H1.
  destruct (monitor_step float_of_str envs i w) as [w1 [[]|x]]; cbn [fst] in *.
  - apply IH. exact H1.
  - exact H1.
Qed.


(** A step changes no slot but its own. *)
Lemma monitor_step_other_slot i j w :
  i <> j ->
  nth_error (price_alerts (run (monitor_step float_of_str envs i) w)) j
  = nth_error (price_alerts w) j.
Proof.
  intros Hij.
  destruct (monitor_step_effect float_of_str envs i w)
    as [r E _ _ | p r E _ _ | p t E _ | p t r E _]; rewrite E;
    rewrite ?update_at_other by assumption; reflexivity.
Qed.


(** What the loop adds to a run of its body: nothing but the end of the
    loop after an exception it does not retry. *)
Lemma monitor_prices_outcome w :
  outcome (monitor_prices float_of_str envs) w
  = outcome (monitor_prices_coro float_of_str envs) w.
Proof.
  unfold outcome, monitor_prices.
  destruct (monitor_prices_coro float_of_str envs w) as [w' [a|x]];
    [reflexivity |]. now destruct (retried x).
Qed.

Lemma monitor_prices_alerts w :
  price_alerts (run (monitor_prices float_of_str envs) w)
  = price_alerts (run (monitor_prices_coro float_of_str envs) w).
Proof.
  unfold run, monitor_prices.
  destruct (monitor_prices_coro float_of_str envs w) as [w' [a|x]];
    [reflexivity |]. now destruct (retried x).
Qed.

Lemma monitor_prices_file w :
  alerts_file (run (monitor_prices float_of_str envs) w)
  = alerts_file (run (monitor_prices_coro float_of_str envs) w).
Proof.
  unfold run, monitor_prices.
  destruct (monitor_prices_coro float_of_str envs w) as [w' [a|x]];
    [reflexivity |]. now destruct (retried x).
Qed.

Lemma monitor_prices_trace w :
  trace (run (monitor_prices float_of_str envs) w)
  = trace (run (monitor_prices_coro float_of_str envs) w).
Proof.
  unfold run, monitor_prices.
  destruct (monitor_prices_coro float_of_str envs w) as [w' [a|x]];
    [reflexivity |]. now destruct (retried x).
Qed.

Lemma monitor_prices_running w :
  monitor_running (run (monitor_prices float_of_str envs) w)
  = match outcome (monitor_prices_coro float_of_str envs) w with
    | Raise x =>
        if retried x
        then monitor_running (run (monitor_prices_coro float_of_str envs) w)
        else false
    | Ok _ => monitor_running (run (monitor_prices_coro float_of_str envs) w)
    end.
Proof.
  unfold run, outcome, monitor_prices.
  destruct (monitor_prices_coro float_of_str envs w) as [w' [a|x]];
    [reflexivity |]. cbn [snd]. now destruct (retried x).
Qed.

(** The body of the loop is the steps over the slots, first to last. *)
Lemma monitor_prices_coro_steps w :
  monitor_prices_coro float_of_str envs w
  = monitor_from float_of_str envs 0 (List.length (price_alerts w)) w.
Proof. reflexivity. Qed.


End StepPaths.

(* ===================================================================== *)
(** ** Command handlers *)
(* ===================================================================== *)

Section DictFacts.
Context {V : Type}.

Lemma get_set_same (k : string) (v : V) : forall d : Dict.dict V,
  Dict.get k (Dict.set k v d) = Some v.
Proof.
  induction d as [|[k' v'] d IH]; cbn.
  - now rewrite String.eqb_refl.
  - destruct (String.eqb k k') eqn:E; cbn; rewrite ?E, ?String.eqb_refl; auto.
Qed.

Lemma get_set_other (k k' : string) (v : V) : forall d : Dict.dict V,
  k' <> k -> Dict.get k' (Dict.set k v d) = Dict.get k' d.
Proof.
  intros d Hne. apply String.eqb_neq in Hne.
  induction d as [|[k0 v0] d IH]; cbn.
  - now rewrite Hne.
  - destruct (String.eqb k k0) eqn:E; cbn.
    + apply String.eqb_eq in E. subst k0. now rewrite Hne.
    + now rewrite IH.
Qed.
End DictFacts.

Section CommandFacts.
Variable float_of_str : string -> option Float.float.

(** The most liquid pair that [fetch_top_pairs] returns first is the top
    pair of the ranking rule. *)
Lemma sorted_desc_head (pairs : list pair) :
  hd_error (sorted_desc (filter has_liquidity pairs))
  = spec_top_ranked pairs.
Proof.
  induction pairs as [|p rest IH]; [reflexivity |].
  cbn [filter spec_top_ranked]. destruct (has_liquidity p); [| exact IH].
  unfold sorted_desc in *. cbn [fold_right]. rewrite <- IH.
  destruct (fold_right insert_desc [] (filter has_liquidity rest))
    as [|best l]; [reflexivity |].
  cbn [insert_desc hd_error]. now destruct (Float.ltb _ _).
Qed.

(** [calculate_age] raises exactly when the creation time is out of
    range, and changes nothing. *)
Lemma calculate_age_accepts timestamp w :
  created_in_range timestamp = true ->
  calculate_age timestamp w = (w, Ok tt).
Proof.
  unfold created_in_range, calculate_age, ret, raise.
  destruct (int_truediv_1000 timestamp) as [d|]; [| discriminate].
  destruct (whole_seconds d) as [sec|]; [| discriminate].
  now destruct (fromtimestamp_error sec).
Qed.

Lemma fromtimestamp_error_kind sec x :
  fromtimestamp_error sec = Some x ->
  x = ValueError \/ x = OSError \/ x = OverflowError.
Proof.
  unfold fromtimestamp_error.
  repeat match goal with
         | |- context [if ?b then _ else _] => destruct b
         end; intros H; inversion H; auto.
Qed.

Lemma calculate_age_rejects timestamp w :
  created_in_range timestamp = false ->
  exists x, calculate_age timestamp w = (w, Raise x)
            /\ (x = ValueError \/ x = OSError \/ x = OverflowError).
Proof.
  unfold created_in_range, calculate_age, ret, raise.
  destruct (int_truediv_1000 timestamp) as [d|]; [| eauto].
  destruct (whole_seconds d) as [sec|]; [| eauto].
  destruct (fromtimestamp_error sec) as [x|] eqn:E; [| discriminate].
  intros _. exists x. split; [reflexivity |].
  now apply (fromtimestamp_error_kind sec).
Qed.

(** [vwap] up to the storing of the alert and after it. *)
Lemma vwap_stores e display_name avatar_url contract_address level w
      pairs top rest tk price :
  response e = Response 200 (JsonObject (PairsArray pairs)) ->
  sorted_desc (filter has_liquidity pairs) = top :: rest ->
  summary_ready float_of_str top = true ->
  baseToken_symbol top = Some tk ->
  price_of float_of_str top = Some price ->
  let k := Text.lower contract_address in
  let a := mkAlert level tk price display_name avatar_url LNone in
  vwap float_of_str e display_name avatar_url contract_address level w
  = if writable e then
      match info_imageUrl top with
      | None => (saved (registered k a w), Raise (KeyError "info"))
      | Some _ =>
          if reply_ok e
          then (replied (ReplyAlertSet k tk price level)
                  (saved (registered k a w)), Ok tt)
          else (saved (registered k a w), Raise HTTPException)
      end
    else (registered k a w, Raise OSError).
Proof.
  intros Hr Hs Hrend Htk Hp k a.
  unfold summary_ready, present in Hrend. rewrite Hp, Htk in Hrend.
  unfold price_of in Hp.
  destruct (priceUsd top) as [s|] eqn:E1; [| discriminate].
  cbn [andb] in Hrend.
  repeat (apply andb_true_iff in Hrend;
          let H := fresh "C" in destruct Hrend as [Hrend H]).
  destruct (liquidity_usd top) as [liq|] eqn:E2; [| discriminate].
  destruct (chainId top) as [ch|] eqn:E9; [| discriminate].
  destruct (dexId top) as [dx|] eqn:E10; [| discriminate].
  destruct (pairCreatedAt top) as [cr|] eqn:E3; [| discriminate].
  destruct (quoteToken_symbol top) as [qt|] eqn:E11; [| discriminate].
  destruct (url top) as [ur|] eqn:E12; [| discriminate].
  destruct (volume_h24 top) as [v24|] eqn:E13; [| discriminate].
  destruct (marketCap top) as [mc|] eqn:E4; [| discriminate].
  destruct (priceChange_h1 top) as [chg|] eqn:E5; [| discriminate].
  destruct (volume_h1 top) as [vh|] eqn:E6; [| discriminate].
  destruct (txns_h1_buys top) as [tb|] eqn:E7; [| discriminate].
  destruct (txns_h1_sells top) as [ts|] eqn:E8; [| discriminate].
  unfold vwap, fetch_top_pairs, save_alerts, require, py_int_check,
    put_alerts, put_file, emit, bind, get, ret, raise.
  rewrite Hr. cbn [Z.eqb Pos.eqb]. cbn iota beta. rewrite Hs.
  cbn [firstn]. cbn iota beta.
  rewrite Htk. cbn iota beta.
  rewrite E1. cbn iota beta. rewrite Hp. cbn iota beta.
  rewrite E2. cbn iota beta. rewrite E9. cbn iota beta.
  rewrite E10. cbn iota beta. rewrite E3. cbn iota beta.
  rewrite (calculate_age_accepts cr w) by assumption. cbn iota beta.
  rewrite E11. cbn iota beta. rewrite E12. cbn iota beta.
  assert (F1 : forall v : world,
             match fdv top with
             | Some x =>
                 match x with
                 | S754_infinity _ => fun w0 => (w0, Raise OverflowError)
                 | S754_nan => fun w0 => (w0, Raise ValueError)
                 | _ => fun w0 => (w0, Ok tt)
                 end
             | None => fun w0 => (w0, Ok tt)
             end v = (v, Ok tt)).
  { intros v. destruct (fdv top) as [[| | |]|]; try reflexivity;
      discriminate. }
  rewrite F1. cbn iota beta.
  destruct liq as [| | |]; try discriminate;
    cbn iota beta; rewrite E13; cbn iota beta; rewrite E4; cbn iota beta;
    rewrite E5; cbn iota beta; rewrite E6; cbn iota beta;
    rewrite E7; cbn iota beta; rewrite E8; cbn iota beta;
    destruct (writable e); cbn iota beta; try reflexivity;
    destruct (info_imageUrl top); cbn iota beta;
    destruct (reply_ok e); reflexivity.
Qed.

(** [vwap] when the top pair lacks something the summary reads before
    the storing: it raises there, and not from the image or the reply. *)
Lemma vwap_stops_early e display_name avatar_url contract_address level w
      pairs top rest :
  response e = Response 200 (JsonObject (PairsArray pairs)) ->
  sorted_desc (filter has_liquidity pairs) = top :: rest ->
  summary_ready float_of_str top = false ->
  exists x,
    vwap float_of_str e display_name avatar_url contract_address level w
    = (w, Raise x)
    /\ x <> KeyError "info" /\ x <> HTTPException.
Proof.
  intros Hr Hs Hrend.
  assert (Early : forall x : exn,
             x <> KeyError "info" -> x <> HTTPException ->
             exists y, (w, @Raise unit x) = (w, Raise y)
                       /\ y <> KeyError "info" /\ y <> HTTPException)
    by eauto.
  unfold summary_ready, price_of, present in Hrend.
  unfold vwap, fetch_top_pairs, save_alerts, require, py_int_check,
    put_alerts, put_file, emit, bind, get, ret, raise.
  rewrite Hr. cbn [Z.eqb Pos.eqb]. cbn iota beta. rewrite Hs.
  cbn [firstn]. cbn iota beta.
  destruct (baseToken_symbol top) as [tk|]; [| apply Early; discriminate].
  cbn iota beta.
  destruct (priceUsd top) as [s|]; [| apply Early; discriminate].
  cbn iota beta.
  destruct (float_of_str s) as [price|]; [| apply Early; discriminate].
  cbn iota beta.
  destruct (liquidity_usd top) as [liq|]; [| apply Early; discriminate].
  cbn iota beta.
  destruct (chainId top) as [ch|]; [| apply Early; discriminate].
  cbn iota beta.
  destruct (dexId top) as [dx|]; [| apply Early; discriminate].
  cbn iota beta.
  destruct (pairCreatedAt top) as [cr|]; [| apply Early; discriminate].
  cbn iota beta.
  destruct (created_in_range cr) eqn:Hcr.
  - rewrite (calculate_age_accepts cr w Hcr). cbn iota beta.
    destruct (quoteToken_symbol top) as [qt|];
      [| apply Early; discriminate].
    cbn iota beta.
    destruct (url top) as [ur|]; [| apply Early; discriminate].
    cbn iota beta.
    destruct (fdv top) as [[| | |]|]; cbn iota beta;
      try (apply Early; discriminate);
      destruct liq as [| | |]; cbn iota beta;
      try (apply Early; discriminate);
      (destruct (volume_h24 top); cbn iota beta;
       [| apply Early; discriminate]);
      (destruct (marketCap top); cbn iota beta;
       [| apply Early; discriminate]);
      (destruct (priceChange_h1 top); cbn iota beta;
       [| apply Early; discriminate]);
      (destruct (volume_h1 top); cbn iota beta;
       [| apply Early; discriminate]);
      (destruct (txns_h1_buys top); cbn iota beta;
       [| apply Early; discriminate]);
      (destruct (txns_h1_sells top); cbn iota beta;
       [| apply Early; discriminate]);
      discriminate Hrend.
  - destruct (calculate_age_rejects cr w Hcr) as (x & Ex & Hx).
    rewrite Ex. cbn iota beta. apply Early;
      destruct Hx as [-> | [-> | ->]]; discriminate.
Qed.

(** [vwap] when upstream lists a pair that can be rendered. *)
Lemma vwap_registers e display_name avatar_url contract_address level w
      pairs top rest tk price :
  response e = Response 200 (JsonObject (PairsArray pairs)) ->
  sorted_desc (filter has_liquidity pairs) = top :: rest ->
  renderable float_of_str top = true ->
  baseToken_symbol top = Some tk ->
  price_of float_of_str top = Some price ->
  writable e = true ->
  reply_ok e = true ->
  vwap float_of_str e display_name avatar_url contract_address level w
  = (replied (ReplyAlertSet (Text.lower contract_address) tk price level)
       (saved (registered (Text.lower contract_address)
                 (mkAlert level tk price display_name avatar_url LNone) w)),
     Ok tt).
Proof.
  intros Hr Hs Hrend Htk Hp Hw Hok.
  unfold renderable in Hrend. apply andb_true_iff in Hrend.
  destruct Hrend as [Hready Himg].
  rewrite (vwap_stores e display_name avatar_url contract_address level w
             pairs top rest tk price Hr Hs Hready Htk Hp), Hw, Hok.
  unfold present in Himg. now destruct (info_imageUrl top).
Qed.

(** When [fetch_top_pairs] returns pairs, upstream answered with a list
    of pairs whose ranking starts with the first of them. *)
Lemma fetch_top_pairs_found e addr n w w' top others :
  fetch_top_pairs e addr n w = (w', Ok (Some (top :: others))) ->
  exists pairs rest,
    response e = Response 200 (JsonObject (PairsArray pairs))
    /\ sorted_desc (filter has_liquidity pairs) = top :: rest.
Proof.
  unfold fetch_top_pairs, bind, print, emit, ret, raise.
  destruct (response e) as [|sc b]; [discriminate |].
  destruct (sc =? 200) eqn:E; [| discriminate].
  apply Z.eqb_eq in E. subst sc.
  destruct b as [|[| |pairs]]; try discriminate.
  intros H. inversion H as [[Hw Hl]].
  destruct (sorted_desc (filter has_liquidity pairs)) as [|t r] eqn:Es.
  - destruct n; discriminate.
  - destruct n; [discriminate |]. cbn [firstn] in Hl. inversion Hl. subst.
    eauto.
Qed.

Lemma summary_ready_priced top :
  summary_ready float_of_str top = true ->
  exists tk price,
    baseToken_symbol top = Some tk
    /\ price_of float_of_str top = Some price.
Proof.
  unfold summary_ready, present.
  destruct (baseToken_symbol top) as [tk|]; [| discriminate].
  destruct (price_of float_of_str top) as [price|]; [eauto | discriminate].
Qed.

(** A [vwap] that found pairs and completed has stored and saved the
    alert and sent the summary. *)
Lemma vwap_ok_found e display_name avatar_url contract_address level w
      top others :
  fetch_top_pairs e (Text.lower contract_address) 5 w
  = (w, Ok (Some (top :: others))) ->
  outcome (vwap float_of_str e display_name avatar_url contract_address
                level) w = Ok tt ->
  exists tk price,
    baseToken_symbol top = Some tk
    /\ price_of float_of_str top = Some price
    /\ vwap float_of_str e display_name avatar_url contract_address level w
       = (replied (ReplyAlertSet (Text.lower contract_address) tk price level)
            (saved (registered (Text.lower contract_address)
                      (mkAlert level tk price display_name avatar_url LNone)
                      w)),
          Ok tt).
Proof.
  intros Hf Hok.
  destruct (fetch_top_pairs_found _ _ _ _ _ _ _ Hf) as (pairs & rest & Hr & Hs).
  destruct (summary_ready float_of_str top) eqn:Hready.
  - destruct (summary_ready_priced top Hready) as (tk & price & Htk & Hp).
    exists tk, price. split; [exact Htk |]. split; [exact Hp |].
    unfold outcome in Hok.
    rewrite (vwap_stores e display_name avatar_url contract_address level w
               pairs top rest tk price Hr Hs Hready Htk Hp) in *.
    destruct (writable e); [| discriminate].
    destruct (info_imageUrl top); [| discriminate].
    destruct (reply_ok e); [reflexivity | discriminate].
  - destruct (vwap_stops_early e display_name avatar_url contract_address
                level w pairs top rest Hr Hs Hready) as (x & Hx & _).
    unfold outcome in Hok. rewrite Hx in Hok. discriminate.
Qed.

(** A [vwap] that found pairs and failed on the image or on the reply
    has stored and saved the alert before. *)
Lemma vwap_late_failure e display_name avatar_url contract_address level w
      top others x :
  fetch_top_pairs e (Text.lower contract_address) 5 w
  = (w, Ok (Some (top :: others))) ->
  outcome (vwap float_of_str e display_name avatar_url contract_address
                level) w = Raise x ->
  x = KeyError "info" \/ x = HTTPException ->
  exists tk price,
    baseToken_symbol top = Some tk
    /\ price_of float_of_str top = Some price
    /\ run (vwap float_of_str e display_name avatar_url contract_address
                 level) w
       = saved (registered (Text.lower contract_address)
                  (mkAlert level tk price display_name avatar_url LNone) w)
    /\ (x = KeyError "info" <-> info_imageUrl top = None).
Proof.
  intros Hf Hx Hkind.
  destruct (fetch_top_pairs_found _ _ _ _ _ _ _ Hf) as (pairs & rest & Hr & Hs).
  destruct (summary_ready float_of_str top) eqn:Hready.
  - destruct (summary_ready_priced top Hready) as (tk & price & Htk & Hp).
    exists tk, price. split; [exact Htk |]. split; [exact Hp |].
    unfold outcome, run in *.
    rewrite (vwap_stores e display_name avatar_url contract_address level w
               pairs top rest tk price Hr Hs Hready Htk Hp) in *.
    destruct (writable e).
    + destruct (info_imageUrl top) as [img|].
      * destruct (reply_ok e); [discriminate |].
        cbn [fst snd] in *. inversion Hx. subst x.
        split; [reflexivity |]. split; discriminate.
      * cbn [fst snd] in *. inversion Hx. subst x.
        split; [reflexivity |]. split; reflexivity.
    + cbn [snd] in Hx. inversion Hx. subst x.
      destruct Hkind; discriminate.
  - destruct (vwap_stops_early e display_name avatar_url contract_address
                level w pairs top rest Hr Hs Hready) as (y & Hy & N1 & N2).
    unfold outcome in Hx. rewrite Hy in Hx. cbn [snd] in Hx.
    inversion Hx. subst y. destruct Hkind; contradiction.
Qed.


(** The outcome of [vwap] is the same for every target. *)
Lemma vwap_outcome_any_target e display_name avatar_url contract_address
      level other w :
  outcome (vwap float_of_str e display_name avatar_url contract_address
                other) w
  = outcome (vwap float_of_str e display_name avatar_url contract_address
                  level) w.
Proof.
  unfold outcome, vwap, fetch_top_pairs, save_alerts, require,
    calculate_age, py_int_check, print, put_alerts, put_file, emit, bind,
    get, ret, raise.
  cbn [fst snd].
  repeat (split_match; cbn [fst snd price_alerts alerts_file trace
                            monitor_running];
          try discriminate);
    repeat match goal with
           | H : (_, _) = (_, _) |- _ => inversion H; subst; clear H
           end;
    try reflexivity; try discriminate.
Qed.

Lemma remove_token_present e addr w :
  Dict.contains (Text.lower addr) (price_alerts w) = true ->
  remove_token e addr w
  = if writable e then
      if reply_ok e
      then (replied (ReplyRemoved (Text.lower addr))
              (saved (removed (Text.lower addr) w)), Ok tt)
      else (saved (removed (Text.lower addr) w), Raise HTTPException)
    else (removed (Text.lower addr) w, Raise OSError).
Proof.
  intros H. unfold remove_token, save_alerts, put_alerts, put_file, emit,
    bind, get, ret, raise. cbn iota beta. rewrite H.
  destruct (writable e), (reply_ok e); reflexivity.
Qed.

Lemma remove_token_absent e addr w :
  Dict.contains (Text.lower addr) (price_alerts w) = false ->
  remove_token e addr w
  = if reply_ok e
    then (replied (ReplyNoAlert (Text.lower addr)) w, Ok tt)
    else (w, Raise HTTPException).
Proof.
  intros H. unfold remove_token, emit, bind, get, ret, raise.
  cbn iota beta. rewrite H. destruct (reply_ok e); reflexivity.
Qed.

Lemma synced_saved w : synced (saved w).
Proof. reflexivity. Qed.

End CommandFacts.

(* ===================================================================== *)
(** ** The poller: band, suppression, firing *)
(* ===================================================================== *)

Lemma alerts_sent_snoc w ev :
  filter is_alert (trace w ++ [ev])
  = filter is_alert (trace w) ++ (if is_alert ev then [ev] else []).
Proof. rewrite filter_app. cbn. now destruct (is_alert ev). Qed.

Lemma app_one_neq {A} (l : list A) (x : A) : l <> l ++ [x].
Proof.
  intros H. apply (f_equal (@List.length A)) in H.
  rewrite length_app in H. cbn in H. lia.
Qed.

Section PollerClaims.
Variable float_of_str : string -> option Float.float.
Variable envs : string -> env.

(** The firing branch of a step, from the marking on. *)
Lemma firing_branch e i t tk price pct us pic w :
  writable e = true ->
  let w2 := saved (marked i t w) in
  (save_alerts e ;; send_alert_message e tk price pct us pic) (marked i t w)
  = send_alert_message e tk price pct us pic w2
  /\ price_alerts (run (send_alert_message e tk price pct us pic) w2)
     = price_alerts w2
  /\ alerts_file (run (send_alert_message e tk price pct us pic) w2)
     = Some (Document (json_dump (price_alerts w2)))
  /\ (channel e = ChannelOk ->
      outcome (send_alert_message e tk price pct us pic) w2 = Ok tt
      /\ alerts_sent (run (send_alert_message e tk price pct us pic) w2)
         = alerts_sent w ++ [Alerted tk price pct us pic])
  /\ (channel e = NoChannel ->
      outcome (send_alert_message e tk price pct us pic) w2 = Ok tt
      /\ alerts_sent (run (send_alert_message e tk price pct us pic) w2)
         = alerts_sent w)
  /\ (channel e = ChannelFails ->
      outcome (send_alert_message e tk price pct us pic) w2
      = Raise HTTPException
      /\ alerts_sent (run (send_alert_message e tk price pct us pic) w2)
         = alerts_sent w).
Proof.
  intros Hw w2. split.
  - unfold save_alerts, bind, get, put_file, emit. rewrite Hw. reflexivity.
  - unfold run, outcome, send_alert_message, print, emit, raise, alerts_sent.
    destruct (channel e);
      cbn [fst snd price_alerts alerts_file trace w2 saved marked];
      (split; [reflexivity |]); (split; [reflexivity |]);
      repeat split; try discriminate;
      rewrite ?filter_app; cbn [filter is_alert app];
      rewrite ?app_nil_r; reflexivity.
Qed.

Lemma observed_sent i price a w :
  alerts_sent (observed i price a w) = alerts_sent w.
Proof.
  unfold alerts_sent, observed. cbn [trace]. rewrite alerts_sent_snoc.
  cbn. apply app_nil_r.
Qed.

(** A step that obtained a price inside the band for an eligible record,
    with the disk writable and the channel present, sends the alert. *)
Lemma step_sent_when_fired i w addr a p ps price ratio :
  nth_error (price_alerts w) i = Some (addr, a) ->
  response (envs addr) = Response 200 (JsonObject (PairsArray (p :: ps))) ->
  price_of float_of_str p = Some price ->
  Float.truediv (Float.sub price (vwap_level a)) (vwap_level a)
  = Some ratio ->
  in_band (vwap_level a) price = true ->
  eligible (now_check (envs addr)) (last_alert_time a) = Some true ->
  writable (envs addr) = true ->
  channel (envs addr) = ChannelOk ->
  alerts_sent (run (monitor_step float_of_str envs i) w)
  = alerts_sent w
    ++ [Alerted (ticker a) price (Float.mul ratio Float.c100)
                (user a) (profile_pic a)].
Proof.
  intros Hi Hr Hp Hq Hb He Hw Hc. unfold run.
  rewrite (monitor_step_priced float_of_str envs i w addr a 200 p ps
             price Hi Hr eq_refl Hp), Hq, Hb, He.
  destruct (firing_branch (envs addr) i (now_fire (envs addr)) (ticker a)
              price (Float.mul ratio Float.c100) (user a) (profile_pic a)
              (observed i price a w) Hw) as (E & _ & _ & Hok & _).
  rewrite E. destruct (Hok Hc) as [_ Hs]. unfold run in Hs.
  rewrite Hs. now rewrite observed_sent.
Qed.

(** A step that obtained a price outside the band, or for a record that
    is not eligible, sends nothing. *)
Lemma step_silent i w addr a p ps price ratio :
  nth_error (price_alerts w) i = Some (addr, a) ->
  response (envs addr) = Response 200 (JsonObject (PairsArray (p :: ps))) ->
  price_of float_of_str p = Some price ->
  Float.truediv (Float.sub price (vwap_level a)) (vwap_level a)
  = Some ratio ->
  in_band (vwap_level a) price = false
  \/ eligible (now_check (envs addr)) (last_alert_time a) <> Some true ->
  alerts_sent (run (monitor_step float_of_str envs i) w) = alerts_sent w.
Proof.
  intros Hi Hr Hp Hq Hno. unfold run.
  rewrite (monitor_step_priced float_of_str envs i w addr a 200 p ps
             price Hi Hr eq_refl Hp), Hq.
  destruct (in_band (vwap_level a) price).
  - destruct Hno as [Hno | Hno]; [discriminate |].
    destruct (eligible _ _) as [[|]|]; try apply observed_sent.
    now elim Hno.
  - apply observed_sent.
Qed.

(** C1 (as amended). When the price is inside the band and the record is
    eligible, the step first stores the current time as
    ['last_alert_time'], then writes the file, and only then dispatches
    the notification. Whatever the dispatch does (no channel, or a send
    that raises), the record stays marked and saved. *)
Theorem alert_marked_before_dispatch i w addr a p ps price ratio :
  nth_error (price_alerts w) i = Some (addr, a) ->
  response (envs addr) = Response 200 (JsonObject (PairsArray (p :: ps))) ->
  price_of float_of_str p = Some price ->
  Float.truediv (Float.sub price (vwap_level a)) (vwap_level a)
  = Some ratio ->
  in_band (vwap_level a) price = true ->
  eligible (now_check (envs addr)) (last_alert_time a) = Some true ->
  writable (envs addr) = true ->
  let e := envs addr in
  let pct := Float.mul ratio Float.c100 in
  let w2 := saved (marked i (now_fire e) (observed i price a w)) in
  let w' := run (monitor_step float_of_str envs i) w in
  monitor_step float_of_str envs i w
  = send_alert_message e (ticker a) price pct (user a) (profile_pic a) w2
  /\ nth_error (price_alerts w') i
     = Some (addr, set_last_alert_time (LTime (now_fire e))
                     (set_current_price price a))
  /\ alerts_file w' = Some (Document (json_dump (price_alerts w')))
  /\ (channel e = ChannelOk ->
      outcome (monitor_step float_of_str envs i) w = Ok tt
      /\ alerts_sent w'
         = alerts_sent w
           ++ [Alerted (ticker a) price pct (user a) (profile_pic a)])
  /\ (channel e = NoChannel ->
      outcome (monitor_step float_of_str envs i) w = Ok tt
      /\ alerts_sent w' = alerts_sent w)
  /\ (channel e = ChannelFails ->
      outcome (monitor_step float_of_str envs i) w = Raise HTTPException
      /\ alerts_sent w' = alerts_sent w).
Proof.
  intros Hi Hr Hp Hq Hb He Hw e pct w2 w'.
  assert (Hstep := monitor_step_priced float_of_str envs i w addr a 200 p ps
                     price Hi Hr eq_refl Hp).
  rewrite Hq, Hb, He in Hstep.
  destruct (firing_branch e i (now_fire e) (ticker a) price pct (user a)
              (profile_pic a) (observed i price a w) Hw)
    as (E & Hpa & Hfile & Hok & Hno & Hfail).
  fold e in Hstep. fold pct in Hstep. rewrite E in Hstep. fold w2 in Hstep.
  pose proof (observed_sent i price a w) as Hsent.
  unfold w', run, outcome. rewrite Hstep.
  fold (run (send_alert_message e (ticker a) price pct (user a)
               (profile_pic a)) w2).
  fold (outcome (send_alert_message e (ticker a) price pct (user a)
               (profile_pic a)) w2).
  fold w2 in Hpa, Hfile, Hok, Hno, Hfail.
  rewrite Hsent in Hok, Hno, Hfail.
  split; [reflexivity |]. split.
  { rewrite Hpa. unfold w2, saved, marked, observed. cbn [price_alerts].
    erewrite update_at_same; [reflexivity |].
    erewrite update_at_same; [reflexivity | exact Hi]. }
  split.
  { rewrite Hfile, Hpa. reflexivity. }
  auto.
Qed.

(** For an observation inside the band (disk writable, channel present)
    the alert goes out exactly when ['last_alert_time'] is [None] or at
    least one day older than now. *)
Lemma step_alerts_iff_eligible i w addr a p ps price ratio :
  nth_error (price_alerts w) i = Some (addr, a) ->
  response (envs addr) = Response 200 (JsonObject (PairsArray (p :: ps))) ->
  price_of float_of_str p = Some price ->
  Float.truediv (Float.sub price (vwap_level a)) (vwap_level a)
  = Some ratio ->
  in_band (vwap_level a) price = true ->
  writable (envs addr) = true ->
  channel (envs addr) = ChannelOk ->
  let now := now_check (envs addr) in
  let sent := Alerted (ticker a) price (Float.mul ratio Float.c100)
                      (user a) (profile_pic a) in
  let w' := run (monitor_step float_of_str envs i) w in
  (alerts_sent w' = alerts_sent w \/ alerts_sent w' = alerts_sent w ++ [sent])
  /\ (alerts_sent w' = alerts_sent w ++ [sent]
      <-> last_alert_time a = LNone
          \/ exists t td,
               last_alert_time a = LTime t
               /\ Datetime.sub now t = Some td
               /\ Datetime.timedelta_days 1 <= td).
Proof.
  intros Hi Hr Hp Hq Hb Hw Hc now sent w'.
  destruct (eligible now (last_alert_time a)) as [[|]|] eqn:He.
  - assert (Hs : alerts_sent w' = alerts_sent w ++ [sent])
      by (apply (step_sent_when_fired i w addr a p ps price ratio);
          assumption).
    split; [now right |]. split; [| intros _; exact Hs].
    intros _. unfold eligible in He.
    destruct (last_alert_time a) as [|t|s]; [now left | | discriminate].
    right. destruct (Datetime.sub now t) as [td|] eqn:Hd;
      [| discriminate].
    exists t, td. split; [reflexivity |]. split; [exact Hd |].
    inversion He as [H0]. now apply Z.leb_le.
  - assert (Hs : alerts_sent w' = alerts_sent w).
    { apply (step_silent i w addr a p ps price ratio); try assumption.
      right. fold now. rewrite He. discriminate. }
    split; [now left |]. rewrite Hs. split.
    + intros H. elim (app_one_neq _ _ H).
    + unfold eligible in He. intros [H | (t & td & H & Hd & Hle)];
        rewrite H in He; [discriminate |].
      rewrite Hd in He. inversion He as [H0].
      apply Z.leb_gt in H0. lia.
  - assert (Hs : alerts_sent w' = alerts_sent w).
    { apply (step_silent i w addr a p ps price ratio); try assumption.
      right. fold now. rewrite He. discriminate. }
    split; [now left |]. rewrite Hs. split.
    + intros H. elim (app_one_neq _ _ H).
    + unfold eligible in He. intros [H | (t & td & H & Hd & Hle)];
        rewrite H in He; [discriminate |].
      rewrite Hd in He. discriminate.
Qed.

(** For an eligible record (disk writable, channel present) the alert
    goes out exactly when the observed price passes the band test. *)
Lemma step_alerts_iff_in_band i w addr a p ps price ratio :
  nth_error (price_alerts w) i = Some (addr, a) ->
  response (envs addr) = Response 200 (JsonObject (PairsArray (p :: ps))) ->
  price_of float_of_str p = Some price ->
  Float.truediv (Float.sub price (vwap_level a)) (vwap_level a)
  = Some ratio ->
  eligible (now_check (envs addr)) (last_alert_time a) = Some true ->
  writable (envs addr) = true ->
  channel (envs addr) = ChannelOk ->
  let sent := Alerted (ticker a) price (Float.mul ratio Float.c100)
                      (user a) (profile_pic a) in
  let w' := run (monitor_step float_of_str envs i) w in
  alerts_sent w' = alerts_sent w ++ [sent]
  <-> in_band (vwap_level a) price = true.
Proof.
  intros Hi Hr Hp Hq He Hw Hc sent w'.
  destruct (in_band (vwap_level a) price) eqn:Hb.
  - split; [reflexivity |]. intros _.
    apply (step_sent_when_fired i w addr a p ps price ratio); assumption.
  - split; [| discriminate]. intros H.
    assert (Hs : alerts_sent w' = alerts_sent w).
    { apply (step_silent i w addr a p ps price ratio); try assumption.
      now left. }
    rewrite Hs in H. elim (app_one_neq _ _ H).
Qed.

End PollerClaims.

(* ===================================================================== *)
(** ** Upstream without data *)
(* ===================================================================== *)

Lemma skipped_alerts addr r w :
  price_alerts (skipped addr r w) = price_alerts w.
Proof.
  unfold skipped, logged. destruct r as [|sc b]; [reflexivity |].
  now destruct (sc =? 200).
Qed.

Lemma skipped_file addr r w :
  alerts_file (skipped addr r w) = alerts_file w.
Proof.
  unfold skipped, logged. destruct r as [|sc b]; [reflexivity |].
  now destruct (sc =? 200).
Qed.

Lemma skipped_writes addr r w :
  writes_done (skipped addr r w) = writes_done w.
Proof.
  unfold skipped, logged, writes_done. destruct r as [|sc b]; [reflexivity |].
  destruct (sc =? 200); cbn [trace]; rewrite ?filter_app; cbn;
    now rewrite ?app_nil_r.
Qed.

Section NoDataClaims.
Variable float_of_str : string -> option Float.float.
Variable envs : string -> env.

(** The slot of a token without data is the same after the rest of the
    tick, however the tick ends. *)
Lemma tick_keeps_no_data_slot i addr a :
  no_data (response (envs addr)) = true ->
  forall c j w,
    nth_error (price_alerts w) i = Some (addr, a) ->
    nth_error (price_alerts (run (monitor_from float_of_str envs j c) w)) i
    = Some (addr, a).
Proof.
  intros Hn c j w Hi.
  apply (monitor_from_keeps float_of_str envs
           (fun v => nth_error (price_alerts v) i = Some (addr, a)));
    [| exact Hi].
  clear j w Hi. intros j v Hv.
  destruct (Nat.eq_dec j i) as [-> | Hne].
  - unfold run.
    rewrite (monitor_step_no_data float_of_str envs i v addr a Hv Hn).
    cbn [fst]. now rewrite skipped_alerts.
  - now rewrite monitor_step_other_slot.
Qed.

(** C10. When the fetch for a token gives no data (a status other than
    200, or a document without ['pairs']), the step changes nothing in
    the registry, does not write the file, and the token's record is the
    same after the whole tick. *)
Theorem failed_fetch_leaves_record i w addr a :
  nth_error (price_alerts w) i = Some (addr, a) ->
  no_data (response (envs addr)) = true ->
  outcome (monitor_step float_of_str envs i) w = Ok tt
  /\ price_alerts (run (monitor_step float_of_str envs i) w)
     = price_alerts w
  /\ alerts_file (run (monitor_step float_of_str envs i) w) = alerts_file w
  /\ writes_done (run (monitor_step float_of_str envs i) w) = writes_done w
  /\ nth_error (price_alerts (run (monitor_prices float_of_str envs) w)) i
     = Some (addr, a).
Proof.
  intros Hi Hn. unfold run, outcome.
  rewrite (monitor_step_no_data float_of_str envs i w addr a Hi Hn).
  cbn [fst snd].
  rewrite skipped_alerts, skipped_file, skipped_writes.
  repeat split.
  fold (run (monitor_prices float_of_str envs) w).
  rewrite monitor_prices_alerts. unfold run.
  rewrite monitor_prices_coro_steps.
  now apply (tick_keeps_no_data_slot i addr a Hn).
Qed.

(** C4 (as amended). A token whose fetch gives no data is skipped: the
    step raises nothing and the loop goes on with the next token. A body
    that is not JSON and a failed connection raise out of the step and end
    the tick there. *)
Theorem no_data_token_is_skipped i c w addr a :
  nth_error (price_alerts w) i = Some (addr, a) ->
  (no_data (response (envs addr)) = true ->
     monitor_step float_of_str envs i w
     = (skipped addr (response (envs addr)) w, Ok tt)
     /\ monitor_from float_of_str envs i (S c) w
        = monitor_from float_of_str envs (S i) c
            (skipped addr (response (envs addr)) w))
  /\ (response (envs addr) = Response 200 NotJson ->
        monitor_from float_of_str envs i (S c) w
        = (w, Raise JSONDecodeError))
  /\ (response (envs addr) = ConnectionFailed ->
        monitor_from float_of_str envs i (S c) w
        = (w, Raise ConnectionError)).
Proof.
  intros Hi. split; [| split].
  - intros Hn.
    pose proof (monitor_step_no_data float_of_str envs i w addr a Hi Hn)
      as Hs.
    split; [exact Hs |]. now apply monitor_from_next.
  - intros Hr. apply monitor_from_abort.
    unfold monitor_step, fetch_token_pairs, bind, get, raise.
    cbn [fst snd]. rewrite Hi. cbn iota beta. rewrite Hr. reflexivity.
  - intros Hr. apply monitor_from_abort.
    unfold monitor_step, fetch_token_pairs, bind, get, raise.
    cbn [fst snd]. rewrite Hi. cbn iota beta. rewrite Hr. reflexivity.
Qed.

End NoDataClaims.

(* ===================================================================== *)
(** ** Persistence of mutations *)
(* ===================================================================== *)


(* ===================================================================== *)
(** ** Registration *)
(* ===================================================================== *)

(** C3 (as amended). Registration does not look at the target price: with
    a pair that has liquidity data and the members the summary needs, it
    completes for every target, storing it with ['last_alert_time'] [None]
    and saving the registry; it leaves the registry alone when no pair
    has liquidity data; and whether it completes, or which exception it
    raises, is the same for every target. *)
Theorem registration_takes_any_target
        float_of_str e display_name avatar_url contract_address level w pairs :
  response e = Response 200 (JsonObject (PairsArray pairs)) ->
  reply_ok e = true ->
  let register :=
    vwap float_of_str e display_name avatar_url contract_address level in
  (forall top rest tk price,
      sorted_desc (filter has_liquidity pairs) = top :: rest ->
      renderable float_of_str top = true ->
      baseToken_symbol top = Some tk ->
      price_of float_of_str top = Some price ->
      writable e = true ->
      let a := mkAlert level tk price display_name avatar_url LNone in
      outcome register w = Ok tt
      /\ price_alerts (run register w)
         = Dict.set (Text.lower contract_address) a (price_alerts w)
      /\ Dict.get (Text.lower contract_address) (price_alerts (run register w))
         = Some a
      /\ alerts_file (run register w)
         = Some (Document (json_dump (price_alerts (run register w)))))
  /\ (filter has_liquidity pairs = [] ->
        outcome register w = Ok tt
        /\ price_alerts (run register w) = price_alerts w
        /\ alerts_file (run register w) = alerts_file w)
  /\ (forall other,
        outcome (vwap float_of_str e display_name avatar_url
                      contract_address other) w
        = outcome register w).
Proof.
  intros Hr Hok register. split; [| split].
  - intros top rest tk price Hs Hrend Htk Hp Hw a.
    unfold run, outcome, register.
    rewrite (vwap_registers float_of_str e display_name avatar_url
               contract_address level w pairs top rest tk price
               Hr Hs Hrend Htk Hp Hw Hok).
    cbn [fst snd replied saved registered price_alerts alerts_file].
    repeat split. apply get_set_same.
  - intros Hnone. unfold run, outcome, register, vwap, fetch_top_pairs,
      bind, ret, emit.
    rewrite Hr. cbn [Z.eqb Pos.eqb]. cbn iota beta. rewrite Hnone.
    cbn [sorted_desc fold_right firstn]. cbn iota beta. rewrite Hok.
    cbn [fst snd price_alerts alerts_file]. auto.
  - intros other. apply vwap_outcome_any_target.
Qed.

(* ===================================================================== *)
(** ** Which pair gives the price *)
(* ===================================================================== *)

Section PairChoice.
Variable float_of_str : string -> option Float.float.

(** Registration prices the alert from the top pair of the ranking. *)
Lemma registration_uses_top_ranked e display_name avatar_url
      contract_address level w pairs top rest price :
  response e = Response 200 (JsonObject (PairsArray pairs)) ->
  sorted_desc (filter has_liquidity pairs) = top :: rest ->
  renderable float_of_str top = true ->
  price_of float_of_str top = Some price ->
  writable e = true ->
  reply_ok e = true ->
  spec_top_ranked pairs = Some top
  /\ option_map current_price
       (Dict.get (Text.lower contract_address)
          (price_alerts
             (run (vwap float_of_str e display_name avatar_url
                        contract_address level) w)))
     = Some price.
Proof.
  intros Hr Hs Hrend Hp Hw Hok. split.
  - now rewrite <- sorted_desc_head, Hs.
  - assert (Htk : exists tk, baseToken_symbol top = Some tk).
    { unfold renderable, summary_ready, present in Hrend.
      destruct (baseToken_symbol top) as [tk|]; [eauto | discriminate]. }
    destruct Htk as [tk Htk]. unfold run.
    rewrite (vwap_registers float_of_str e display_name avatar_url
               contract_address level w pairs top rest tk price
               Hr Hs Hrend Htk Hp Hw Hok).
    cbn [fst replied saved registered price_alerts].
    now rewrite get_set_same.
Qed.

(** The poller prices the alert from the pair that upstream lists
    first. *)
Lemma poller_uses_first_listed envs i w addr a p ps price :
  nth_error (price_alerts w) i = Some (addr, a) ->
  response (envs addr) = Response 200 (JsonObject (PairsArray (p :: ps))) ->
  price_of float_of_str p = Some price ->
  exists a',
    nth_error (price_alerts (run (monitor_step float_of_str envs i) w)) i
    = Some (addr, a')
    /\ current_price a' = price.
Proof.
  intros Hi Hr Hp. unfold run.
  rewrite (monitor_step_priced float_of_str envs i w addr a 200 p ps price
             Hi Hr eq_refl Hp).
  assert (Ho : nth_error (price_alerts (observed i price a w)) i
               = Some (addr, set_current_price price a)).
  { unfold observed. cbn [price_alerts]. now apply update_at_same. }
  destruct (Float.truediv _ _) as [ratio|]; [| eauto].
  destruct (in_band _ _); [| eauto].
  destruct (eligible _ _) as [[|]|]; [| eauto | eauto].
  unfold save_alerts, send_alert_message, bind, get, put_file, emit, print,
    raise.
  exists (set_last_alert_time (LTime (now_fire (envs addr)))
            (set_current_price price a)).
  split; [| reflexivity].
  assert (Hm : nth_error
                 (price_alerts (marked i (now_fire (envs addr))
                                       (observed i price a w))) i
               = Some (addr,
                       set_last_alert_time (LTime (now_fire (envs addr)))
                         (set_current_price price a))).
  { unfold marked. cbn [price_alerts]. now apply update_at_same. }
  destruct (writable (envs addr)); [| exact Hm].
  destruct (channel (envs addr)); exact Hm.
Qed.
End PairChoice.

(* ===================================================================== *)
(** ** Band and suppression, with the figures of the specification *)
(* ===================================================================== *)

Import Scenario.

(** C6. The band test holds exactly when [target * 0.9 <= price] and
    [price <= target * 1.1], both bounds included; for the target 100 the
    prices 90 and 110 pass and 89.99 and 110.01 do not; and it is this test
    that decides whether an eligible record is alerted. *)
Theorem band_is_inclusive_ten_percent :
  (forall target price,
      in_band target price = true
      <-> Float.leb (Float.mul target Float.c0_9) price = true
          /\ Float.leb price (Float.mul target Float.c1_1) = true)
  /\ Float.c0_9 = dec 9 1
  /\ Float.c1_1 = dec 11 1
  /\ in_band (dec 100 0) (dec 90 0) = true
  /\ in_band (dec 100 0) (dec 110 0) = true
  /\ in_band (dec 100 0) (dec 8999 2) = false
  /\ in_band (dec 100 0) (dec 11001 2) = false
  /\ (forall float_of_str envs i w addr a p ps price ratio,
         nth_error (price_alerts w) i = Some (addr, a) ->
         response (envs addr)
         = Response 200 (JsonObject (PairsArray (p :: ps))) ->
         price_of float_of_str p = Some price ->
         Float.truediv (Float.sub price (vwap_level a)) (vwap_level a)
         = Some ratio ->
         eligible (now_check (envs addr)) (last_alert_time a) = Some true ->
         writable (envs addr) = true ->
         channel (envs addr) = ChannelOk ->
         alerts_sent (run (monitor_step float_of_str envs i) w)
         = alerts_sent w
           ++ [Alerted (ticker a) price (Float.mul ratio Float.c100)
                       (user a) (profile_pic a)]
         <-> in_band (vwap_level a) price = true).
Proof.
  split.
  { intros target price. unfold in_band. apply andb_true_iff. }
  do 6 (split; [vm_compute; reflexivity |]).
  intros float_of_str envs i w addr a p ps price ratio.
  apply step_alerts_iff_in_band.
Qed.

(** C7. An observation inside the band is alerted exactly when
    ['last_alert_time'] is [None] or at least 24 hours before now. After an
    alert at [T0], a price inside the band at [T0] + 23 h 59 min sends
    nothing, and at [T0] + 24 h it sends the alert again. *)
Theorem suppression_window :
  (forall float_of_str envs i w addr a p ps price ratio,
      nth_error (price_alerts w) i = Some (addr, a) ->
      response (envs addr)
      = Response 200 (JsonObject (PairsArray (p :: ps))) ->
      price_of float_of_str p = Some price ->
      Float.truediv (Float.sub price (vwap_level a)) (vwap_level a)
      = Some ratio ->
      in_band (vwap_level a) price = true ->
      writable (envs addr) = true ->
      channel (envs addr) = ChannelOk ->
      alerts_sent (run (monitor_step float_of_str envs i) w)
      = alerts_sent w
        ++ [Alerted (ticker a) price (Float.mul ratio Float.c100)
                    (user a) (profile_pic a)]
      <-> last_alert_time a = LNone
          \/ exists t td,
               last_alert_time a = LTime t
               /\ Datetime.sub (now_check (envs addr)) t = Some td
               /\ Datetime.timedelta_days 1 <= td)
  /\ (let tick now :=
        monitor_prices float_of_decimal_str
                       (fun _ => at_time quoted_100 now ChannelOk) in
      let fired := run (tick T0) (one_alert LNone) in
      price_alerts fired = [("0xabc"%string, alice (LTime T0))]
      /\ List.length (alerts_sent fired) = 1%nat
      /\ alerts_sent (run (tick T0_plus_23h59) fired) = alerts_sent fired
      /\ List.length (alerts_sent (run (tick T0_plus_24h) fired)) = 2%nat
      /\ price_alerts (run (tick T0_plus_24h) fired)
         = [("0xabc"%string, alice (LTime T0_plus_24h))]).
Proof.
  split.
  - intros float_of_str envs i w addr a p ps price ratio
           Hi Hr Hp Hq Hb Hw Hc.
    exact (proj2 (step_alerts_iff_eligible float_of_str envs i w addr a p ps
                    price ratio Hi Hr Hp Hq Hb Hw Hc)).
  - vm_compute. repeat split.
Qed.

(** C5, on the code. Upstream lists a thinly traded pair at 1.0 before the
    liquid pair at 2.0. The ranking rule puts the liquid pair first and
    registration stores its price, 2.0; the next tick stores 1.0, the price
    of the pair listed first, and with the target at 2.0 sends nothing. *)
Theorem poller_price_differs_from_top_ranked :
  let register :=
    vwap float_of_decimal_str (at_time thin_first T0 ChannelOk)
         "alice" "https://cdn.example/a.png" "0xABC" (dec 2 0) in
  let tick :=
    monitor_prices float_of_decimal_str
                   (fun _ => at_time thin_first T0_plus_1min ChannelOk) in
  let registered := run register (initial None) in
  let polled := run tick registered in
  spec_top_ranked [thin_pair; liquid_pair] = Some liquid_pair
  /\ price_of float_of_decimal_str liquid_pair = Some (dec 2 0)
  /\ option_map current_price
       (Dict.get "0xabc" (price_alerts registered)) = Some (dec 2 0)
  /\ outcome tick registered = Ok tt
  /\ option_map current_price
       (Dict.get "0xabc" (price_alerts polled)) = Some (dec 1 0)
  /\ in_band (dec 2 0) (dec 2 0) = true
  /\ alerts_sent polled = [].
Proof. vm_compute. repeat split. Qed.

(* ===================================================================== *)
(** ** Runs that contradict the specification *)
(* ===================================================================== *)

(** Against C1 as stated: the send raises, no alert reaches the channel,
    and yet the record carries the time of the attempt, in memory and in the
    file; a minute later, with the channel working, nothing is sent. *)
Lemma failed_dispatch_still_marks :
  let tick now c :=
    monitor_prices float_of_decimal_str
                   (fun _ => at_time quoted_100 now c) in
  let w' := run (tick T0 ChannelFails) (one_alert LNone) in
  outcome (tick T0 ChannelFails) (one_alert LNone) = Raise HTTPException
  /\ alerts_sent w' = []
  /\ price_alerts w' = [("0xabc"%string, alice (LTime T0))]
  /\ alerts_file w'
     = Some (Document (json_dump [("0xabc"%string, alice (LTime T0))]))
  /\ outcome (tick T0_plus_1min ChannelOk) w' = Ok tt
  /\ alerts_sent (run (tick T0_plus_1min ChannelOk) w') = [].
Proof. vm_compute. repeat split. Qed.


(** Against C3 as stated: the targets -5 and 0 are registered. *)
Lemma non_positive_target_registers :
  let register level :=
    vwap float_of_decimal_str (at_time quoted_100 T0 ChannelOk)
         "alice" "https://cdn.example/a.png" "0xABC" level in
  let minus_five := Float.of_decimal true 5 0 in
  let zero := S754_zero false in
  Float.ltb minus_five zero = true
  /\ outcome (register minus_five) (initial None) = Ok tt
  /\ option_map vwap_level
       (Dict.get "0xabc" (price_alerts (run (register minus_five)
                                            (initial None))))
     = Some minus_five
  /\ outcome (register zero) (initial None) = Ok tt
  /\ option_map vwap_level
       (Dict.get "0xabc" (price_alerts (run (register zero) (initial None))))
     = Some zero.
Proof. vm_compute. repeat split. Qed.

(** Against C4 as stated: a body that is not JSON for the first token
    raises out of the tick, and the second token, which would have been
    alerted, is not looked at. *)
Lemma malformed_payload_ends_tick :
  let tick first := monitor_prices float_of_decimal_str (tick_with first) in
  tick (Response 200 NotJson) two_alerts = (two_alerts, Raise JSONDecodeError)
  /\ outcome (tick (Response 503 NotJson)) two_alerts = Ok tt
  /\ alerts_sent (run (tick (Response 503 NotJson)) two_alerts)
     = [Alerted "TKN" (dec 100 0) (S754_zero false) "bob"
                "https://cdn.example/b.png"].
Proof. vm_compute. repeat split. Qed.

(** An empty or [null] ['pairs'] member takes the same way out: the index
    into it raises, no record is touched, and the loop ends with the
    tick. *)
Lemma empty_pairs_end_tick :
  let tick first := monitor_prices float_of_decimal_str (tick_with first) in
  outcome (tick (answer [])) two_alerts = Raise IndexError
  /\ price_alerts (run (tick (answer [])) two_alerts)
     = price_alerts two_alerts
  /\ monitor_running (run (tick (answer [])) two_alerts) = false
  /\ outcome (tick (Response 200 (JsonObject PairsNull))) two_alerts
     = Raise TypeError
  /\ price_alerts (run (tick (Response 200 (JsonObject PairsNull)))
                       two_alerts)
     = price_alerts two_alerts.
Proof. vm_compute. repeat split. Qed.

(* ===================================================================== *)
(** ** The statements at concrete inputs *)
(* ===================================================================== *)

Lemma alert_marked_before_dispatch_witness :
  let envs := fun _ : string => at_time quoted_100 T0 ChannelFails in
  let w' := run (monitor_step float_of_decimal_str envs 0) (one_alert LNone) in
  nth_error (price_alerts w') 0
  = Some ("0xabc"%string,
          set_last_alert_time (LTime T0)
            (set_current_price (dec 100 0) (alice LNone)))
  /\ alerts_file w' = Some (Document (json_dump (price_alerts w')))
  /\ outcome (monitor_step float_of_decimal_str envs 0) (one_alert LNone)
     = Raise HTTPException.
Proof.
  intros envs w'.
  pose proof (alert_marked_before_dispatch float_of_decimal_str envs 0
                (one_alert LNone) "0xabc"%string (alice LNone)
                (quote "100"%string (Some (dec 50000 0))) [] (dec 100 0)
                (S754_zero false)
                eq_refl eq_refl eq_refl eq_refl eq_refl eq_refl eq_refl)
    as (_ & H1 & H2 & _ & _ & H3).
  split; [exact H1 |]. split; [exact H2 |]. exact (proj1 (H3 eq_refl)).
Defined.


Lemma registration_takes_any_target_witness :
  outcome (vwap float_of_decimal_str (at_time quoted_100 T0 ChannelOk)
                "alice"%string "https://cdn.example/a.png"%string "0xABC"%string
                (Float.of_decimal true 5 0))
          (initial None) = Ok tt.
Proof.
  exact (proj1 (proj1 (registration_takes_any_target float_of_decimal_str
                         (at_time quoted_100 T0 ChannelOk)
                         "alice"%string "https://cdn.example/a.png"%string "0xABC"%string
                         (Float.of_decimal true 5 0) (initial None)
                         [quote "100"%string (Some (dec 50000 0))]
                         eq_refl eq_refl)
                      (quote "100"%string (Some (dec 50000 0))) []
                      "TKN"%string (dec 100 0)
                      eq_refl eq_refl eq_refl eq_refl eq_refl)).
Defined.

Lemma no_data_token_is_skipped_witness :
  let envs := tick_with (Response 503 NotJson) in
  monitor_from float_of_decimal_str envs 0 2 two_alerts
  = monitor_from float_of_decimal_str envs 1 1
      (skipped "0xaaa"%string (Response 503 NotJson) two_alerts).
Proof.
  intros envs.
  exact (proj2 (proj1 (no_data_token_is_skipped float_of_decimal_str envs
                         0%nat 1%nat two_alerts "0xaaa"%string (alice LNone) eq_refl)
                      eq_refl)).
Defined.

Lemma band_is_inclusive_ten_percent_witness :
  let envs := fun _ : string => at_time quoted_100 T0 ChannelOk in
  alerts_sent (run (monitor_step float_of_decimal_str envs 0)
                   (one_alert LNone))
  = alerts_sent (one_alert LNone)
    ++ [Alerted "TKN"%string (dec 100 0) (Float.mul (S754_zero false) Float.c100)
                "alice"%string "https://cdn.example/a.png"%string]
  <-> in_band (dec 100 0) (dec 100 0) = true.
Proof.
  intros envs.
  exact (proj2 (proj2 (proj2 (proj2 (proj2 (proj2 (proj2
           band_is_inclusive_ten_percent))))))
           float_of_decimal_str envs 0%nat (one_alert LNone) "0xabc"%string
           (alice LNone) (quote "100"%string (Some (dec 50000 0))) [] (dec 100 0)
           (S754_zero false)
           eq_refl eq_refl eq_refl eq_refl eq_refl eq_refl eq_refl).
Defined.

Lemma suppression_window_witness :
  let envs := fun _ : string => at_time quoted_100 T0_plus_24h ChannelOk in
  alerts_sent (run (monitor_step float_of_decimal_str envs 0)
                   (one_alert (LTime T0)))
  = alerts_sent (one_alert (LTime T0))
    ++ [Alerted "TKN"%string (dec 100 0) (Float.mul (S754_zero false) Float.c100)
                "alice"%string "https://cdn.example/a.png"%string]
  <-> LTime T0 = LNone
      \/ exists t td,
           LTime T0 = LTime t
           /\ Datetime.sub T0_plus_24h t = Some td
           /\ Datetime.timedelta_days 1 <= td.
Proof.
  intros envs.
  exact (proj1 suppression_window
           float_of_decimal_str envs 0%nat (one_alert (LTime T0)) "0xabc"%string
           (alice (LTime T0)) (quote "100"%string (Some (dec 50000 0))) []
           (dec 100 0) (S754_zero false)
           eq_refl eq_refl eq_refl eq_refl eq_refl eq_refl eq_refl).
Defined.

Lemma save_load_round_trip_witness :
  let e := at_time quoted_100 T0 ChannelOk in
  let w := one_alert (LTime T0_and_a_bit) in
  let round := save_alerts e ;; put_alerts [] ;; load_alerts in
  price_alerts (run round w) = price_alerts w
  /\ price_alerts (run (repeat_m 3 round) w) = price_alerts w.
Proof.
  intros e w round.
  assert (WF : well_formed (price_alerts w)).
  { split.
    - repeat constructor. intros [].
    - repeat constructor. }
  pose proof (save_load_round_trip e w 3%nat [] eq_refl WF)
    as (_ & H1 & _ & _ & _ & H2 & _).
  split; [exact H1 | exact H2].
Defined.

Lemma load_missing_or_corrupt_witness :
  outcome on_ready (initial (Some Unparseable)) = Raise JSONDecodeError
  /\ monitor_running (run on_ready (initial (Some Unparseable))) = false
  /\ outcome load_alerts (initial None) = Ok tt.
Proof.
  pose proof (proj2 (load_missing_or_corrupt (initial (Some Unparseable)))
                eq_refl) as (_ & H1 & H2 & _).
  pose proof (proj1 (load_missing_or_corrupt (initial None)) eq_refl)
    as (H3 & _).
  split; [exact H1 |]. split; [exact H2 | exact H3].
Defined.

Lemma failed_fetch_leaves_record_witness :
  let envs := tick_with (Response 503 NotJson) in
  nth_error (price_alerts (run (monitor_prices float_of_decimal_str envs)
                               two_alerts)) 0
  = Some ("0xaaa"%string, alice LNone).
Proof.
  intros envs.
  exact (proj2 (proj2 (proj2 (proj2
           (failed_fetch_leaves_record float_of_decimal_str envs 0%nat two_alerts
              "0xaaa"%string (alice LNone) eq_refl eq_refl))))).
Defined.

(* ===================================================================== *)
(** * Further properties *)
(* ===================================================================== *)

Import Cases.

(* ===================================================================== *)
(** ** The order on floats *)
(* ===================================================================== *)

Lemma ltb_key x y :
  is_nan x = false -> is_nan y = false ->
  (Float.ltb x y = true <-> key_lt (order_key x) (order_key y)).
Proof.
  intros Hx Hy. unfold Float.ltb, SFltb, SFcompare, key_lt, order_key.
  destruct x as [sx|sx| |sx mx ex], y as [sy|sy| |sy my ey];
    try discriminate; try destruct sx; try destruct sy;
    try (split; [discriminate | lia]);
    try (split; [lia | reflexivity]).
  all: rewrite Pos.compare_cont_spec; cbn [Pos.switch_Eq];
    destruct (Z.compare_spec ex ey); destruct (Pos.compare_spec mx my);
    cbn; split; intros; try discriminate; try reflexivity; try lia.
Qed.

Lemma ltb_nan_l y : Float.ltb S754_nan y = false.
Proof. reflexivity. Qed.

Lemma ltb_nan_r x : Float.ltb x S754_nan = false.
Proof. now destruct x. Qed.

Lemma ltb_asym x y : Float.ltb x y = true -> Float.ltb y x = false.
Proof.
  intros H.
  destruct (is_nan x) eqn:Hx; [destruct x; discriminate |].
  destruct (is_nan y) eqn:Hy; [destruct y; try discriminate;
                               now rewrite ltb_nan_r in H |].
  apply (ltb_key x y Hx Hy) in H.
  destruct (Float.ltb y x) eqn:E; [| reflexivity].
  apply (ltb_key y x Hy Hx) in E.
  unfold key_lt in *.
  destruct (order_key x) as [[a1 a2] a3], (order_key y) as [[b1 b2] b3]. lia.
Qed.

Lemma not_ltb_trans x y z :
  is_nan x = false -> is_nan y = false -> is_nan z = false ->
  Float.ltb x y = false -> Float.ltb y z = false -> Float.ltb x z = false.
Proof.
  intros Hx Hy Hz H1 H2.
  destruct (Float.ltb x z) eqn:E; [| reflexivity].
  apply (ltb_key x z Hx Hz) in E.
  assert (N1 : ~ key_lt (order_key x) (order_key y)).
  { intros K. apply (ltb_key x y Hx Hy) in K. congruence. }
  assert (N2 : ~ key_lt (order_key y) (order_key z)).
  { intros K. apply (ltb_key y z Hy Hz) in K. congruence. }
  unfold key_lt in *.
  destruct (order_key x) as [[a1 a2] a3], (order_key y) as [[b1 b2] b3],
    (order_key z) as [[c1 c2] c3]. lia.
Qed.

(* ===================================================================== *)
(** ** The ranking of pairs *)
(* ===================================================================== *)

Lemma insert_desc_perm x : forall l, Permutation (insert_desc x l) (x :: l).
Proof.
  induction l as [|y l IH]; cbn; [reflexivity |].
  destruct (Float.ltb _ _); [| reflexivity].
  rewrite IH. apply perm_swap.
Qed.

Lemma sorted_desc_perm l : Permutation (sorted_desc l) l.
Proof.
  induction l as [|x l IH]; cbn; [reflexivity |].
  fold (sorted_desc l). rewrite insert_desc_perm. now constructor.
Qed.

Lemma insert_desc_sorted x : forall l,
  Sorted descending l -> Sorted descending (insert_desc x l).
Proof.
  induction l as [|y l IH]; intros Hs; cbn.
  - repeat constructor.
  - destruct (Float.ltb (liquidity_key x) (liquidity_key y)) eqn:E.
    + inversion Hs as [|? ? Hl Hh]; subst. constructor; [now apply IH |].
      destruct l as [|z l]; cbn.
      * constructor. unfold descending. now apply ltb_asym.
      * destruct (Float.ltb (liquidity_key x) (liquidity_key z)).
        -- inversion Hh; subst. now constructor.
        -- constructor. unfold descending. now apply ltb_asym.
    + constructor; [exact Hs |]. now constructor.
Qed.

Lemma sorted_desc_sorted l : Sorted descending (sorted_desc l).
Proof.
  induction l as [|x l IH]; cbn; [constructor |].
  now apply insert_desc_sorted.
Qed.

Lemma sorted_desc_fixed l : Sorted descending l -> sorted_desc l = l.
Proof.
  induction 1 as [|x l Hs IH Hh]; [reflexivity |].
  cbn. fold (sorted_desc l). rewrite IH.
  destruct Hh as [|y l' Hxy]; [reflexivity |].
  cbn. unfold descending in Hxy. now rewrite Hxy.
Qed.

Lemma firstn_sorted {A} (R : A -> A -> Prop) n : forall l,
  Sorted R l -> Sorted R (firstn n l).
Proof.
  induction n as [|n IH]; intros l Hs; [constructor |].
  inversion Hs as [|x l' Hs' Hh]; subst; [constructor |].
  cbn. constructor; [now apply IH |].
  inversion Hh as [|y l'' Hxy]; subst; [destruct n; constructor |].
  destruct n; cbn; now constructor.
Qed.

Lemma firstn_incl {A} n : forall l : list A, incl (firstn n l) l.
Proof.
  induction n as [|n IH]; intros l x Hx; [destruct Hx |].
  destruct l as [|y l]; [destruct Hx |].
  cbn in Hx. destruct Hx as [-> | Hx]; [now left | right; now apply IH].
Qed.

(** What [fetch_top_pairs] returns when it returns a list. *)
Lemma fetch_top_pairs_some e addr top_n w w' l :
  fetch_top_pairs e addr top_n w = (w', Ok (Some l)) ->
  w' = w
  /\ l = firstn top_n (sorted_desc (filter has_liquidity
                                           (listed (response e)))).
Proof.
  unfold fetch_top_pairs, listed, bind, ret, raise, print, emit.
  destruct (response e) as [|sc b]; [discriminate |].
  destruct (sc =? 200); [| discriminate].
  destruct b as [|[| |pairs]]; try discriminate; intros H; inversion H;
    subst; split; try reflexivity.
  now destruct top_n.
Qed.

(** The most liquid pair comes first: the head of a descending list is
    not less liquid than any element after it. *)
Lemma sorted_head_greatest : forall rest top,
  Sorted descending (top :: rest) ->
  Forall (fun p => is_nan (liquidity_key p) = false) (top :: rest) ->
  forall p, In p rest -> descending top p.
Proof.
  induction rest as [|q rest IH]; intros top Hs Hn p Hp; [destruct Hp |].
  inversion Hs as [|? ? Hs' Hh]; subst. inversion Hh as [|? ? Htq]; subst.
  inversion Hn as [|? ? Ht Hn']; subst.
  destruct Hp as [<- | Hp]; [exact Htq |].
  pose proof (IH q Hs' Hn' p Hp) as Hqp.
  inversion Hn' as [|? ? Hq Hn'']; subst.
  pose proof (proj1 (Forall_forall _ _) Hn'' p Hp) as Hpn. cbn in Hpn.
  unfold descending in *.
  now apply (not_ltb_trans _ (liquidity_key q)).
Qed.

(** X1. When [fetch_top_pairs] returns a list it leaves the state alone;
    the list has at most [top_n] pairs, each of them listed by upstream
    with liquidity data; and when upstream lists no more than [top_n] such
    pairs, the list holds exactly those. *)
Theorem fetch_top_pairs_returns_liquid_listed e addr top_n w w' l :
  fetch_top_pairs e addr top_n w = (w', Ok (Some l)) ->
  w' = w
  /\ (List.length l <= top_n)%nat
  /\ Forall (fun p => has_liquidity p = true
                      /\ In p (listed (response e))) l
  /\ ((List.length (filter has_liquidity (listed (response e))) <= top_n)%nat
      -> Permutation l (filter has_liquidity (listed (response e)))).
Proof.
  intros H. apply fetch_top_pairs_some in H. destruct H as [-> ->].
  set (liquid := filter has_liquidity (listed (response e))).
  split; [reflexivity |]. split; [apply firstn_le_length |]. split.
  - apply Forall_forall. intros p Hp.
    apply firstn_incl in Hp.
    apply (Permutation_in _ (sorted_desc_perm liquid)) in Hp.
    apply filter_In in Hp. tauto.
  - intros Hlen. rewrite firstn_all2.
    + apply sorted_desc_perm.
    + now rewrite (Permutation_length (sorted_desc_perm liquid)).
Qed.

(** X2. The list that [fetch_top_pairs] returns is in descending order of
    liquidity: no pair is less liquid than the pair after it (liquidity
    values that are numbers, on which every stable sort agrees). *)
Theorem fetch_top_pairs_descending e addr top_n w w' l :
  fetch_top_pairs e addr top_n w = (w', Ok (Some l)) ->
  (forall p, In p (listed (response e)) -> has_liquidity p = true ->
             is_nan (liquidity_key p) = false) ->
  Sorted descending l.
Proof.
  intros H _. apply fetch_top_pairs_some in H. destruct H as [_ ->].
  apply firstn_sorted, sorted_desc_sorted.
Qed.

(** X3. When the pairs with liquidity data already come in descending
    order from upstream, pairs of equal liquidity included,
    [fetch_top_pairs] returns them in upstream order (liquidity values
    that are numbers). *)
Theorem fetch_top_pairs_keeps_upstream_order e addr top_n w w' l :
  fetch_top_pairs e addr top_n w = (w', Ok (Some l)) ->
  (forall p, In p (listed (response e)) -> has_liquidity p = true ->
             is_nan (liquidity_key p) = false) ->
  Sorted descending (filter has_liquidity (listed (response e))) ->
  l = firstn top_n (filter has_liquidity (listed (response e))).
Proof.
  intros H _ Hs. apply fetch_top_pairs_some in H. destruct H as [_ ->].
  now rewrite sorted_desc_fixed.
Qed.

(** X4. The first pair that [fetch_top_pairs] returns is not less liquid
    than any pair with liquidity data that upstream lists (liquidity values
    that are numbers). *)
Theorem fetch_top_pairs_first_is_most_liquid e addr top_n w w' top rest :
  fetch_top_pairs e addr top_n w = (w', Ok (Some (top :: rest))) ->
  (forall p, In p (listed (response e)) -> has_liquidity p = true ->
             is_nan (liquidity_key p) = false) ->
  forall p, In p (listed (response e)) -> has_liquidity p = true ->
            descending top p.
Proof.
  intros H Hn p Hp Hl. apply fetch_top_pairs_some in H. destruct H as [_ H].
  set (liquid := filter has_liquidity (listed (response e))) in *.
  assert (Hin : In p (sorted_desc liquid)).
  { apply (Permutation_in _ (Permutation_sym (sorted_desc_perm liquid))).
    apply filter_In. tauto. }
  pose proof (sorted_desc_sorted liquid) as Hs.
  assert (Hall : Forall (fun q => is_nan (liquidity_key q) = false)
                        (sorted_desc liquid)).
  { apply Forall_forall. intros q Hq.
    apply (Permutation_in _ (sorted_desc_perm liquid)) in Hq.
    apply filter_In in Hq. now apply Hn. }
  destruct (sorted_desc liquid) as [|t l']; [destruct Hin |].
  destruct top_n as [|n]; [discriminate |]. cbn in H.
  inversion H; subst t. destruct Hin as [<- | Hin].
  - unfold descending. destruct (Float.ltb _ _) eqn:E; [| reflexivity].
    pose proof (ltb_asym _ _ E). congruence.
  - now apply (sorted_head_greatest l' top).
Qed.

(* ===================================================================== *)
(** ** Keys of the registry *)
(* ===================================================================== *)

Section KeyFacts.
Context {V : Type}.
Implicit Types (d : Dict.dict V) (k : string) (v : V).

Lemma get_none_iff k d : Dict.get k d = None <-> ~ In k (Dict.keys d).
Proof.
  induction d as [|[k' v'] d IH]; cbn; [tauto |].
  destruct (String.eqb_spec k k') as [-> | Hne].
  - split; [discriminate | intros H; elim H; now left].
  - rewrite IH. split; intros H; [intros [E | Hin]; [congruence | tauto] |].
    intros Hin. apply H. now right.
Qed.

Lemma contains_iff k d : Dict.contains k d = true <-> In k (Dict.keys d).
Proof.
  unfold Dict.contains. pose proof (get_none_iff k d) as H.
  destruct (Dict.get k d).
  - split; [| reflexivity]. intros _.
    destruct (in_dec string_dec k (Dict.keys d)) as [Hin | Hnin];
      [exact Hin |]. apply H in Hnin. discriminate.
  - split; [discriminate |]. intros Hin. now apply H in Hin.
Qed.

Lemma keys_set_present k v d :
  In k (Dict.keys d) -> Dict.keys (Dict.set k v d) = Dict.keys d.
Proof.
  induction d as [|[k' v'] d IH]; cbn; [tauto |].
  destruct (String.eqb_spec k k') as [-> | Hne]; [reflexivity |].
  intros [E | Hin]; [congruence |]. cbn. f_equal. now apply IH.
Qed.

Lemma keys_set_fresh k v d :
  ~ In k (Dict.keys d) -> Dict.keys (Dict.set k v d) = Dict.keys d ++ [k].
Proof.
  intros H. rewrite set_fresh by exact H. unfold Dict.keys.
  now rewrite map_app.
Qed.

Lemma keys_del_incl k d : incl (Dict.keys (Dict.del k d)) (Dict.keys d).
Proof.
  induction d as [|[k' v'] d IH]; cbn; [easy |].
  destruct (String.eqb k k'); cbn.
  - now apply incl_tl.
  - intros x [<- | Hx]; [now left | right; now apply IH].
Qed.

Lemma nodup_set k v d :
  NoDup (Dict.keys d) -> NoDup (Dict.keys (Dict.set k v d)).
Proof.
  intros H. destruct (in_dec string_dec k (Dict.keys d)) as [Hin | Hnin].
  - now rewrite keys_set_present.
  - rewrite keys_set_fresh by exact Hnin.
    apply NoDup_app; [exact H | repeat constructor; intros [] |].
    intros x Hx [<- | []]. tauto.
Qed.

Lemma nodup_del k d :
  NoDup (Dict.keys d) -> NoDup (Dict.keys (Dict.del k d)).
Proof.
  induction d as [|[k' v'] d IH]; cbn; [easy |]. intros H.
  inversion H as [|? ? Hnin Hnd]; subst.
  destruct (String.eqb k k'); cbn; [exact Hnd |].
  constructor; [| now apply IH].
  intros Hin. apply Hnin. now apply (keys_del_incl k d).
Qed.

Lemma get_del_other k k' d :
  k' <> k -> Dict.get k' (Dict.del k d) = Dict.get k' d.
Proof.
  intros Hne. induction d as [|[k0 v0] d IH]; cbn; [reflexivity |].
  destruct (String.eqb_spec k k0) as [-> | Hk].
  - destruct (String.eqb_spec k' k0); [congruence | reflexivity].
  - cbn. now rewrite IH.
Qed.

Lemma get_del_same k d :
  NoDup (Dict.keys d) -> Dict.get k (Dict.del k d) = None.
Proof.
  induction d as [|[k0 v0] d IH]; cbn; [reflexivity |]. intros H.
  inversion H as [|? ? Hnin Hnd]; subst.
  destruct (String.eqb_spec k k0) as [-> | Hk].
  - now apply get_none_iff.
  - cbn. destruct (String.eqb_spec k k0); [congruence | now apply IH].
Qed.

Lemma del_set_fresh k v d :
  ~ In k (Dict.keys d) -> Dict.del k (Dict.set k v d) = d.
Proof.
  induction d as [|[k0 v0] d IH]; cbn.
  - intros _. now rewrite String.eqb_refl.
  - intros H. destruct (String.eqb_spec k k0) as [-> | Hk];
      [elim H; now left |].
    cbn. destruct (String.eqb_spec k k0); [congruence |].
    rewrite IH; [reflexivity | tauto].
Qed.

Lemma keys_update_at (f : V -> V) : forall d i,
  Dict.keys (Dict.update_at i f d) = Dict.keys d.
Proof.
  induction d as [|[k v] d IH]; intros i; [reflexivity |].
  destruct i; cbn; [reflexivity | f_equal; apply IH].
Qed.
End KeyFacts.

Lemma lower_ascii_idem c : Text.lower_ascii (Text.lower_ascii c) = Text.lower_ascii c.
Proof.
  destruct c as [[] [] [] [] [] [] [] []]; reflexivity.
Qed.

Lemma lower_idem s : Text.lower (Text.lower s) = Text.lower s.
Proof.
  induction s as [|c s IH]; cbn; [reflexivity |].
  now rewrite lower_ascii_idem, IH.
Qed.

(* ===================================================================== *)
(** ** The command handlers, whatever their outcome *)
(* ===================================================================== *)

Section HandlerShapes.
Variable float_of_str : string -> option Float.float.

(** After [remove_token] the key is not in the registry, whatever the
    outcome. *)
Lemma remove_token_gone e addr w :
  NoDup (Dict.keys (price_alerts w)) ->
  Dict.get (Text.lower addr) (price_alerts (run (remove_token e addr) w))
  = None.
Proof.
  intros Hnd. unfold run.
  destruct (Dict.contains (Text.lower addr) (price_alerts w)) eqn:Hc.
  - rewrite remove_token_present by exact Hc.
    destruct (writable e), (reply_ok e);
      cbn [fst replied saved removed price_alerts];
      now apply get_del_same.
  - rewrite remove_token_absent by exact Hc.
    unfold Dict.contains in Hc.
    destruct (reply_ok e); cbn [fst replied price_alerts];
      now destruct (Dict.get _ _).
Qed.

(** What [vwap] can have done to the registry and to the file. *)
Lemma vwap_shape e display_name avatar_url contract_address level w :
  let w' := run (vwap float_of_str e display_name avatar_url
                      contract_address level) w in
  monitor_running w' = monitor_running w
  /\ ((price_alerts w' = price_alerts w /\ alerts_file w' = alerts_file w
       /\ writes_done w' = writes_done w)
      \/ exists tk price,
           price_alerts w'
           = Dict.set (Text.lower contract_address)
               (mkAlert level tk price display_name avatar_url LNone)
               (price_alerts w)
           /\ (alerts_file w' = alerts_file w
               \/ alerts_file w'
                  = Some (Document (json_dump (price_alerts w'))))).
Proof.
  unfold run, vwap, fetch_top_pairs, save_alerts, require, calculate_age,
    py_int_check, print, put_alerts, put_file, emit, bind, get, ret, raise.
  cbn [fst snd].
  repeat (split_match; cbn [fst snd price_alerts alerts_file trace
                            monitor_running];
          try discriminate);
    repeat match goal with
           | H : (_, _) = (_, _) |- _ => inversion H; subst; clear H
           end;
    cbn [fst snd price_alerts alerts_file trace monitor_running];
    (split; [reflexivity |]).
  all: try (left; unfold writes_done; cbn [trace];
            rewrite ?filter_app; cbn [filter is_write app];
            rewrite ?app_nil_r; auto; fail).
  all: right; eexists; eexists; split; [reflexivity | auto].
Qed.
(** With a file that cannot be written, [vwap] leaves the registry alone
    or stops right after the storing. *)
Lemma vwap_unwritable e display_name avatar_url contract_address level w :
  writable e = false ->
  price_alerts (run (vwap float_of_str e display_name avatar_url
                          contract_address level) w)
  = price_alerts w
  \/ exists tk price,
       vwap float_of_str e display_name avatar_url contract_address level w
       = (registered (Text.lower contract_address)
            (mkAlert level tk price display_name avatar_url LNone) w,
          Raise OSError).
Proof.
  intros Hw.
  unfold run, vwap, fetch_top_pairs, save_alerts, require, calculate_age,
    py_int_check, print, put_alerts, put_file, emit, bind, get, ret, raise.
  rewrite Hw. cbn [fst snd].
  repeat (split_match; cbn [fst snd price_alerts alerts_file trace
                            monitor_running];
          try discriminate);
    repeat match goal with
           | H : (_, _) = (_, _) |- _ => inversion H; subst; clear H
           end;
    cbn [fst snd price_alerts alerts_file trace monitor_running].
  all: try (left; reflexivity).
  all: right; eexists; eexists; reflexivity.
Qed.
End HandlerShapes.

Lemma in_set_same {V} (k : string) (v : V) (d : Dict.dict V) :
  In (k, v) (Dict.set k v d).
Proof.
  induction d as [|[k' v'] d IH]; cbn; [now left |].
  destruct (String.eqb_spec k k') as [-> | Hne]; [now left | now right].
Qed.

Lemma get_slot {V} (k : string) (v : V) : forall d : Dict.dict V,
  Dict.get k d = Some v -> exists i, nth_error d i = Some (k, v).
Proof.
  induction d as [|[k' v'] d IH]; cbn; [discriminate |].
  destruct (String.eqb_spec k k') as [-> | Hne].
  - intros H. inversion H. now exists O.
  - intros H. destruct (IH H) as [i Hi]. now exists (S i).
Qed.

Lemma keys_set_incl {V} (k k' : string) (v : V) (d : Dict.dict V) :
  In k' (Dict.keys d) -> In k' (Dict.keys (Dict.set k v d)).
Proof.
  intros H. destruct (in_dec string_dec k (Dict.keys d)) as [Hin | Hnin].
  - now rewrite keys_set_present.
  - rewrite keys_set_fresh by exact Hnin. apply in_or_app. now left.
Qed.

Lemma replies_replied r w : replies (replied r w) = replies w ++ [r].
Proof.
  unfold replies, replied. cbn [trace]. rewrite flat_map_app. cbn.
  reflexivity.
Qed.

Lemma replies_saved w : replies (saved w) = replies w.
Proof.
  unfold replies, saved. cbn [trace]. rewrite flat_map_app. cbn.
  apply app_nil_r.
Qed.

Lemma writes_replied r w : writes_done (replied r w) = writes_done w.
Proof.
  unfold writes_done, replied. cbn [trace]. rewrite filter_app. cbn.
  apply app_nil_r.
Qed.

(* ===================================================================== *)
(** ** Removal *)
(* ===================================================================== *)

(** X5. Removing a registered address, in whatever letter case it is
    given, deletes that key and no other and writes the file, whether or
    not the reply can be sent afterwards. *)
Theorem remove_token_deletes_one_key e contract_address w :
  NoDup (Dict.keys (price_alerts w)) ->
  Dict.contains (Text.lower contract_address) (price_alerts w) = true ->
  writable e = true ->
  let k := Text.lower contract_address in
  let w' := run (remove_token e contract_address) w in
  Dict.get k (price_alerts w') = None
  /\ (forall k', k' <> k ->
        Dict.get k' (price_alerts w') = Dict.get k' (price_alerts w))
  /\ alerts_file w' = Some (Document (json_dump (price_alerts w')))
  /\ (reply_ok e = true ->
      outcome (remove_token e contract_address) w = Ok tt
      /\ replies w' = replies w ++ [ReplyRemoved k])
  /\ (reply_ok e = false ->
      outcome (remove_token e contract_address) w = Raise HTTPException).
Proof.
  intros Hnd Hc Hw k w'. split; [now apply remove_token_gone |].
  unfold w', run, outcome. rewrite remove_token_present by exact Hc.
  rewrite Hw.
  destruct (reply_ok e);
    cbn [fst snd replied saved removed price_alerts alerts_file trace].
  - split; [intros k' Hk'; now apply get_del_other |].
    split; [reflexivity |]. split; [| discriminate]. intros _.
    split; [reflexivity |].
    now rewrite replies_replied, replies_saved.
  - split; [intros k' Hk'; now apply get_del_other |].
    split; [reflexivity |]. split; [discriminate | reflexivity].
Qed.

(** X6. After a removal, however it ended, a second removal of the same
    address changes neither the registry nor the file and answers that
    there is no such alert. *)
Theorem remove_token_twice e1 e2 addr1 addr2 w :
  NoDup (Dict.keys (price_alerts w)) ->
  Text.lower addr2 = Text.lower addr1 ->
  let w1 := run (remove_token e1 addr1) w in
  let w2 := run (remove_token e2 addr2) w1 in
  price_alerts w2 = price_alerts w1
  /\ alerts_file w2 = alerts_file w1
  /\ writes_done w2 = writes_done w1
  /\ (reply_ok e2 = true ->
      outcome (remove_token e2 addr2) w1 = Ok tt
      /\ replies w2 = replies w1 ++ [ReplyNoAlert (Text.lower addr2)]).
Proof.
  intros Hnd Hk w1 w2.
  pose proof (remove_token_gone e1 addr1 w Hnd) as Hg. fold w1 in Hg.
  assert (Hc : Dict.contains (Text.lower addr2) (price_alerts w1) = false).
  { unfold Dict.contains. now rewrite Hk, Hg. }
  unfold w2, run, outcome. rewrite remove_token_absent by exact Hc.
  destruct (reply_ok e2); cbn [fst snd replied price_alerts alerts_file].
  - split; [reflexivity |]. split; [reflexivity |]. split.
    + apply writes_replied.
    + intros _. split; [reflexivity |]. apply replies_replied.
  - repeat split; discriminate.
Qed.

(* ===================================================================== *)
(** ** Registration *)
(* ===================================================================== *)

(** X7. Whatever its outcome, [vwap] changes the record of no address but
    the one it was called with, removes no key, and does not start or
    stop the poller. *)
Theorem vwap_touches_one_key
        float_of_str e display_name avatar_url contract_address level w :
  let w' := run (vwap float_of_str e display_name avatar_url
                      contract_address level) w in
  (forall k, k <> Text.lower contract_address ->
             Dict.get k (price_alerts w') = Dict.get k (price_alerts w))
  /\ (forall k, In k (Dict.keys (price_alerts w)) ->
                In k (Dict.keys (price_alerts w')))
  /\ monitor_running w' = monitor_running w.
Proof.
  intros w'.
  destruct (vwap_shape float_of_str e display_name avatar_url
              contract_address level w)
    as [Hrun [(Ha & _ & _) | (tk & price & Ha & _)]]; fold w' in Hrun, Ha;
    rewrite Ha.
  - auto.
  - split; [intros k Hk; now apply get_set_other |].
    split; [intros k Hk; now apply keys_set_incl | exact Hrun].
Qed.

(** X8. A completed registration resets the suppression window: the
    alert that [vwap] stored, over an older record of the address or not,
    is alerted at the next observation inside the band. *)
Theorem registered_alert_fires_when_in_band
        float_of_str e display_name avatar_url contract_address level w
        top others envs p ps seen ratio :
  let k := Text.lower contract_address in
  let register :=
    vwap float_of_str e display_name avatar_url contract_address level in
  fetch_top_pairs e k 5 w = (w, Ok (Some (top :: others))) ->
  outcome register w = Ok tt ->
  response (envs k) = Response 200 (JsonObject (PairsArray (p :: ps))) ->
  price_of float_of_str p = Some seen ->
  Float.truediv (Float.sub seen level) level = Some ratio ->
  in_band level seen = true ->
  writable (envs k) = true ->
  channel (envs k) = ChannelOk ->
  let w1 := run register w in
  exists i tk price,
    baseToken_symbol top = Some tk
    /\ price_of float_of_str top = Some price
    /\ nth_error (price_alerts w1) i
       = Some (k, mkAlert level tk price display_name avatar_url LNone)
    /\ alerts_sent (run (monitor_step float_of_str envs i) w1)
       = alerts_sent w1
         ++ [Alerted tk seen (Float.mul ratio Float.c100)
                     display_name avatar_url].
Proof.
  intros k register Hf Hok Hr' Hp' Hq Hb Hw' Hc w1.
  destruct (vwap_ok_found float_of_str e display_name avatar_url
              contract_address level w top others Hf Hok)
    as (tk & price & Htk & Hp & Hv).
  set (a := mkAlert level tk price display_name avatar_url LNone).
  assert (Ha : price_alerts w1 = Dict.set k a (price_alerts w)).
  { unfold w1, run, register. now rewrite Hv. }
  destruct (get_slot k a (price_alerts w1)) as [i Hi].
  { rewrite Ha. apply get_set_same. }
  exists i, tk, price. split; [exact Htk |]. split; [exact Hp |].
  split; [exact Hi |].
  now apply (step_sent_when_fired float_of_str envs i w1 k a p ps seen ratio).
Qed.

(** X9. A [vwap] that found pairs and then fails on the missing image
    ([KeyError] on ['info']) or on sending the summary has stored and
    saved the alert before: the caller sees an error and no answer, and the
    alert is live. *)
Theorem failed_reply_keeps_registration
        float_of_str e display_name avatar_url contract_address level w
        top others :
  let k := Text.lower contract_address in
  let register :=
    vwap float_of_str e display_name avatar_url contract_address level in
  fetch_top_pairs e k 5 w = (w, Ok (Some (top :: others))) ->
  outcome register w = Raise (KeyError "info")
  \/ outcome register w = Raise HTTPException ->
  let w' := run register w in
  exists tk price,
    baseToken_symbol top = Some tk
    /\ price_of float_of_str top = Some price
    /\ Dict.get k (price_alerts w')
       = Some (mkAlert level tk price display_name avatar_url LNone)
    /\ alerts_file w' = Some (Document (json_dump (price_alerts w')))
    /\ replies w' = replies w
    /\ (outcome register w = Raise (KeyError "info")
        <-> info_imageUrl top = None).
Proof.
  intros k register Hf Hx w'.
  assert (Hl : exists x, outcome register w = Raise x
                         /\ (x = KeyError "info" \/ x = HTTPException)).
  { destruct Hx as [Hx | Hx]; eauto. }
  destruct Hl as (x & Hx' & Hkind).
  destruct (vwap_late_failure float_of_str e display_name avatar_url
              contract_address level w top others x Hf Hx' Hkind)
    as (tk & price & Htk & Hp & Hrun & Himg).
  exists tk, price. split; [exact Htk |]. split; [exact Hp |].
  unfold w', register. rewrite Hrun.
  cbn [saved registered price_alerts alerts_file].
  split; [apply get_set_same |]. split; [reflexivity |].
  split; [now rewrite replies_saved |].
  fold register. rewrite Hx'. rewrite <- Himg.
  split; intros H; [now inversion H | now rewrite H].
Qed.

(** X10. When the top pair lacks something that the summary reads before
    the alert is stored (any of the members of [summary_ready]: among them
    a price that [float] reads, a creation time that [calculate_age]
    accepts, the market capitalisation, the one-hour figures, liquidity
    and FDV that [int] accepts), [vwap] raises and nothing at all has
    changed. *)
Theorem incomplete_pair_registers_nothing
        float_of_str e display_name avatar_url contract_address level w
        pairs top rest :
  response e = Response 200 (JsonObject (PairsArray pairs)) ->
  sorted_desc (filter has_liquidity pairs) = top :: rest ->
  summary_ready float_of_str top = false ->
  run (vwap float_of_str e display_name avatar_url contract_address level) w
  = w
  /\ exists x,
       outcome (vwap float_of_str e display_name avatar_url contract_address
                     level) w = Raise x.
Proof.
  intros Hr Hs Hrend.
  destruct (vwap_stops_early float_of_str e display_name avatar_url
              contract_address level w pairs top rest Hr Hs Hrend)
    as (x & Hx & _).
  unfold run, outcome. rewrite Hx. split; [reflexivity | now exists x].
Qed.

(** X11. When the file cannot be written, a [vwap] that stored an alert
    and a [remove_token] that found the address raise [OSError] after they
    changed the registry in memory: the change is not taken back, the file
    still holds what it held, and nothing is answered. *)
Theorem unwritable_file_leaves_change_in_memory :
  (forall float_of_str e display_name avatar_url contract_address level w,
      writable e = false ->
      let w' := run (vwap float_of_str e display_name avatar_url
                          contract_address level) w in
      price_alerts w' <> price_alerts w ->
      outcome (vwap float_of_str e display_name avatar_url contract_address
                    level) w = Raise OSError
      /\ (exists tk price,
            Dict.get (Text.lower contract_address) (price_alerts w')
            = Some (mkAlert level tk price display_name avatar_url LNone))
      /\ alerts_file w' = alerts_file w
      /\ trace w' = trace w)
  /\ (forall e contract_address w,
         NoDup (Dict.keys (price_alerts w)) ->
         Dict.contains (Text.lower contract_address) (price_alerts w) = true ->
         writable e = false ->
         let w' := run (remove_token e contract_address) w in
         outcome (remove_token e contract_address) w = Raise OSError
         /\ Dict.get (Text.lower contract_address) (price_alerts w') = None
         /\ alerts_file w' = alerts_file w
         /\ trace w' = trace w).
Proof.
  split.
  - intros fos e dn av ca lvl w Hw w' Hch.
    destruct (vwap_unwritable fos e dn av ca lvl w Hw)
      as [Hsame | (tk & price & Hv)]; [now elim Hch |].
    unfold w', run, outcome. rewrite Hv.
    cbn [fst snd registered price_alerts alerts_file trace].
    split; [reflexivity |]. split; [| split; reflexivity].
    exists tk, price. apply get_set_same.
  - intros e ca w Hnd Hc Hw w'.
    split; [| split; [now apply remove_token_gone |]];
      unfold w', run, outcome; rewrite remove_token_present by exact Hc;
      rewrite Hw; cbn [fst snd removed alerts_file trace]; auto.
Qed.

(** X12. When [vwap] has added an address that was not registered,
    removing it, in whatever letter case, gives back the registry as it
    was, and the file holds that registry. *)
Theorem register_then_remove_restores
        float_of_str e display_name avatar_url contract_address level w
        e' again :
  let k := Text.lower contract_address in
  let w1 := run (vwap float_of_str e display_name avatar_url
                      contract_address level) w in
  let w2 := run (remove_token e' again) w1 in
  Dict.contains k (price_alerts w) = false ->
  Dict.contains k (price_alerts w1) = true ->
  Text.lower again = k ->
  writable e' = true ->
  price_alerts w2 = price_alerts w
  /\ alerts_file w2 = Some (Document (json_dump (price_alerts w))).
Proof.
  intros k w1 w2 Hfresh Hadded Hk Hw'.
  pose proof (vwap_shape float_of_str e display_name avatar_url
                contract_address level w) as Hshape.
  cbv zeta in Hshape. fold w1 k in Hshape.
  destruct Hshape as [_ [(Hsame & _ & _) | (tk & price & Ha & _)]].
  { rewrite Hsame in Hadded. congruence. }
  assert (Hnin : ~ In k (Dict.keys (price_alerts w))).
  { intros Hin. apply contains_iff in Hin. congruence. }
  assert (Hc : Dict.contains (Text.lower again) (price_alerts w1) = true).
  { now rewrite Hk. }
  assert (Hd : price_alerts w2 = price_alerts w).
  { unfold w2, run. rewrite remove_token_present by exact Hc.
    rewrite Hw'. destruct (reply_ok e');
      cbn [fst replied saved removed price_alerts];
      rewrite Hk, Ha; now apply del_set_fresh. }
  split; [exact Hd |]. rewrite <- Hd.
  unfold w2, run. rewrite remove_token_present by exact Hc.
  rewrite Hw'. destruct (reply_ok e'); reflexivity.
Qed.

(* ===================================================================== *)
(** ** The registry under the poller *)
(* ===================================================================== *)

Section RegistryFacts.
Variable P : string * alert -> Prop.

Lemma forall_set k v (d : Dict.dict alert) :
  Forall P d -> P (k, v) -> Forall P (Dict.set k v d).
Proof.
  intros Hd Hv. induction Hd as [|[k' v'] d Hx Hd IH]; cbn.
  - now constructor.
  - destruct (String.eqb_spec k k') as [-> | Hne]; now constructor.
Qed.

Lemma forall_del k (d : Dict.dict alert) :
  Forall P d -> Forall P (Dict.del k d).
Proof.
  intros Hd. induction Hd as [|[k' v'] d Hx Hd IH]; cbn; [constructor |].
  destruct (String.eqb k k'); [exact Hd | now constructor].
Qed.

Lemma forall_update_at (f : alert -> alert) :
  (forall k v, P (k, v) -> P (k, f v)) ->
  forall (d : Dict.dict alert) i, Forall P d -> Forall P (Dict.update_at i f d).
Proof.
  intros Hf d. induction d as [|[k v] d IH]; intros i Hd; [constructor |].
  inversion Hd as [|? ? Hx Hd']; subst.
  destruct i; cbn; constructor; auto.
Qed.
End RegistryFacts.

Lemma same_standing_trans x y z :
  same_standing x y -> same_standing y z -> same_standing x z.
Proof.
  unfold same_standing. intros (A1 & A2 & A3 & A4 & A5) (B1 & B2 & B3 & B4 & B5).
  repeat split; congruence.
Qed.

Lemma standing_refl (d : Dict.dict alert) : Forall2 same_standing d d.
Proof.
  induction d as [|kv d IH]; constructor; [| exact IH].
  unfold same_standing. auto.
Qed.

Lemma standing_trans (d1 d2 d3 : Dict.dict alert) :
  Forall2 same_standing d1 d2 -> Forall2 same_standing d2 d3 ->
  Forall2 same_standing d1 d3.
Proof.
  intros H. revert d3. induction H as [|x y l l' Hxy _ IH]; intros d3 H3.
  - inversion H3. constructor.
  - inversion H3 as [|? z ? l'' Hyz Hl]; subst. constructor.
    + now apply (same_standing_trans x y z).
    + now apply IH.
Qed.

Lemma standing_update_at (f : alert -> alert) :
  (forall a, vwap_level (f a) = vwap_level a /\ ticker (f a) = ticker a
             /\ user (f a) = user a /\ profile_pic (f a) = profile_pic a) ->
  forall (d : Dict.dict alert) i,
    Forall2 same_standing d (Dict.update_at i f d).
Proof.
  intros Hf d. induction d as [|[k v] d IH]; intros i; [constructor |].
  destruct i; cbn; constructor; auto using standing_refl.
  - unfold same_standing. cbn. destruct (Hf v) as (A & B & C & D).
    repeat split; congruence.
  - unfold same_standing. auto.
Qed.

Lemma standing_keys (d d' : Dict.dict alert) :
  Forall2 same_standing d d' -> Dict.keys d' = Dict.keys d.
Proof.
  induction 1 as [|x y l l' Hxy _ IH]; [reflexivity |].
  unfold Dict.keys in *. cbn. destruct Hxy as [E _]. now rewrite E, IH.
Qed.

Lemma skipped_sent addr r w :
  alerts_sent (skipped addr r w) = alerts_sent w.
Proof.
  unfold skipped, logged, alerts_sent. destruct r as [|sc b]; [reflexivity |].
  destruct (sc =? 200); cbn [trace]; rewrite ?filter_app; cbn;
    now rewrite ?app_nil_r.
Qed.

Lemma skipped_running addr r w :
  monitor_running (skipped addr r w) = monitor_running w.
Proof.
  unfold skipped, logged. destruct r as [|sc b]; [reflexivity |].
  now destruct (sc =? 200).
Qed.

Section StepShapes.
Variable float_of_str : string -> option Float.float.
Variable envs : string -> env.

(** What a step can have done to the registry, with the time it
    stored. *)
Lemma monitor_step_registry i w :
  let w' := run (monitor_step float_of_str envs i) w in
  monitor_running w' = monitor_running w
  /\ (price_alerts w' = price_alerts w
      \/ exists addr a p,
           nth_error (price_alerts w) i = Some (addr, a)
           /\ (price_alerts w'
               = Dict.update_at i (set_current_price p) (price_alerts w)
               \/ price_alerts w'
                  = Dict.update_at i
                      (set_last_alert_time (LTime (now_fire (envs addr))))
                      (Dict.update_at i (set_current_price p)
                                      (price_alerts w)))).
Proof.
  unfold run, monitor_step, fetch_token_pairs, save_alerts,
    send_alert_message, require, print, emit, put_alerts, put_file,
    bind, get, ret, raise.
  cbn [fst snd].
  repeat (split_match; cbn [fst snd price_alerts alerts_file trace
                            monitor_running];
          try discriminate);
    repeat match goal with
           | H : (_, _) = (_, _) |- _ => inversion H; subst; clear H
           end;
    cbn [fst snd price_alerts alerts_file trace monitor_running];
    (split; [reflexivity |]).
  all: try (left; reflexivity).
  all: right; do 3 eexists; (split; [reflexivity |]);
    first [left; reflexivity | right; reflexivity].
Qed.

(** A step at a slot past the end does nothing. *)
Lemma monitor_step_past_end i w :
  nth_error (price_alerts w) i = None ->
  monitor_step float_of_str envs i w = (w, Ok tt).
Proof.
  intros H. unfold monitor_step, bind, get, ret. cbn iota beta.
  now rewrite H.
Qed.

(** A step whose first pair gives no price raises at once. *)
Lemma monitor_step_unpriced i w addr a p ps :
  nth_error (price_alerts w) i = Some (addr, a) ->
  response (envs addr) = Response 200 (JsonObject (PairsArray (p :: ps))) ->
  price_of float_of_str p = None ->
  monitor_step float_of_str envs i w
  = (w, Raise (match priceUsd p with
               | None => KeyError "priceUsd"
               | Some _ => ValueError
               end)).
Proof.
  intros Hi Hr Hp. unfold price_of in Hp.
  unfold monitor_step, fetch_token_pairs, require, bind, get, ret, raise.
  cbn iota beta. rewrite Hi. cbn iota beta. rewrite Hr.
  cbn [Z.eqb Pos.eqb]. cbn iota beta.
  destruct (priceUsd p) as [s|]; [| reflexivity]. cbn iota beta.
  now rewrite Hp.
Qed.

Lemma monitor_step_standing i w :
  Forall2 same_standing (price_alerts w)
          (price_alerts (run (monitor_step float_of_str envs i) w)).
Proof.
  destruct (monitor_step_registry i w)
    as [_ [E | (addr & a & p & _ & [E | E])]]; rewrite E.
  - apply standing_refl.
  - apply standing_update_at. intros b. cbn. auto.
  - eapply standing_trans.
    + apply (standing_update_at (set_current_price p)). intros b. cbn. auto.
    + apply standing_update_at. intros b. cbn. auto.
Qed.

Lemma monitor_step_well_formed i w :
  (forall addr, utc_stamped (LTime (now_fire (envs addr))) = true) ->
  well_formed (price_alerts w) ->
  well_formed (price_alerts (run (monitor_step float_of_str envs i) w)).
Proof.
  intros Hnow [Hnd Hst]. split.
  - now rewrite (standing_keys _ _ (monitor_step_standing i w)).
  - destruct (monitor_step_registry i w)
      as [_ [E | (addr & a & p & _ & [E | E])]]; rewrite E.
    + exact Hst.
    + apply forall_update_at; [| exact Hst]. intros k v H. exact H.
    + apply forall_update_at.
      * intros k v _. cbn [snd set_last_alert_time last_alert_time].
        apply Hnow.
      * apply forall_update_at; [| exact Hst]. intros k v H. exact H.
Qed.

(** The whole loop when every token is without data. *)
Lemma monitor_from_outage : forall c i w,
  (forall addr, In addr (Dict.keys (price_alerts w)) ->
                no_data (response (envs addr)) = true) ->
  let w' := run (monitor_from float_of_str envs i c) w in
  outcome (monitor_from float_of_str envs i c) w = Ok tt
  /\ price_alerts w' = price_alerts w
  /\ alerts_file w' = alerts_file w
  /\ alerts_sent w' = alerts_sent w
  /\ writes_done w' = writes_done w
  /\ monitor_running w' = monitor_running w.
Proof.
  induction c as [|c IH]; intros i w Hn; [cbn; auto 10 |].
  destruct (nth_error (price_alerts w) i) as [[addr a]|] eqn:Hi.
  - assert (Hin : In addr (Dict.keys (price_alerts w))).
    { apply nth_error_In in Hi. unfold Dict.keys.
      now apply (in_map fst) in Hi. }
    pose proof (monitor_step_no_data float_of_str envs i w addr a Hi
                  (Hn addr Hin)) as Hs.
    unfold run, outcome. rewrite (monitor_from_next _ _ _ _ _ _ Hs).
    set (w1 := skipped addr (response (envs addr)) w).
    assert (Hn1 : forall k, In k (Dict.keys (price_alerts w1)) ->
                            no_data (response (envs k)) = true).
    { unfold w1. now rewrite skipped_alerts. }
    destruct (IH (S i) w1 Hn1) as (A & B & C & D & E & F).
    unfold run, outcome in *. rewrite A, B, C, D, E, F. unfold w1.
    now rewrite skipped_alerts, skipped_file, skipped_sent, skipped_writes,
      skipped_running.
  - pose proof (monitor_step_past_end i w Hi) as Hs.
    unfold run, outcome. rewrite (monitor_from_next _ _ _ _ _ _ Hs).
    apply (IH (S i) w Hn).
Qed.
End StepShapes.

Lemma in_band_nan_target price : in_band S754_nan price = false.
Proof. reflexivity. Qed.

Lemma in_band_nan_price level : in_band level S754_nan = false.
Proof.
  unfold in_band, Float.leb, SFleb.
  destruct (Float.mul level Float.c0_9); reflexivity.
Qed.

(* ===================================================================== *)
(** ** Loading *)
(* ===================================================================== *)

Lemma convert_keys : forall d : Dict.dict alert,
  Dict.keys (fst (convert_timestamps d)) = Dict.keys d.
Proof.
  induction d as [|[k a] d IH]; [reflexivity |].
  cbn [convert_timestamps].
  destruct (convert_timestamps d) as [rest r]. cbn [fst] in IH.
  unfold Dict.keys in *.
  destruct (last_alert_time a) as [|t|[|c s]]; cbn [fst map];
    try (rewrite ?IH; reflexivity).
  destruct (Datetime.fromisoformat (String c s)); cbn [fst map];
    rewrite ?IH; reflexivity.
Qed.

Lemma json_load_keys members :
  NoDup (Dict.keys (json_load members))
  /\ forall k, In k (Dict.keys (json_load members)) <-> In k (map fst members).
Proof.
  unfold json_load.
  assert (G : forall acc,
             NoDup (Dict.keys acc) ->
             let d := fold_left
                        (fun d kv => Dict.set (fst kv) (decode_alert (snd kv)) d)
                        members acc in
             NoDup (Dict.keys d)
             /\ forall k, In k (Dict.keys d)
                          <-> In k (Dict.keys acc) \/ In k (map fst members)).
  { induction members as [|[k j] ms IH]; intros acc Hacc; cbn.
    - split; [exact Hacc | intros k; tauto].
    - destruct (IH (Dict.set k (decode_alert j) acc) (nodup_set _ _ _ Hacc))
        as [H1 H2].
      split; [exact H1 |]. intros k'. rewrite H2.
      destruct (in_dec string_dec k (Dict.keys acc)) as [Hin | Hnin].
      + rewrite keys_set_present by exact Hin.
        split; [tauto |]. intros [H | [<- | H]]; tauto.
      + rewrite keys_set_fresh by exact Hnin. rewrite in_app_iff. cbn.
        tauto. }
  destruct (G [] (NoDup_nil _)) as [H1 H2]. split; [exact H1 |].
  intros k. rewrite H2. cbn. tauto.
Qed.

(* ===================================================================== *)
(** ** How much a tick sends and writes *)
(* ===================================================================== *)

Section StepCounts.
Variable float_of_str : string -> option Float.float.
Variable envs : string -> env.



End StepCounts.

Lemma lower_keyed_set k v (d : Dict.dict alert) :
  Text.lower k = k -> lower_keyed d -> lower_keyed (Dict.set k v d).
Proof.
  unfold lower_keyed. intros Hk Hd.
  destruct (in_dec string_dec k (Dict.keys d)) as [Hin | Hnin].
  - now rewrite keys_set_present.
  - rewrite keys_set_fresh by exact Hnin. apply Forall_app.
    split; [exact Hd | now constructor].
Qed.

Lemma lower_keyed_del k (d : Dict.dict alert) :
  lower_keyed d -> lower_keyed (Dict.del k d).
Proof.
  unfold lower_keyed. intros Hd. apply Forall_forall. intros x Hx.
  apply keys_del_incl in Hx. exact (proj1 (Forall_forall _ _) Hd x Hx).
Qed.

(* ===================================================================== *)
(** ** What the handlers and the poller keep *)
(* ===================================================================== *)

(** X13. A registry without duplicate keys whose timestamps are [None] or
    UTC times stays such a registry under [vwap], under [remove_token]
    and under a tick of the poller (the clock giving UTC times), however
    each of them ends. *)
Theorem handlers_keep_well_formed :
  (forall float_of_str e display_name avatar_url contract_address level w,
      well_formed (price_alerts w) ->
      well_formed (price_alerts
                     (run (vwap float_of_str e display_name avatar_url
                                contract_address level) w)))
  /\ (forall e contract_address w,
         well_formed (price_alerts w) ->
         well_formed (price_alerts (run (remove_token e contract_address) w)))
  /\ (forall float_of_str envs w,
         (forall addr, utc_stamped (LTime (now_fire (envs addr))) = true) ->
         well_formed (price_alerts w) ->
         well_formed (price_alerts
                        (run (monitor_prices float_of_str envs) w))).
Proof.
  split; [| split].
  - intros fos e dn av ca lvl w [Hnd Hst].
    destruct (vwap_shape fos e dn av ca lvl w)
      as [_ [(Ha & _ & _) | (tk & price & Ha & _)]]; rewrite Ha.
    + now split.
    + split; [now apply nodup_set |]. now apply forall_set.
  - intros e ca w [Hnd Hst]. unfold run.
    destruct (Dict.contains (Text.lower ca) (price_alerts w)) eqn:Hc.
    + rewrite remove_token_present by exact Hc.
      destruct (writable e), (reply_ok e);
        cbn [fst replied saved removed price_alerts];
        (split; [now apply nodup_del | now apply forall_del]).
    + rewrite remove_token_absent by exact Hc.
      destruct (reply_ok e); cbn [fst replied price_alerts]; now split.
  - intros fos envs w Hnow Hwf.
    rewrite monitor_prices_alerts. unfold run.
    rewrite monitor_prices_coro_steps.
    apply (monitor_from_keeps fos envs (fun v => well_formed (price_alerts v)));
      [| exact Hwf].
    intros i v. now apply monitor_step_well_formed.
Qed.

(** X14. A tick of the poller, however it ends, adds no key, removes none,
    keeps their order, and changes no target, ticker, user or picture: it
    writes ['current_price'] and ['last_alert_time'] only. It never starts
    the poller, leaves it as it was when it completes, and stops it when
    it ends with an exception that the loop does not retry. *)
Theorem tick_keeps_keys_and_targets float_of_str envs w :
  let w' := run (monitor_prices float_of_str envs) w in
  Forall2 same_standing (price_alerts w) (price_alerts w')
  /\ Dict.keys (price_alerts w') = Dict.keys (price_alerts w)
  /\ (monitor_running w' = true -> monitor_running w = true)
  /\ (outcome (monitor_prices float_of_str envs) w = Ok tt ->
      monitor_running w' = monitor_running w)
  /\ (forall x,
        outcome (monitor_prices float_of_str envs) w = Raise x ->
        retried x = false ->
        monitor_running w' = false).
Proof.
  intros w'.
  assert (H : Forall2 same_standing (price_alerts w)
                (price_alerts (run (monitor_prices_coro float_of_str envs) w))
              /\ monitor_running (run (monitor_prices_coro float_of_str envs) w)
                 = monitor_running w).
  { unfold run. rewrite monitor_prices_coro_steps.
    apply (monitor_from_keeps float_of_str envs
             (fun v => Forall2 same_standing (price_alerts w) (price_alerts v)
                       /\ monitor_running v = monitor_running w)).
    - intros i v [Hs Hr]. split.
      + eapply standing_trans; [exact Hs |]. apply monitor_step_standing.
      + destruct (monitor_step_registry float_of_str envs i v) as [E _].
        now rewrite E.
    - split; [apply standing_refl | reflexivity]. }
  destruct H as [Hs Hr]. unfold w'.
  rewrite monitor_prices_alerts, monitor_prices_running,
    monitor_prices_outcome, Hr.
  split; [exact Hs |]. split; [now apply standing_keys |].
  destruct (outcome (monitor_prices_coro float_of_str envs) w) as [[]|x].
  - repeat split; [tauto | discriminate].
  - split; [| split].
    + destruct (retried x); [tauto | discriminate].
    + discriminate.
    + intros y Hy Hn. inversion Hy. subst y. now rewrite Hn.
Qed.

(** X15. In a registry whose timestamps are [None] or UTC times, with a
    clock that gives aware times, a step that was given pairs never ends
    in [TypeError]: the subtraction of the 24 hour test is defined. *)
Theorem built_registry_never_type_error
        float_of_str envs i w addr a p ps off :
  well_formed (price_alerts w) ->
  nth_error (price_alerts w) i = Some (addr, a) ->
  response (envs addr) = Response 200 (JsonObject (PairsArray (p :: ps))) ->
  Datetime.tzinfo (now_check (envs addr)) = Some off ->
  outcome (monitor_step float_of_str envs i) w <> Raise TypeError.
Proof.
  intros [_ Hst] Hi Hr Hoff. unfold outcome.
  destruct (price_of float_of_str p) as [price|] eqn:Hp.
  - rewrite (monitor_step_priced float_of_str envs i w addr a 200 p ps price
               Hi Hr eq_refl Hp).
    destruct (Float.truediv _ _) as [ratio|]; [| discriminate].
    destruct (in_band _ _); [| discriminate].
    assert (He : eligible (now_check (envs addr)) (last_alert_time a) <> None).
    { apply nth_error_In in Hi.
      pose proof (proj1 (Forall_forall _ _) Hst _ Hi) as Hu.
      cbn [snd] in Hu. unfold eligible, Datetime.sub.
      destruct (last_alert_time a) as [|t|s]; [discriminate | | discriminate].
      cbn [utc_stamped] in Hu. apply andb_true_iff in Hu.
      destruct Hu as [_ Hu]. rewrite Hoff.
      destruct (Datetime.tzinfo t); [discriminate | discriminate]. }
    destruct (eligible _ _) as [[|]|]; [| discriminate | now elim He].
    unfold save_alerts, send_alert_message, bind, get, put_file, emit,
      print, raise.
    destruct (writable (envs addr)); [| discriminate].
    destruct (channel (envs addr)); discriminate.
  - rewrite (monitor_step_unpriced float_of_str envs i w addr a p ps Hi Hr Hp).
    destruct (priceUsd p); discriminate.
Qed.

(** X16. A record whose target is zero stops the tick at its slot: the
    step stores the observed price and raises [ZeroDivisionError], nothing
    is alerted, and the records after it are not looked at. *)
Theorem zero_target_ends_tick float_of_str envs i c w addr a p ps price :
  nth_error (price_alerts w) i = Some (addr, a) ->
  response (envs addr) = Response 200 (JsonObject (PairsArray (p :: ps))) ->
  price_of float_of_str p = Some price ->
  Float.is_zero (vwap_level a) = true ->
  monitor_from float_of_str envs i (S c) w
  = (observed i price a w, Raise ZeroDivisionError)
  /\ alerts_sent (observed i price a w) = alerts_sent w
  /\ alerts_file (observed i price a w) = alerts_file w
  /\ forall j, j <> i ->
       nth_error (price_alerts (observed i price a w)) j
       = nth_error (price_alerts w) j.
Proof.
  intros Hi Hr Hp Hz. split; [| split; [apply observed_sent | split]].
  - apply monitor_from_abort.
    rewrite (monitor_step_priced float_of_str envs i w addr a 200 p ps price
               Hi Hr eq_refl Hp).
    unfold Float.truediv. now rewrite Hz.
  - reflexivity.
  - intros j Hj. unfold observed. cbn [price_alerts].
    now apply update_at_other.
Qed.

(** X17. A record whose ['last_alert_time'] is a string, or a time
    without an offset while the clock gives aware times, makes every step
    that finds its price inside the band raise [TypeError]: the price is
    stored, nothing is alerted, and the tick ends at that slot. *)
Theorem unreadable_timestamp_ends_tick
        float_of_str envs i c w addr a p ps price ratio :
  nth_error (price_alerts w) i = Some (addr, a) ->
  response (envs addr) = Response 200 (JsonObject (PairsArray (p :: ps))) ->
  price_of float_of_str p = Some price ->
  Float.truediv (Float.sub price (vwap_level a)) (vwap_level a) = Some ratio ->
  in_band (vwap_level a) price = true ->
  (exists s, last_alert_time a = LStr s)
  \/ (exists t off, last_alert_time a = LTime t
                    /\ Datetime.tzinfo t = None
                    /\ Datetime.tzinfo (now_check (envs addr)) = Some off) ->
  monitor_from float_of_str envs i (S c) w
  = (observed i price a w, Raise TypeError)
  /\ alerts_sent (observed i price a w) = alerts_sent w.
Proof.
  intros Hi Hr Hp Hq Hb Hbad. split; [| apply observed_sent].
  apply monitor_from_abort.
  rewrite (monitor_step_priced float_of_str envs i w addr a 200 p ps price
             Hi Hr eq_refl Hp), Hq, Hb.
  assert (He : eligible (now_check (envs addr)) (last_alert_time a) = None).
  { destruct Hbad as [[s Hs] | (t & off & Ht & Hn & Hoff)].
    - now rewrite Hs.
    - rewrite Ht. unfold eligible, Datetime.sub. now rewrite Hoff, Hn. }
  now rewrite He.
Qed.

(** X18. A target that is NaN, or an observed price that is NaN (with a
    target that is not zero), is never inside the band: the step stores
    the price, alerts nothing and raises nothing. *)
Theorem nan_never_alerts float_of_str envs i w addr a p ps price :
  nth_error (price_alerts w) i = Some (addr, a) ->
  response (envs addr) = Response 200 (JsonObject (PairsArray (p :: ps))) ->
  price_of float_of_str p = Some price ->
  is_nan (vwap_level a) = true
  \/ (is_nan price = true /\ Float.is_zero (vwap_level a) = false) ->
  monitor_step float_of_str envs i w = (observed i price a w, Ok tt)
  /\ alerts_sent (observed i price a w) = alerts_sent w.
Proof.
  intros Hi Hr Hp Hnan. split; [| apply observed_sent].
  rewrite (monitor_step_priced float_of_str envs i w addr a 200 p ps price
             Hi Hr eq_refl Hp).
  unfold Float.truediv.
  destruct Hnan as [Hn | [Hn Hz]].
  - destruct (vwap_level a); try discriminate. cbn [Float.is_zero].
    now rewrite in_band_nan_target.
  - rewrite Hz. destruct price; try discriminate.
    now rewrite in_band_nan_price.
Qed.

(** X19. A tick during which upstream has no data for any registered
    token completes and changes nothing: not the registry, not the file,
    and no alert goes out. *)
Theorem outage_tick_changes_nothing float_of_str envs w :
  (forall addr, In addr (Dict.keys (price_alerts w)) ->
                no_data (response (envs addr)) = true) ->
  let w' := run (monitor_prices float_of_str envs) w in
  outcome (monitor_prices float_of_str envs) w = Ok tt
  /\ price_alerts w' = price_alerts w
  /\ alerts_file w' = alerts_file w
  /\ alerts_sent w' = alerts_sent w
  /\ writes_done w' = writes_done w
  /\ monitor_running w' = monitor_running w.
Proof.
  intros Hn w'.
  destruct (monitor_from_outage float_of_str envs
              (List.length (price_alerts w)) 0 w Hn)
    as (A & B & C & D & E & F).
  assert (A' : outcome (monitor_prices_coro float_of_str envs) w = Ok tt)
    by exact A.
  unfold w', alerts_sent, writes_done.
  rewrite monitor_prices_outcome, monitor_prices_alerts, monitor_prices_file,
    monitor_prices_trace, monitor_prices_running, A'.
  split; [reflexivity |]. split; [exact B |]. split; [exact C |].
  split; [exact D |]. split; [exact E | exact F].
Qed.

(* ===================================================================== *)
(** ** Start-up *)
(* ===================================================================== *)

(** X20. Whatever document the file holds, the registry that
    [load_alerts] leaves has every key once, and its keys are the keys of
    the document, also when a timestamp stops the conversion. *)
Theorem loaded_registry_has_unique_keys w members :
  alerts_file w = Some (Document members) ->
  let w' := run load_alerts w in
  NoDup (Dict.keys (price_alerts w'))
  /\ (forall k, In k (Dict.keys (price_alerts w')) <-> In k (map fst members))
  /\ alerts_file w' = alerts_file w.
Proof.
  intros Hf w'.
  assert (E : price_alerts w' = fst (convert_timestamps (json_load members))
              /\ alerts_file w' = alerts_file w).
  { unfold w', run, load_alerts, bind, get, put_alerts, ret, raise.
    cbn [fst snd]. rewrite Hf.
    destruct (convert_timestamps (json_load members)) as [d [[]|x]];
      cbn [fst snd price_alerts alerts_file]; auto. }
  destruct E as [E1 E2]. rewrite E1, convert_keys.
  destruct (json_load_keys members) as [H1 H2]. auto.
Qed.

(** X21. Start-up on a file that [save_alerts] wrote for a registry
    without duplicate keys and with timestamps in range restores that
    registry, whatever was in memory, leaves the file alone, and leaves
    the poller running, starting it only when it did not run. *)
Theorem on_ready_restores_saved_registry w R :
  alerts_file w = Some (Document (json_dump R)) ->
  NoDup (Dict.keys R) ->
  Forall (fun kv => storable (last_alert_time (snd kv)) = true) R ->
  let w' := run on_ready w in
  outcome on_ready w = Ok tt
  /\ price_alerts w' = R
  /\ monitor_running w' = true
  /\ alerts_file w' = alerts_file w
  /\ trace w'
     = trace w ++ Printed LogOnline
         :: (if monitor_running w then [] else [Printed LogStarted]).
Proof.
  intros Hf Hnd Hst w'. unfold w', run, outcome, on_ready.
  rewrite (bind_ok (print LogOnline) _ w _ tt eq_refl). cbv beta.
  unfold load_alerts, start_monitor, print, emit, bind, get, put_alerts,
    ret, raise.
  cbn [fst snd alerts_file price_alerts monitor_running trace].
  rewrite Hf, (json_load_dump _ Hnd), (convert_reread _ Hst).
  cbn [fst snd alerts_file price_alerts monitor_running trace].
  destruct (monitor_running w);
    cbn [fst snd alerts_file price_alerts monitor_running trace];
    rewrite <- ?app_assoc; auto.
Qed.

(* ===================================================================== *)
(** ** Listing *)
(* ===================================================================== *)

(** X22. After a completed registration [list_alerts] answers with one
    line per registered address, among them the line of the new alert
    with its target and no last alert time, and changes nothing. *)
Theorem registered_alert_is_listed
        float_of_str e display_name avatar_url contract_address level w
        top others e' :
  let k := Text.lower contract_address in
  let register :=
    vwap float_of_str e display_name avatar_url contract_address level in
  fetch_top_pairs e k 5 w = (w, Ok (Some (top :: others))) ->
  outcome register w = Ok tt ->
  reply_ok e' = true ->
  let w1 := run register w in
  let w2 := run (list_alerts e') w1 in
  outcome (list_alerts e') w1 = Ok tt
  /\ replies w2 = replies w1 ++ [ReplyList (alert_lines (price_alerts w1))]
  /\ (exists tk, baseToken_symbol top = Some tk
                 /\ In (tk, level, LNone) (alert_lines (price_alerts w1)))
  /\ List.length (alert_lines (price_alerts w1))
     = List.length (Dict.keys (price_alerts w1))
  /\ price_alerts w2 = price_alerts w1
  /\ alerts_file w2 = alerts_file w1.
Proof.
  intros k register Hf Hok Hok' w1 w2.
  destruct (vwap_ok_found float_of_str e display_name avatar_url
              contract_address level w top others Hf Hok)
    as (tk & price & Htk & Hp & Hv).
  set (a := mkAlert level tk price display_name avatar_url LNone).
  assert (Ha : price_alerts w1 = Dict.set k a (price_alerts w)).
  { unfold w1, run, register. now rewrite Hv. }
  assert (Hin : In (k, a) (price_alerts w1)).
  { rewrite Ha. apply in_set_same. }
  assert (Hl : list_alerts e' w1
               = (replied (ReplyList (alert_lines (price_alerts w1))) w1,
                  Ok tt)).
  { unfold list_alerts, bind, get, emit, replied, alert_lines.
    cbn iota beta. rewrite Hok'.
    destruct (price_alerts w1) as [|kv d] eqn:E; [destruct Hin |].
    cbv beta. now rewrite E. }
  unfold w2, run, outcome. rewrite Hl.
  cbn [fst snd replied price_alerts alerts_file].
  split; [reflexivity |]. split; [apply replies_replied |].
  split.
  { exists tk. split; [exact Htk |]. unfold alert_lines.
    apply (in_map (fun kv => (ticker (snd kv), vwap_level (snd kv),
                              last_alert_time (snd kv)))) in Hin.
    exact Hin. }
  split; [| split; reflexivity].
  unfold alert_lines, Dict.keys. now rewrite !length_map.
Qed.

(* ===================================================================== *)
(** ** Bounds and key discipline *)
(* ===================================================================== *)


(** X24. The keys of the registry are lower-case addresses, and stay so
    under [vwap], under [remove_token] and under a tick of the poller,
    however each of them ends; so does a registry read at start-up from a
    file with lower-case keys. *)
Theorem registry_keys_stay_lower_case :
  (forall float_of_str e display_name avatar_url contract_address level w,
      lower_keyed (price_alerts w) ->
      lower_keyed (price_alerts
                     (run (vwap float_of_str e display_name avatar_url
                                contract_address level) w)))
  /\ (forall e contract_address w,
         lower_keyed (price_alerts w) ->
         lower_keyed (price_alerts (run (remove_token e contract_address) w)))
  /\ (forall float_of_str envs w,
         lower_keyed (price_alerts w) ->
         lower_keyed (price_alerts
                        (run (monitor_prices float_of_str envs) w)))
  /\ (forall w members,
         alerts_file w = Some (Document members) ->
         Forall (fun k => Text.lower k = k) (map fst members) ->
         lower_keyed (price_alerts (run load_alerts w))).
Proof.
  split; [| split; [| split]].
  - intros fos e dn av ca lvl w Hl.
    destruct (vwap_shape fos e dn av ca lvl w)
      as [_ [(Ha & _ & _) | (tk & price & Ha & _)]]; rewrite Ha.
    + exact Hl.
    + apply lower_keyed_set; [apply lower_idem | exact Hl].
  - intros e ca w Hl. unfold run.
    destruct (Dict.contains (Text.lower ca) (price_alerts w)) eqn:Hc.
    + rewrite remove_token_present by exact Hc.
      destruct (writable e), (reply_ok e);
        cbn [fst replied saved removed price_alerts];
        now apply lower_keyed_del.
    + rewrite remove_token_absent by exact Hc.
      destruct (reply_ok e); exact Hl.
  - intros fos envs w Hl. unfold lower_keyed.
    assert (E : Dict.keys (price_alerts (run (monitor_prices fos envs) w))
                = Dict.keys (price_alerts w)).
    { rewrite monitor_prices_alerts. unfold run.
      rewrite monitor_prices_coro_steps.
      apply (monitor_from_keeps fos envs
               (fun v => Dict.keys (price_alerts v)
                         = Dict.keys (price_alerts w))); [| reflexivity].
      intros i v Hv. rewrite <- Hv. apply standing_keys.
      apply monitor_step_standing. }
    now rewrite E.
  - intros w members Hf Hm. unfold lower_keyed.
    assert (E : price_alerts (run load_alerts w)
                = fst (convert_timestamps (json_load members))).
    { unfold run, load_alerts, bind, get, put_alerts, ret, raise.
      cbn [fst snd]. rewrite Hf.
      destruct (convert_timestamps (json_load members)) as [d [[]|x]];
        reflexivity. }
    rewrite E, convert_keys. apply Forall_forall. intros k Hk.
    apply (proj2 (json_load_keys members)) in Hk.
    exact (proj1 (Forall_forall _ _) Hm k Hk).
Qed.

(* ===================================================================== *)
(** ** The further statements at concrete inputs *)
(* ===================================================================== *)

Ltac distinct_keys :=
  repeat (constructor; [cbn; intuition discriminate |]); constructor.

Lemma fetch_top_pairs_returns_liquid_listed_witness :
  (List.length [liquid_pair; thin_pair] <= 5)%nat
  /\ Forall (fun p => has_liquidity p = true
                      /\ In p [thin_pair; liquid_pair])
            [liquid_pair; thin_pair].
Proof.
  pose proof (fetch_top_pairs_returns_liquid_listed
                (at_time thin_first T0 ChannelOk) "0xabc"%string 5%nat
                (initial None) (initial None) [liquid_pair; thin_pair]
                eq_refl) as (_ & H1 & H2 & _).
  split; [exact H1 | exact H2].
Defined.

Lemma fetch_top_pairs_descending_witness :
  Sorted descending [liquid_pair; thin_pair].
Proof.
  apply (fetch_top_pairs_descending
           (at_time thin_first T0 ChannelOk) "0xabc"%string 5%nat
           (initial None) (initial None) [liquid_pair; thin_pair] eq_refl).
  intros p [<- | [<- | []]] _; reflexivity.
Defined.

Lemma fetch_top_pairs_keeps_upstream_order_witness :
  [liquid_pair; liquid_pair; thin_pair]
  = firstn 5 (filter has_liquidity [liquid_pair; liquid_pair; thin_pair]).
Proof.
  apply (fetch_top_pairs_keeps_upstream_order
           (at_time (answer [liquid_pair; liquid_pair; thin_pair]) T0 ChannelOk)
           "0xabc"%string 5%nat (initial None) (initial None)
           [liquid_pair; liquid_pair; thin_pair] eq_refl).
  - intros p [<- | [<- | [<- | []]]] _; reflexivity.
  - repeat constructor.
Defined.

Lemma fetch_top_pairs_first_is_most_liquid_witness :
  descending liquid_pair thin_pair.
Proof.
  apply (fetch_top_pairs_first_is_most_liquid
           (at_time thin_first T0 ChannelOk) "0xabc"%string 5%nat
           (initial None) (initial None) liquid_pair [thin_pair] eq_refl).
  - intros p [<- | [<- | []]] _; reflexivity.
  - now left.
  - reflexivity.
Defined.

Lemma remove_token_deletes_one_key_witness :
  let w' := run (remove_token calm "0xAAA") two_alerts in
  Dict.get "0xaaa" (price_alerts w') = None
  /\ Dict.get "0xbbb" (price_alerts w') = Some (bob LNone)
  /\ alerts_file w' = Some (Document (json_dump (price_alerts w'))).
Proof.
  intros w'.
  assert (Hnd : NoDup (Dict.keys (price_alerts two_alerts)))
    by distinct_keys.
  pose proof (remove_token_deletes_one_key calm "0xAAA"%string two_alerts
                Hnd eq_refl eq_refl) as (H1 & H2 & H3 & _).
  split; [exact H1 |]. split; [| exact H3].
  apply (H2 "0xbbb"%string). discriminate.
Defined.

Lemma remove_token_twice_witness :
  let w1 := run (remove_token calm "0xAAA") two_alerts in
  let w2 := run (remove_token calm "0xaaa") w1 in
  price_alerts w2 = price_alerts w1 /\ alerts_file w2 = alerts_file w1.
Proof.
  intros w1 w2.
  assert (Hnd : NoDup (Dict.keys (price_alerts two_alerts)))
    by distinct_keys.
  pose proof (remove_token_twice calm calm "0xAAA"%string "0xaaa"%string
                two_alerts Hnd eq_refl) as (H1 & H2 & _).
  split; [exact H1 | exact H2].
Defined.

Lemma registered_alert_fires_when_in_band_witness :
  let w1 := run (vwap float_of_decimal_str calm "alice" "https://cdn.example/a.png"
                      "0xABC" (dec 100 0))
                (one_alert (LTime T0)) in
  exists i tk price,
    baseToken_symbol (quote "100" (Some (dec 50000 0))) = Some tk
    /\ price_of float_of_decimal_str (quote "100" (Some (dec 50000 0)))
       = Some price
    /\ nth_error (price_alerts w1) i
       = Some ("0xabc"%string,
               mkAlert (dec 100 0) tk price "alice"
                       "https://cdn.example/a.png" LNone)
    /\ alerts_sent (run (monitor_step float_of_decimal_str
                           (all_quoted T0_plus_1min) i) w1)
       = alerts_sent w1
         ++ [Alerted tk (dec 100 0)
                     (Float.mul (S754_zero false) Float.c100)
                     "alice" "https://cdn.example/a.png"].
Proof.
  intros w1.
  exact (registered_alert_fires_when_in_band
           float_of_decimal_str calm "alice"%string
           "https://cdn.example/a.png"%string "0xABC"%string (dec 100 0)
           (one_alert (LTime T0))
           (quote "100"%string (Some (dec 50000 0))) []
           (all_quoted T0_plus_1min)
           (quote "100"%string (Some (dec 50000 0))) [] (dec 100 0)
           (S754_zero false)
           eq_refl eq_refl eq_refl eq_refl eq_refl eq_refl eq_refl eq_refl).
Defined.

Lemma failed_reply_keeps_registration_witness :
  let register :=
    vwap float_of_decimal_str (at_time (answer [no_image]) T0 ChannelOk)
         "alice" "https://cdn.example/a.png" "0xABC" (dec 100 0) in
  exists tk price,
    baseToken_symbol no_image = Some tk
    /\ price_of float_of_decimal_str no_image = Some price
    /\ Dict.get "0xabc" (price_alerts (run register (initial None)))
       = Some (mkAlert (dec 100 0) tk price "alice"
                       "https://cdn.example/a.png" LNone)
    /\ replies (run register (initial None)) = replies (initial None).
Proof.
  intros register.
  destruct (failed_reply_keeps_registration
              float_of_decimal_str (at_time (answer [no_image]) T0 ChannelOk)
              "alice"%string "https://cdn.example/a.png"%string
              "0xABC"%string (dec 100 0) (initial None)
              no_image [] eq_refl (or_introl eq_refl))
    as (tk & price & H0 & H1 & H2 & _ & H4 & _).
  exists tk, price. split; [exact H0 |]. split; [exact H1 |].
  split; [exact H2 | exact H4].
Defined.

(** A creation time beyond the year 9999 and a pair without the one-hour
    price change both stop [vwap] before it stores anything. *)
Lemma early_failures_register_nothing :
  let register p :=
    vwap float_of_decimal_str (at_time (answer [p]) T0 ChannelOk)
         "alice" "https://cdn.example/a.png" "0xABC" (dec 100 0) in
  register far_future two_alerts = (two_alerts, Raise ValueError)
  /\ register no_change two_alerts
     = (two_alerts, Raise (KeyError "priceChange"))
  /\ summary_ready float_of_decimal_str far_future = false
  /\ summary_ready float_of_decimal_str no_change = false
  /\ summary_ready float_of_decimal_str no_image = true.
Proof. vm_compute. repeat split. Qed.

Lemma incomplete_pair_registers_nothing_witness :
  run (vwap float_of_decimal_str (at_time (answer [no_cap]) T0 ChannelOk)
            "alice" "https://cdn.example/a.png" "0xABC" (dec 100 0))
      two_alerts
  = two_alerts.
Proof.
  exact (proj1 (incomplete_pair_registers_nothing
                  float_of_decimal_str (at_time (answer [no_cap]) T0 ChannelOk)
                  "alice"%string "https://cdn.example/a.png"%string
                  "0xABC"%string (dec 100 0) two_alerts
                  [no_cap] no_cap [] eq_refl eq_refl eq_refl)).
Defined.

Lemma unwritable_file_leaves_change_in_memory_witness :
  let register :=
    vwap float_of_decimal_str (read_only quoted_100) "alice"
         "https://cdn.example/a.png" "0xABC" (dec 100 0) in
  let remove := remove_token (read_only quoted_100) "0xAAA" in
  (outcome register (initial None) = Raise OSError
   /\ alerts_file (run register (initial None)) = None)
  /\ (outcome remove two_alerts = Raise OSError
      /\ Dict.get "0xaaa" (price_alerts (run remove two_alerts)) = None
      /\ alerts_file (run remove two_alerts) = alerts_file two_alerts).
Proof.
  intros register remove. split.
  - assert (Hch : price_alerts (run register (initial None))
                  <> price_alerts (initial None)).
    { intros H. vm_compute in H. discriminate H. }
    pose proof (proj1 unwritable_file_leaves_change_in_memory
                  float_of_decimal_str (read_only quoted_100) "alice"%string
                  "https://cdn.example/a.png"%string "0xABC"%string
                  (dec 100 0) (initial None) eq_refl Hch)
      as (H1 & _ & H3 & _).
    split; [exact H1 | exact H3].
  - assert (Hnd : NoDup (Dict.keys (price_alerts two_alerts)))
      by distinct_keys.
    pose proof (proj2 unwritable_file_leaves_change_in_memory
                  (read_only quoted_100) "0xAAA"%string two_alerts
                  Hnd eq_refl eq_refl) as (H1 & H2 & H3 & _).
    split; [exact H1 |]. split; [exact H2 | exact H3].
Defined.

Lemma register_then_remove_restores_witness :
  let w1 := run (vwap float_of_decimal_str calm "carol"
                      "https://cdn.example/c.png" "0xCCC" (dec 100 0))
                two_alerts in
  price_alerts (run (remove_token calm "0xccc") w1) = price_alerts two_alerts.
Proof.
  intros w1.
  exact (proj1 (register_then_remove_restores
                  float_of_decimal_str calm "carol"%string
                  "https://cdn.example/c.png"%string "0xCCC"%string (dec 100 0)
                  two_alerts calm "0xccc"%string
                  eq_refl eq_refl eq_refl eq_refl)).
Defined.

Lemma handlers_keep_well_formed_witness :
  well_formed
    (price_alerts
       (run (monitor_prices float_of_decimal_str (all_quoted T0)) two_alerts)).
Proof.
  apply (proj2 (proj2 handlers_keep_well_formed)).
  - intros addr. reflexivity.
  - split; [distinct_keys | repeat constructor].
Defined.

Lemma built_registry_never_type_error_witness :
  outcome (monitor_step float_of_decimal_str (all_quoted T0_plus_1min) 0)
          (one_alert (LTime T0))
  <> Raise TypeError.
Proof.
  apply (built_registry_never_type_error
           float_of_decimal_str (all_quoted T0_plus_1min) 0%nat
           (one_alert (LTime T0)) "0xabc"%string (alice (LTime T0))
           (quote "100"%string (Some (dec 50000 0))) [] 0).
  - split; [distinct_keys | repeat constructor].
  - reflexivity.
  - reflexivity.
  - reflexivity.
Defined.

Lemma zero_target_ends_tick_witness :
  let w := running [("0xaaa"%string, alice_at (S754_zero false) LNone);
                    ("0xbbb"%string, bob LNone)] in
  monitor_from float_of_decimal_str (all_quoted T0) 0 2 w
  = (observed 0 (dec 100 0) (alice_at (S754_zero false) LNone) w,
     Raise ZeroDivisionError).
Proof.
  intros w.
  exact (proj1 (zero_target_ends_tick
                  float_of_decimal_str (all_quoted T0) 0%nat 1%nat w
                  "0xaaa"%string (alice_at (S754_zero false) LNone)
                  (quote "100"%string (Some (dec 50000 0))) [] (dec 100 0)
                  eq_refl eq_refl eq_refl eq_refl)).
Defined.

Lemma unreadable_timestamp_ends_tick_witness :
  monitor_from float_of_decimal_str (all_quoted T0_plus_24h) 0 1
               (one_alert (LTime T0_naive))
  = (observed 0 (dec 100 0) (alice (LTime T0_naive))
              (one_alert (LTime T0_naive)),
     Raise TypeError).
Proof.
  refine (proj1 (unreadable_timestamp_ends_tick
                   float_of_decimal_str (all_quoted T0_plus_24h) 0%nat 0%nat
                   (one_alert (LTime T0_naive)) "0xabc"%string
                   (alice (LTime T0_naive))
                   (quote "100"%string (Some (dec 50000 0))) [] (dec 100 0)
                   (S754_zero false)
                   eq_refl eq_refl eq_refl eq_refl eq_refl _)).
  right. exists T0_naive, 0. repeat split.
Defined.

Lemma nan_never_alerts_witness :
  monitor_step float_of_decimal_str (all_quoted T0) 0 (only S754_nan LNone)
  = (observed 0 (dec 100 0) (alice_at S754_nan LNone) (only S754_nan LNone),
     Ok tt).
Proof.
  exact (proj1 (nan_never_alerts
                  float_of_decimal_str (all_quoted T0) 0%nat
                  (only S754_nan LNone) "0xabc"%string
                  (alice_at S754_nan LNone)
                  (quote "100"%string (Some (dec 50000 0))) [] (dec 100 0)
                  eq_refl eq_refl eq_refl (or_introl eq_refl))).
Defined.

Lemma outage_tick_changes_nothing_witness :
  outcome (monitor_prices float_of_decimal_str outage) two_alerts = Ok tt
  /\ price_alerts (run (monitor_prices float_of_decimal_str outage) two_alerts)
     = price_alerts two_alerts.
Proof.
  pose proof (outage_tick_changes_nothing float_of_decimal_str outage
                two_alerts (fun addr _ => eq_refl)) as (H1 & H2 & _).
  split; [exact H1 | exact H2].
Defined.

Lemma loaded_registry_has_unique_keys_witness :
  let twice := [("0xabc"%string, written "alice" None);
                ("0xabc"%string, written "bob" (Some "yesterday"%string))] in
  NoDup (Dict.keys (price_alerts
                      (run load_alerts (initial (Some (Document twice)))))).
Proof.
  intros twice.
  exact (proj1 (loaded_registry_has_unique_keys
                  (initial (Some (Document twice))) twice eq_refl)).
Defined.

Lemma on_ready_restores_saved_registry_witness :
  let R := [("0xabc"%string, alice (LTime T0_and_a_bit));
            ("0xdef"%string, bob (LTime T0_naive))] in
  let w := initial (Some (Document (json_dump R))) in
  outcome on_ready w = Ok tt
  /\ price_alerts (run on_ready w) = R
  /\ monitor_running (run on_ready w) = true.
Proof.
  intros R w.
  assert (Hnd : NoDup (Dict.keys R)) by distinct_keys.
  assert (Hst : Forall (fun kv => storable (last_alert_time (snd kv)) = true)
                       R) by (repeat constructor).
  pose proof (on_ready_restores_saved_registry w R eq_refl Hnd Hst)
    as (H1 & H2 & H3 & _).
  split; [exact H1 |]. split; [exact H2 | exact H3].
Defined.

Lemma registered_alert_is_listed_witness :
  let w1 := run (vwap float_of_decimal_str calm "alice"
                      "https://cdn.example/a.png" "0xABC" (dec 100 0))
                (initial None) in
  (exists tk,
      baseToken_symbol (quote "100" (Some (dec 50000 0))) = Some tk
      /\ In (tk, dec 100 0, LNone) (alert_lines (price_alerts w1)))
  /\ price_alerts (run (list_alerts calm) w1) = price_alerts w1.
Proof.
  intros w1.
  pose proof (registered_alert_is_listed
                float_of_decimal_str calm "alice"%string
                "https://cdn.example/a.png"%string "0xABC"%string (dec 100 0)
                (initial None)
                (quote "100"%string (Some (dec 50000 0))) [] calm
                eq_refl eq_refl eq_refl)
    as (_ & _ & H3 & _ & H5 & _).
  split; [exact H3 | exact H5].
Defined.

Lemma registry_keys_stay_lower_case_witness :
  lower_keyed
    (price_alerts
       (run (vwap float_of_decimal_str calm "alice"
                  "https://cdn.example/a.png" "0xABC" (dec 100 0))
            two_alerts)).
Proof.
  apply (proj1 registry_keys_stay_lower_case).
  repeat constructor.
Defined.
